(** * Anonymizer: the property dependency and derived-value engine

    A shallow embedding of [anonymizer/datasource/managers.py]: the
    classes [Property], [PropertyManager] and [UserManager], over a small
    model of the Python values, strings and library calls they use.
    Exceptions are values of [exn]; a call that may raise returns an
    [outcome].  ([anonymizer/datasource/manager.py] is an earlier variant
    of the same classes, without aggregates, dependencies or merge.) *)

From Stdlib Require Import ZArith Ascii String.
From stdpp Require Import base gmap strings list fin_maps pretty.

Local Open Scope string_scope.
Local Open Scope Z_scope.

(** ** Exceptions and fallible computations *)

Inductive exn : Type :=
  | IndexError
  | KeyError (key : string)
  | AttributeError
  | TypeError
  | ValueError (msg : string)
  | RecursionError                       (* maximum recursion depth exceeded *)
  | CsvError
  | ProviderNotFound (msg : string)
  | ProviderMethodNotFound (msg : string)
  | PropertyNotFoundException (msg : string)
  | UnknownOperatorException (op : string)
  | UserManagerException (msg : string)
  | CollaboratorError (msg : string).    (* raised by a connection or a provider *)

Inductive outcome (A : Type) : Type :=
  | Ok (a : A)
  | Err (e : exn).
Arguments Ok {A} a.
Arguments Err {A} e.

#[global] Instance result_ret : MRet outcome := fun A a => Ok a.
#[global] Instance result_bind : MBind outcome := fun A B f m =>
  match m with
  | Ok a => f a
  | Err e => Err e
  end.
#[global] Instance result_fmap : FMap outcome := fun A B f m =>
  match m with
  | Ok a => Ok (f a)
  | Err e => Err e
  end.

(** [for x in l: acc = step(acc, x)], stopping at the first exception. *)
Fixpoint foldM {A S : Type} (step : S → A → outcome S) (l : list A) (s : S)
  : outcome S :=
  match l with
  | [] => Ok s
  | x :: l' => s' ← step s x; foldM step l' s'
  end.

(** [[f(x) for x in l]], stopping at the first exception. *)
Fixpoint mapM {A B : Type} (f : A → outcome B) (l : list A) : outcome (list B) :=
  match l with
  | [] => Ok []
  | x :: l' => y ← f x; ys ← mapM f l'; Ok (y :: ys)
  end.

(** ** Python scalars *)

(** The scalars a fetched row, a provider or a configuration entry holds:
    [None], integers and (byte) strings.  Binary floating-point values are
    outside the model. *)
Inductive value : Type :=
  | VNone
  | VInt (n : Z)
  | VStr (s : string).

#[global] Instance value_eq_dec : EqDecision value.
Proof. solve_decision. Defined.

(** A record: the dict from property names to values built for one row. *)
Abbreviation record := (gmap string value).

Module Py.

(** Truth value of an object ([if x:], [not x]). *)
Definition truthy (v : value) : bool :=
  match v with
  | VNone => false
  | VInt n => negb (n =? 0)
  | VStr s => negb (String.eqb s EmptyString)
  end.

Definition str_truthy (s : string) : bool := negb (String.eqb s EmptyString).

Definition opt_truthy (o : option string) : bool :=
  match o with
  | Some s => str_truthy s
  | None => false
  end.

(** [str(x)]. *)
Definition str (v : value) : string :=
  match v with
  | VNone => "None"
  | VInt n => pretty n
  | VStr s => s
  end.

(** [x == y]: scalars of different types are never equal. *)
Definition eqb (x y : value) : bool := bool_decide (x = y).

(** Three-way comparison of Python 2: [None] is below every number, every
    number is below every string, strings compare byte-wise. *)
Definition compare (x y : value) : comparison :=
  match x, y with
  | VNone, VNone => Eq
  | VNone, _ => Lt
  | _, VNone => Gt
  | VInt a, VInt b => Z.compare a b
  | VInt _, VStr _ => Lt
  | VStr _, VInt _ => Gt
  | VStr a, VStr b => String.compare a b
  end.

(** *** Strings *)

Definition char_in (c : ascii) (cs : list ascii) : bool :=
  bool_decide (c ∈ cs).

(** [s1.startswith(s2)] *)
Definition startswith (s pre : string) : bool := String.prefix pre s.

(** [s[n:]] *)
Fixpoint drop (n : nat) (s : string) : string :=
  match n, s with
  | O, _ => s
  | S n', String _ s' => drop n' s'
  | S _, EmptyString => EmptyString
  end.

(** [s[:-1]] *)
Fixpoint drop_last (s : string) : string :=
  match s with
  | EmptyString => EmptyString
  | String c EmptyString => EmptyString
  | String c s' => String c (drop_last s')
  end.

(** [s[a:-1]] for [a >= 0] *)
Definition slice_to_last (a : nat) (s : string) : string :=
  drop a (drop_last s).

(** [s[0]] and [s[-1]] *)
Definition first (s : string) : outcome ascii :=
  match s with
  | EmptyString => Err IndexError
  | String c _ => Ok c
  end.

Fixpoint last_char (s : string) : option ascii :=
  match s with
  | EmptyString => None
  | String c EmptyString => Some c
  | String _ s' => last_char s'
  end.

Definition last (s : string) : outcome ascii :=
  match last_char s with
  | Some c => Ok c
  | None => Err IndexError
  end.

(** [s.find(c)] for a one-character needle: [None] stands for [-1]. *)
Fixpoint find (c : ascii) (s : string) : option nat :=
  match s with
  | EmptyString => None
  | String d s' =>
      if Ascii.eqb c d then Some O else S <$> find c s'
  end.

Definition rev_string (l : list ascii) : string :=
  string_of_list_ascii (rev l).

(** [s.split(sep)] for a non-empty separator.  [skip] counts the
    characters of a separator just matched that are still to be passed
    over; [cur] is the piece being read, reversed. *)
Fixpoint split_go (sep : string) (skip : nat) (cur : list ascii) (s : string)
  : list string :=
  match s with
  | EmptyString => [rev_string cur]
  | String c s' =>
      match skip with
      | S k => split_go sep k cur s'
      | O =>
          if String.prefix sep s
          then rev_string cur :: split_go sep (String.length sep - 1) [] s'
          else split_go sep O (c :: cur) s'
      end
  end.

Definition split (sep : string) (s : string) : list string :=
  split_go sep O [] s.

(** [s.replace(old, new)] for a non-empty [old]. *)
Fixpoint replace_go (old new : string) (skip : nat) (s : string) : string :=
  match s with
  | EmptyString => EmptyString
  | String c s' =>
      match skip with
      | S k => replace_go old new k s'
      | O =>
          if String.prefix old s
          then new ++ replace_go old new (String.length old - 1) s'
          else String c (replace_go old new O s')
      end
  end.

Definition replace (old new : string) (s : string) : string :=
  replace_go old new O s.

(** [sep.join(l)] *)
Definition join (sep : string) (l : list string) : string :=
  String.concat sep l.

(** [re.split('[...]', s)[0]]: the text before the first character of the
    class. *)
Fixpoint re_split_first (cls : list ascii) (s : string) : string :=
  match s with
  | EmptyString => EmptyString
  | String c s' =>
      if char_in c cls then EmptyString else String c (re_split_first cls s')
  end.

(** [s.lower()] *)
Definition lower_char (c : ascii) : ascii :=
  let n := nat_of_ascii c in
  if ((65 <=? n)%nat && (n <=? 90)%nat)%bool then ascii_of_nat (n + 32) else c.

Fixpoint lower (s : string) : string :=
  match s with
  | EmptyString => EmptyString
  | String c s' => String (lower_char c) (lower s')
  end.

(** [l[i]] on a list *)
Definition index {A : Type} (l : list A) (i : nat) : outcome A :=
  match l !! i with
  | Some x => Ok x
  | None => Err IndexError
  end.

(** [needle in s] on strings *)
Fixpoint contains (needle s : string) : bool :=
  String.prefix needle s ||
  match s with
  | EmptyString => false
  | String _ s' => contains needle s'
  end.

(** [s.count(needle)]: non-overlapping occurrences, [needle] non-empty. *)
Definition count (needle s : string) : nat :=
  Nat.pred (List.length (split needle s)).

(** *** [int(s)] on a string: optional blanks, optional sign, decimal
    digits; [None] stands for [ValueError]. *)

Definition is_space (c : ascii) : bool :=
  let n := nat_of_ascii c in
  ((n =? 32) || (9 <=? n) && (n <=? 13))%nat%bool.

Fixpoint lstrip (s : string) : string :=
  match s with
  | String c s' => if is_space c then lstrip s' else s
  | EmptyString => EmptyString
  end.

Definition strip (s : string) : string :=
  string_of_list_ascii
    (rev (list_ascii_of_string
            (lstrip (string_of_list_ascii
                       (rev (list_ascii_of_string (lstrip s))))))).

Definition digit (c : ascii) : option Z :=
  let n := nat_of_ascii c in
  if ((48 <=? n) && (n <=? 57))%nat%bool then Some (Z.of_nat n - 48) else None.

Fixpoint digits (acc : Z) (s : string) : option Z :=
  match s with
  | EmptyString => Some acc
  | String c s' =>
      match digit c with
      | Some d => digits (10 * acc + d) s'
      | None => None
      end
  end.

Definition unsigned (s : string) : option Z :=
  match s with
  | EmptyString => None
  | _ => digits 0 s
  end.

Definition int (s : string) : option Z :=
  match strip s with
  | String "-" s' => Z.opp <$> unsigned s'
  | String "+" s' => unsigned s'
  | s' => unsigned s'
  end.

End Py.

(** ** [csv.reader([line], delimiter=',')]: the first row

    The reader of the [csv] module in its default dialect (double-quote
    character for quoting, doubled inside a quoted field, not strict), as the character automaton of the
    module; [None] is the end-of-line signal. *)

Module Csv.

Inductive state : Type :=
  | START_RECORD | START_FIELD | IN_FIELD
  | IN_QUOTED_FIELD | QUOTE_IN_QUOTED_FIELD | EAT_CRNL.

Record parser : Type := {
  st : state;
  field : list ascii;        (* the field being read, reversed *)
  fields : list string;      (* the fields saved so far, reversed *)
}.

Definition save_field (p : parser) (s : state) : parser :=
  {| st := s; field := []; fields := Py.rev_string (field p) :: fields p |}.

Definition add_char (p : parser) (c : ascii) (s : state) : parser :=
  {| st := s; field := c :: field p; fields := fields p |}.

Definition set_state (p : parser) (s : state) : parser :=
  {| st := s; field := field p; fields := fields p |}.

Definition dquote : ascii := "034"%char.

Definition is_newline (c : ascii) : bool :=
  (Ascii.eqb c "010" || Ascii.eqb c "013")%char.

Definition start_field (p : parser) (c : option ascii) : outcome parser :=
  match c with
  | None => Ok (save_field p START_RECORD)
  | Some ch =>
      if is_newline ch then Ok (save_field p EAT_CRNL)
      else if Ascii.eqb ch dquote then Ok (set_state p IN_QUOTED_FIELD)
      else if Ascii.eqb ch "," then Ok (save_field p START_FIELD)
      else Ok (add_char p ch IN_FIELD)
  end.

Definition process_char (p : parser) (c : option ascii) : outcome parser :=
  match st p with
  | START_RECORD =>
      match c with
      | None => Ok p
      | Some ch =>
          if is_newline ch then Ok (set_state p EAT_CRNL)
          else start_field p c
      end
  | START_FIELD => start_field p c
  | IN_FIELD =>
      match c with
      | None => Ok (save_field p START_RECORD)
      | Some ch =>
          if is_newline ch then Ok (save_field p EAT_CRNL)
          else if Ascii.eqb ch "," then Ok (save_field p START_FIELD)
          else Ok (add_char p ch IN_FIELD)
      end
  | IN_QUOTED_FIELD =>
      match c with
      | None => Ok p
      | Some ch =>
          if Ascii.eqb ch dquote then Ok (set_state p QUOTE_IN_QUOTED_FIELD)
          else Ok (add_char p ch IN_QUOTED_FIELD)
      end
  | QUOTE_IN_QUOTED_FIELD =>
      match c with
      | None => Ok (save_field p START_RECORD)
      | Some ch =>
          if Ascii.eqb ch dquote then Ok (add_char p ch IN_QUOTED_FIELD)
          else if Ascii.eqb ch "," then Ok (save_field p START_FIELD)
          else if is_newline ch then Ok (save_field p EAT_CRNL)
          else Ok (add_char p ch IN_FIELD)
      end
  | EAT_CRNL =>
      match c with
      | None => Ok (set_state p START_RECORD)
      | Some ch => if is_newline ch then Ok p else Err CsvError
      end
  end.

Definition feed (p : parser) (ch : ascii) : outcome parser :=
  if Ascii.eqb ch "000" then Err CsvError else process_char p (Some ch).

(** [next(csv.reader([line], delimiter=','))] *)
Definition first_row (line : string) : outcome (list string) :=
  p ← foldM feed (list_ascii_of_string line)
        {| st := START_RECORD; field := []; fields := [] |};
  p ← process_char p None;
  match st p with
  | START_RECORD => Ok (rev (fields p))
  | _ =>
      (* the input has no further line: an open quoted field is saved *)
      Ok (rev (fields (save_field p START_RECORD)))
  end.

End Csv.

(** ** [hashlib.sha1(data).hexdigest()]

    SHA-1 over the bytes of the string, 32-bit words as [Z] with the
    wrap-around written out. *)

Module Sha1.

Definition w32 (x : Z) : Z := x mod 2 ^ 32.

Definition rotl (n : Z) (x : Z) : Z :=
  w32 (Z.lor (Z.shiftl x n) (Z.shiftr x (32 - n))).

Definition bytes_of (s : string) : list Z :=
  map (fun c => Z.of_nat (nat_of_ascii c)) (list_ascii_of_string s).

(** the 64-bit big-endian length, in bits *)
Definition length_bytes (bits : Z) : list Z :=
  map (fun i => Z.shiftr bits (8 * i) mod 256) [7; 6; 5; 4; 3; 2; 1; 0].

Definition pad (msg : list Z) : list Z :=
  let n := Z.of_nat (List.length msg) in
  let zeros := Z.to_nat ((55 - n) mod 64) in
  msg ++ [128] ++ replicate zeros 0 ++ length_bytes (8 * n).

Fixpoint words (fuel : nat) (bs : list Z) : list Z :=
  match fuel, bs with
  | S fuel', b0 :: b1 :: b2 :: b3 :: bs' =>
      (Z.shiftl b0 24 + Z.shiftl b1 16 + Z.shiftl b2 8 + b3)
        :: words fuel' bs'
  | _, _ => []
  end.

Fixpoint chunks (fuel : nat) (ws : list Z) : list (list Z) :=
  match fuel, ws with
  | S fuel', _ :: _ => take 16 ws :: chunks fuel' (List.skipn 16 ws)
  | _, _ => []
  end.

(** the message schedule, most recent word first *)
Fixpoint schedule (n : nat) (w : list Z) : list Z :=
  match n with
  | O => w
  | S n' =>
      let x := w !!! 2%nat in
      let y := w !!! 7%nat in
      let z := w !!! 13%nat in
      let u := w !!! 15%nat in
      schedule n' (rotl 1 (Z.lxor (Z.lxor (Z.lxor x y) z) u) :: w)
  end.

Definition f (t : nat) (b c d : Z) : Z :=
  if (t <? 20)%nat then Z.lor (Z.land b c) (Z.land (Z.lxor b (2 ^ 32 - 1)) d)
  else if (t <? 40)%nat then Z.lxor (Z.lxor b c) d
  else if (t <? 60)%nat
       then Z.lor (Z.lor (Z.land b c) (Z.land b d)) (Z.land c d)
  else Z.lxor (Z.lxor b c) d.

Definition k (t : nat) : Z :=
  if (t <? 20)%nat then 0x5A827999
  else if (t <? 40)%nat then 0x6ED9EBA1
  else if (t <? 60)%nat then 0x8F1BBCDC
  else 0xCA62C1D6.

Definition hstate : Type := Z * Z * Z * Z * Z.

Definition round (s : hstate) (tw : nat * Z) : hstate :=
  let '(a, b, c, d, e) := s in
  let '(t, w) := tw in
  (w32 (rotl 5 a + f t b c d + e + k t + w), a, rotl 30 b, c, d).

Definition compress (h : hstate) (block : list Z) : hstate :=
  let w := rev (schedule 64 (rev block)) in
  let '(a, b, c, d, e) := fold_left round (imap (fun t x => (t, x)) w) h in
  let '(h0, h1, h2, h3, h4) := h in
  (w32 (h0 + a), w32 (h1 + b), w32 (h2 + c), w32 (h3 + d), w32 (h4 + e)).

Definition init : hstate :=
  (0x67452301, 0xEFCDAB89, 0x98BADCFE, 0x10325476, 0xC3D2E1F0).

Definition digest (s : string) : hstate :=
  let bs := pad (bytes_of s) in
  fold_left compress (chunks (List.length bs) (words (List.length bs) bs)) init.

Definition hex_digit (n : Z) : ascii :=
  match string_of_list_ascii
          [ascii_of_nat (Z.to_nat (if n <? 10 then 48 + n else 87 + n))] with
  | String c _ => c
  | EmptyString => "0"%char
  end.

Definition hex_word (w : Z) : string :=
  string_of_list_ascii
    (map (fun i => hex_digit (Z.shiftr w (4 * i) mod 16))
         [7; 6; 5; 4; 3; 2; 1; 0]).

Definition hexdigest (s : string) : string :=
  let '(h0, h1, h2, h3, h4) := digest s in
  hex_word h0 ++ hex_word h1 ++ hex_word h2 ++ hex_word h3 ++ hex_word h4.

End Sha1.

(** ** External collaborators *)

(** A fetched row: the tuple of column values, in select-list order. *)
Abbreviation row := (list value).

(** A store connection: [execute(query).fetchall()]. *)
Record Connection : Type := {
  execute : string → outcome (list row);
}.

(** [cursor.fetchone()]: the first row, or [None]. *)
Definition fetchone (c : Connection) (query : string) : outcome (option row) :=
  rows ← execute c query; Ok (head rows).

(** A provider operation, called with the list of its arguments. *)
Definition method : Type := list value → outcome value.

(** A provider class, as [getattr(cls, name)] sees it. *)
Record provider_class : Type := {
  getattr : string → option method;
}.

(** The connection manager ([connection_manager.get(name)]) and the
    provider classes [pydoc.locate] finds. *)
Record Collaborators : Type := {
  cm_get : string → outcome Connection;
  locate : string → option provider_class;
}.

(** [float(s)] and the comparison of a scalar with the float it returns
    ([None]: unordered): the only floating-point operations of the code. *)
Class FloatOps : Type := {
  float : Type;
  to_float : string → option float;
  compare_float : value → float → option comparison;
}.

(** ** class Property *)

Module Property.

#[warnings="-register-all"]
Inductive t : Type := Build {
  source : string;
  table : string;
  column : string;
  aggregate : option string;
  filter_by : bool;
  is_pk : bool;
  name : string;
  label : string;
  tp : value;
  connection : option Connection;     (* set for a stored property *)
  user_fk : option t;                 (* set for a stored property *)
  fn : method;                        (* set for a generated property *)
  fn_args : list string;              (* set for a generated property *)
}.

(** [self.source[0] in ['^']]; [__init__] has already indexed the pieces
    of [source], which fails on an empty one. *)
Definition source_is_generated (source : string) : bool :=
  match source with
  | String c _ => Ascii.eqb c "^"
  | EmptyString => false
  end.

Definition is_generated (self : t) : bool :=
  source_is_generated (source self).

Definition unset_fn : method := fun _ => Err AttributeError.

Section Init.
Context (env : Collaborators).

(** The body of [__init__]; [mk_fk] is the constructor call made for a
    foreign key. *)
Definition init_body (mk_fk : string → outcome t)
    (source : string) (user_fk : option string) (name : option string)
    (tp : value) (aggregate : option string) (label : option string)
    (filter_by : bool) (is_pk : bool) : outcome t :=
  let before_at := Py.split "@" source in
  s0 ← Py.index before_at 0;
  table ← Py.index (Py.split "." s0) 0;
  column ← Py.index (Py.split "." s0) 1;
  let name :=
    if Py.opt_truthy name then default EmptyString name
    else if Py.opt_truthy aggregate
         then column ++ "__" ++ default EmptyString aggregate
         else column in
  let label := if Py.opt_truthy label then default EmptyString label else name in
  let tp := if Py.truthy tp then tp else VStr "VARCHAR" in
  if negb (source_is_generated source) then
    (* find responsible db connection *)
    conn_name ← Py.index before_at 1;
    conn ← cm_get env conn_name;
    fk ← (if Py.opt_truthy user_fk
          then Some <$> mk_fk (default EmptyString user_fk)
          else Ok None);
    Ok {| source := source; table := table; column := column;
          aggregate := aggregate; filter_by := filter_by; is_pk := is_pk;
          name := name; label := label; tp := tp;
          connection := Some conn; user_fk := fk;
          fn := unset_fn; fn_args := [] |}
  else
    (* load provider class *)
    cls_part ← Py.index (Py.split "." source) 0;
    let cls_name := "anonymizer.datasource.providers." ++ Py.drop 1 cls_part in
    match locate env cls_name with
    | None => Err (ProviderNotFound ("Provider " ++ cls_name ++ " was not found"))
    | Some cls =>
        (* load provider class method *)
        fn_part ← Py.index (Py.split "." source) 1;
        fn_name ← Py.index (Py.split "(" fn_part) 0;
        match getattr cls fn_name with
        | None =>
            Err (ProviderMethodNotFound
                   ("Provider method " ++ fn_name ++ " was not found"))
        | Some fn =>
            (* load arguments *)
            let pos := match Py.find "(" source with
                       | Some i => S i
                       | None => O
                       end in
            let args_str := Py.slice_to_last pos source in
            fn_args ← Csv.first_row args_str;
            (* if the type must be inferred execute the __type helper *)
            tp ← (if Py.eqb tp (VStr "###") then
                    match getattr cls (fn_name ++ "__type") with
                    | None =>
                        Err (ProviderMethodNotFound
                               ("Provider method " ++ fn_name ++
                                " declared dynamic type but function " ++
                                fn_name ++ "__type was not found"))
                    | Some fn_type => fn_type (VStr <$> fn_args)
                    end
                  else Ok tp);
            Ok {| source := source; table := table; column := column;
                  aggregate := aggregate; filter_by := filter_by;
                  is_pk := is_pk; name := name; label := label; tp := tp;
                  connection := None; user_fk := None;
                  fn := fn; fn_args := fn_args |}
        end
    end.

(** [Property(connection_manager, user_fk, user_fk=None)] *)
Definition init_fk (source : string) : outcome t :=
  init_body (fun _ => Err TypeError) source None None VNone None None
            true false.

(** [Property(connection_manager, source, user_fk, name, tp, aggregate,
    label, filter_by, is_pk)] *)
Definition init := init_body init_fk.

End Init.

Definition full (self : t) : string :=
  let result := table self ++ "." ++ column self in
  if Py.opt_truthy (aggregate self)
  then default EmptyString (aggregate self) ++ "(" ++ result ++ ")"
  else result.

(** *** [matches] *)

Definition op_chars : list ascii := ["="; "<"; ">"; "!"]%char.

(** One turn of the scanning loop over [filter_exp[len(f_name):]]. *)
Definition scan_step (st : string * string) (char : ascii) : string * string :=
  let '(operator, exp) := st in
  if negb (Py.str_truthy exp) then
    if Py.char_in char op_chars
    then (operator ++ String char EmptyString, exp)
    else (operator, String char EmptyString)
  else (operator, exp ++ String char EmptyString).

Definition scan (rest : string) : string * string :=
  fold_left scan_step (list_ascii_of_string rest) (EmptyString, EmptyString).

(** Quote removal: when [s[0] == s[-1]] is a double quote, or a single
    quote, [s] becomes [s[1:-1]]. *)
Definition strip_quotes (s : string) : outcome string :=
  c0 ← Py.first s;
  c1 ← Py.last s;
  if (Ascii.eqb c0 c1 && Ascii.eqb c1 Csv.dquote)
     || (Ascii.eqb c0 c1 && Ascii.eqb c1 "'")
  then Ok (Py.slice_to_last 1 s)
  else Ok s.

(** The filter operand once coerced. *)
Inductive operand `{FloatOps} : Type :=
  | OVal (v : value)
  | OFloat (x : float).

Definition is_int (v : value) : bool :=
  match v with
  | VInt _ => true
  | _ => false
  end.

(** [x in r_arr] for a list of strings *)
Definition in_strings (v : value) (l : list string) : bool :=
  match v with
  | VStr s => bool_decide (s ∈ l)
  | _ => false
  end.

(** One turn of [for idx, r in enumerate(ranges)]. *)
Definition scalar_step (st : value * value) (ir : nat * string)
  : value * value :=
  let '(val, exp) := st in
  let '(idx, r) := ir in
  let r_arr := Py.split "=" r in
  let r_arr := if (List.length r_arr =? 1)%nat then (r_arr ++ take 1 r_arr)%list else r_arr in
  let val' := if in_strings val r_arr then VInt (Z.of_nat idx) else val in
  let exp' := if in_strings exp r_arr then VInt (Z.of_nat idx) else exp in
  (val', exp').

Definition apply_operator (operator : string) (c : option comparison)
  : outcome bool :=
  let holds x := match c with Some y => bool_decide (x = y) | None => false end in
  if String.eqb operator "=" then Ok (holds Eq)
  else if String.eqb operator "!=" then Ok (negb (holds Eq))
  else if String.eqb operator ">" then Ok (holds Gt)
  else if String.eqb operator ">=" then Ok (holds Gt || holds Eq)
  else if String.eqb operator "<" then Ok (holds Lt)
  else if String.eqb operator "<=" then Ok (holds Lt || holds Eq)
  else Err (UnknownOperatorException operator).

Section Matches.
Context `{FloatOps}.

(** The type-directed coercion of the value and of the operand: bucket
    indexes for a scalar type, a number where the operand reads as
    one. *)
Definition coerce (self : t) (val : value) (exp : string)
  : outcome (value * operand) :=
  tp_str ← match tp self with
           | VStr s => Ok s
           | _ => Err AttributeError
           end;
  if Py.startswith (Py.lower tp_str) "scalar" then
    inner ← Py.index (Py.split "(" tp_str) 1;
    let ranges := Py.split "," (Py.drop_last inner) in
    let '(val, exp) :=
      fold_left scalar_step (imap (fun i r => (i, r)) ranges)
                (val, VStr exp) in
    if negb (is_int val)
    then Err (ValueError ("Invalid option: " ++ Py.str val))
    else if negb (is_int exp)
    then Err (ValueError ("Invalid option: " ++ Py.str exp))
    else Ok (val, OVal exp)
  else
    (* read as number if possible *)
    match Py.int exp with
    | Some n => Ok (val, OVal (VInt n))
    | None =>
        match to_float exp with
        | Some x => Ok (val, OFloat x)
        | None => Ok (val, OVal (VStr exp))
        end
    end.

Definition compare_operand (val : value) (exp : operand)
  : option comparison :=
  match exp with
  | OVal e => Some (Py.compare val e)
  | OFloat x => compare_float val x
  end.

(** Checks if the value [val] follows the filter expression. *)
Definition matches (self : t) (val : value) (filter_exp : string)
  : outcome bool :=
  let f_name := Py.re_split_first ["="; "!"; "<"; ">"]%char filter_exp in
  let '(operator, exp) := scan (Py.drop (String.length f_name) filter_exp) in
  (* remove quotes *)
  val ← match val with
        | VStr s => VStr <$> strip_quotes s
        | _ => Ok val
        end;
  exp ← strip_quotes exp;
  ve ← coerce self val exp;
  (* apply the operator *)
  apply_operator operator (compare_operand ve.1 ve.2).

End Matches.

End Property.

(** ** class PropertyManager *)

Module PropertyManager.

(** One entry of [configuration.data['sites'][0]['properties']]. *)
Record property_info : Type := {
  pi_source : string;
  pi_name : string;
  pi_type : value;
  pi_user_fk : option string;
  pi_aggregate : option string;
  pi_label : option string;
  pi_expose : option bool;
}.

(** [configuration.data['sites'][0]] *)
Record Configuration : Type := {
  cfg_user_pk : string;
  cfg_properties : list property_info;
}.

Record t : Type := {
  connection_manager : Collaborators;
  configuration : Configuration;
  user_pk : Property.t;
  properties : list Property.t;
  token : value;
}.

Definition init_property (env : Collaborators) (property_info : property_info)
  : outcome Property.t :=
  let user_fk := pi_user_fk property_info in
  let aggregate := pi_aggregate property_info in
  let label := match pi_label property_info with
               | Some l => l
               | None => pi_name property_info
               end in
  let expose := default true (pi_expose property_info) in
  Property.init env (pi_source property_info) user_fk
                (Some (pi_name property_info)) (pi_type property_info)
                aggregate (Some label) expose false.

(** [PropertyManager(connection_manager, configuration, token)];
    [uuid4] is the value [uuid.uuid4()] returns. *)
Definition init (env : Collaborators) (configuration : Configuration)
    (token : value) (uuid4 : value) : outcome t :=
  user_pk ← Property.init env (cfg_user_pk configuration) None None VNone
                          None None true true;
  props ← mapM (init_property env) (cfg_properties configuration);
  (* generate manager token *)
  let token := if negb (Py.truthy token) then uuid4 else token in
  Ok {| connection_manager := env; configuration := configuration;
        user_pk := user_pk; properties := user_pk :: props;
        token := token |}.

Definition get_primary_key (self : t) : option Property.t :=
  List.find Property.is_pk (properties self).

Definition get_property_by_name (self : t) (name : string)
  : option Property.t :=
  List.find (fun prop => String.eqb (Property.name prop) name)
            (properties self).

Definition list_filters (self : t) : list (string * string * value) :=
  (fun p => (Property.name p, Property.label p, Property.tp p))
    <$> List.filter Property.filter_by (properties self).

(** [get_dependencies(prop)].  [depth] is the number of nested calls the
    interpreter still allows; [prop] is [None] when the caller passes the
    result of a failed lookup. *)
Fixpoint get_dependencies (depth : nat) (self : t) (prop : option Property.t)
  : outcome (list Property.t) :=
  match depth with
  | O => Err RecursionError
  | S depth' =>
      match prop with
      | None => Err AttributeError
      | Some prop =>
          if Property.is_generated prop then
            foldM (fun result p_name =>
                     c ← Py.first p_name;
                     if Ascii.eqb c "@" then
                       let dep_prop := get_property_by_name self (Py.drop 1 p_name) in
                       (* the dependencies of this dependency property
                          are also mine *)
                       deps ← get_dependencies depth' self dep_prop;
                       Ok (result ++ option_list dep_prop ++ deps)%list
                     else Ok result)
                  (Property.fn_args prop) []
          else Ok []
      end
  end.

(** *** [info] *)

(** [row[idx]]; [row] is [None] when [fetchone] found nothing. *)
Definition row_index (row : option row) (idx : nat) : outcome value :=
  match row with
  | None => Err TypeError
  | Some r => Py.index r idx
  end.

(** [hashlib.sha1(str(self.token) + '###' + str(raw)).hexdigest()] *)
Definition hash_input (token raw : value) : string :=
  Py.str token ++ "###" ++ Py.str raw.

Definition anonymize (token raw : value) : value :=
  VStr (Sha1.hexdigest (hash_input token raw)).

(** fill property values from database *)
Definition fill_step (self : t) (row : option row) (st : nat * record)
    (prop : Property.t) : outcome (nat * record) :=
  let '(idx, result) := st in
  if negb (Property.is_generated prop) then
    raw ← row_index row idx;
    let v := if Property.is_pk prop
             then anonymize (token self) raw   (* primary key *)
             else raw                          (* default property *) in
    Ok (S idx, <[Property.name prop := v]> result)
  else Ok st.

Definition not_found_msg (name : string) : string :=
  "Property " ++ String Csv.dquote name ++ String Csv.dquote " was not found.".

(** replace property names with their values *)
Definition substitute (result : record) (fn_arg : string) : outcome value :=
  if Py.str_truthy fn_arg then
    match fn_arg with
    | String "@" ref =>
        match result !! ref with
        | Some v => Ok v
        | None => Err (PropertyNotFoundException (not_found_msg ref))
        end
    | _ => Ok (VStr fn_arg)
    end
  else Ok (VStr fn_arg).

(** generate other properties *)
Definition generate_step (result : record) (prop : Property.t)
  : outcome record :=
  if Property.is_generated prop then
    fn_args ← mapM (substitute result) (Property.fn_args prop);
    (* apply function and save the result *)
    v ← Property.fn prop fn_args;
    Ok (<[Property.name prop := v]> result)
  else Ok result.

Definition exposed (self : t) (key : string) : bool :=
  match get_property_by_name self key with
  | Some prop => Property.filter_by prop
  | None => false
  end.

(** removed non-exposed properties: every key is looked up by name, and
    kept when its property is exposed. *)
Definition strip_hidden (self : t) (result : record) : outcome record :=
  if bool_decide
       (map_Forall (fun key _ => is_Some (get_property_by_name self key)) result)
  then Ok (base.filter (fun kv => exposed self kv.1 = true) result)
  else Err AttributeError.

Definition info (self : t) (row : option row) : outcome record :=
  '(_, result) ← foldM (fill_step self row) (properties self) (O, ∅);
  result ← foldM generate_step (properties self) result;
  strip_hidden self result.

(** *** Filtering by generated properties *)

Section Filters.
Context `{FloatOps}.

Definition filter_by_generated_step (self : t) (results : list record)
    (g_filter : string) : outcome (list record) :=
  let f_name := Py.re_split_first ["="; "<"; ">"]%char g_filter in
  match get_property_by_name self f_name with
  | None => Err AttributeError
  | Some prop =>
      if Property.is_generated prop then
        keep ← mapM (fun result =>
                       match result !! Property.name prop with
                       | None => Err (KeyError (Property.name prop))
                       | Some v => Property.matches prop v g_filter
                       end) results;
        Ok (snd <$> List.filter fst (zip keep results))
      else Ok results
  end.

Definition filter_by_generated (self : t) (results : list record)
    (generated_filters : list string) : outcome (list record) :=
  foldM (filter_by_generated_step self) generated_filters results.

End Filters.

(** *** The query *)

Definition stored (self : t) : list Property.t :=
  List.filter (fun prop => negb (Property.is_generated prop)) (properties self).

Definition select_clause (self : t) : string :=
  "SELECT " ++
  Py.join "," ((fun prop => Property.full prop ++ " AS " ++ Property.name prop)
                 <$> stored self) ++ " ".

Definition from_clause (self : t) : string :=
  "FROM " ++ Property.table (user_pk self) ++ " ".

Definition join_step (self : t) (join_clause : string) (prop : Property.t)
  : string :=
  if negb (Property.is_generated prop) then
    match Property.user_fk prop with
    | Some fk =>
        join_clause ++ "LEFT OUTER JOIN " ++ Property.table prop ++ " ON " ++
        Property.full fk ++ "=" ++ Property.full (user_pk self) ++ " "
    | None => join_clause
    end
  else join_clause.

(** find all joins *)
Definition join_clause (self : t) : string :=
  fold_left (join_step self) (properties self) EmptyString.

Definition query (self : t) : string :=
  select_clause self ++ from_clause self ++ join_clause self.

(** [self.user_pk.connection.execute(q)] *)
Definition pk_connection (self : t) : outcome Connection :=
  match Property.connection (user_pk self) with
  | Some c => Ok c
  | None => Err AttributeError
  end.

Definition group_by (self : t) : string :=
  " GROUP BY " ++ Property.full (user_pk self).

(** The query [all] executes. *)
Definition all_query (self : t) : string :=
  query self ++ group_by self.

Definition all (self : t) : outcome (list record) :=
  let query := all_query self in
  conn ← pk_connection self;
  rows ← execute conn query;
  mapM (fun row => info self (Some row)) rows.

(** The argument of [filter]: [None], one expression, or a list. *)
Inductive filters_arg : Type :=
  | FNone
  | FStr (s : string)
  | FList (l : list string).

Definition filters_truthy (filters : filters_arg) : bool :=
  match filters with
  | FNone => false
  | FStr s => Py.str_truthy s
  | FList l => negb (bool_decide (l = []))
  end.

Definition filters_list (filters : filters_arg) : list string :=
  match filters with
  | FList l => l
  | FStr s => Py.split " AND " (Py.replace " and " " AND " s)
  | FNone => []
  end.

(** The three groups of [filter]: generated, concrete, aggregate. *)
Definition route (self : t) (acc : list string * list string * list string)
    (f : string) : outcome (list string * list string * list string) :=
  let '(filters_generated, filters_concrete, filters_aggregate) := acc in
  match get_property_by_name self (Py.re_split_first ["="; "<"; ">"]%char f) with
  | None => Err AttributeError
  | Some prop =>
      if negb (Property.filter_by prop) then
        Err (PropertyNotFoundException (not_found_msg (Property.name prop)))
      else if Property.is_generated prop then
        Ok ((filters_generated ++ [f])%list, filters_concrete, filters_aggregate)
      else if bool_decide (Property.aggregate prop = None) then
        Ok (filters_generated, (filters_concrete ++ [f])%list, filters_aggregate)
      else
        Ok (filters_generated, filters_concrete, (filters_aggregate ++ [f])%list)
  end.

Definition separate (self : t) (filters : list string)
  : outcome (list string * list string * list string) :=
  foldM (route self) filters ([], [], []).

(** The query [filter] executes for routed filters. *)
Definition filter_query (self : t) (filters_concrete filters_aggregate : list string)
  : string :=
  let query := query self in
  let query :=
    if negb (bool_decide (filters_concrete = []))
    then query ++ "WHERE " ++ Py.join " AND " filters_concrete
    else query in
  let query := query ++ group_by self in
  if negb (bool_decide (filters_aggregate = []))
  then query ++ " HAVING " ++ Py.join " AND " filters_aggregate
  else query.

(** The query [get] executes. *)
Definition get_query (self : t) (pk : value) : string :=
  let where_clause :=
    "WHERE " ++ Property.full (user_pk self) ++ "=" ++ Py.str pk in
  query self ++ where_clause.

Definition get (self : t) (pk : value) : outcome record :=
  let query := get_query self pk in
  conn ← pk_connection self;
  row ← fetchone conn query;
  info self row.

Section Filter.
Context `{FloatOps}.

Definition filter (self : t) (filters : filters_arg) : outcome (list record) :=
  if negb (filters_truthy filters) then all self
  else
    '(filters_generated, filters_concrete, filters_aggregate) ←
      separate self (filters_list filters);
    let query := filter_query self filters_concrete filters_aggregate in
    conn ← pk_connection self;
    rows ← execute conn query;
    result ← mapM (fun row => info self (Some row)) rows;
    (* filter by generated fields & return result *)
    filter_by_generated self result filters_generated.

End Filter.

End PropertyManager.

(** ** class UserManager *)

Module UserManager.

Record t : Type := {
  pm : PropertyManager.t;
}.

Definition get (self : t) (pk : value) : outcome record :=
  let user_pk := PropertyManager.user_pk (pm self) in
  (* Ensures the user exists *)
  let query := "SELECT " ++ Property.full user_pk ++ " AS pk FROM " ++
               Property.table user_pk ++ " WHERE pk=" ++ Py.str pk in
  conn ← PropertyManager.pk_connection (pm self);
  result ← execute conn query;
  (* check uniqueness *)
  match result with
  | [] => Err (UserManagerException
                 ("User with id=" ++ Py.str pk ++ " does not exist"))
  | [_] => PropertyManager.get (pm self) pk
  | _ => Err (UserManagerException
                ("More than one users with id=" ++ Py.str pk ++ " where found"))
  end.

Definition all (self : t) : outcome (list record) :=
  PropertyManager.all (pm self).

Section Filter.
Context `{FloatOps}.

Definition filter (self : t) (filters : PropertyManager.filters_arg)
  : outcome (list record) :=
  PropertyManager.filter (pm self) filters.

Definition count (self : t) (filters : PropertyManager.filters_arg)
  : outcome nat :=
  qs ← (if PropertyManager.filters_truthy filters
        then PropertyManager.filter (pm self) filters
        else PropertyManager.all (pm self));
  Ok (List.length qs).

End Filter.

Definition list_filters (self : t) : list (string * string * value) :=
  PropertyManager.list_filters (pm self).

(** [dirty]: some dependency is missing from either record or differs. *)
Definition dirty (old_user u : record) (dependencies : list Property.t) : bool :=
  existsb (fun dependency =>
             match old_user !! Property.name dependency,
                   u !! Property.name dependency with
             | Some vo, Some vu => negb (Py.eqb vu vo)
             | _, _ => true
             end) dependencies.

(** One turn of [for prop in self.pm.properties] over the copy [u]. *)
Definition merge_step (depth : nat) (self : t) (old_user : record)
    (u : record) (prop : Property.t) : outcome record :=
  if Property.is_generated prop then
    (* check if this property depends on any other that has changes *)
    dependencies ← PropertyManager.get_dependencies depth (pm self) (Some prop);
    if negb (dirty old_user u dependencies) then
      match old_user !! Property.name prop with
      | Some v => Ok (<[Property.name prop := v]> u)
      | None => Err (KeyError (Property.name prop))
      end
    else Ok u
  else Ok u.

Definition merge (depth : nat) (self : t) (old_user user : record)
  : outcome record :=
  foldM (merge_step depth self old_user) (PropertyManager.properties (pm self)) user.

(** [d[pk.name]] with [pk] the result of [get_primary_key]. *)
Definition pk_value (pk : option Property.t) (d : record) : outcome value :=
  match pk with
  | None => Err AttributeError
  | Some pk =>
      match d !! Property.name pk with
      | Some v => Ok v
      | None => Err (KeyError (Property.name pk))
      end
  end.

(** try to find user in the old list: the merged record of the first old
    record with the same key, [None] when there is none. *)
Fixpoint find_old (depth : nat) (self : t) (pk : option Property.t)
    (user : record) (old_list : list record) : outcome (option record) :=
  match old_list with
  | [] => Ok None
  | old_user :: old_list' =>
      ko ← pk_value pk old_user;
      kn ← pk_value pk user;
      if Py.eqb ko kn then Some <$> merge depth self old_user user
      else find_old depth self pk user old_list'
  end.

(** combine two lists of users, an old and a new version; [depth] is the
    recursion depth left to [get_dependencies]. *)
Definition combine (depth : nat) (self : t) (old_list new_list : list record)
  : outcome (list record) :=
  let pk := PropertyManager.get_primary_key (pm self) in
  mapM (fun user =>
          found ← find_old depth self pk user old_list;
          match found with
          | Some u => Ok u
          | None => Ok user
          end) new_list.

End UserManager.

(** ** Sample configurations *)

Module Examples.

Definition rows : list row :=
  [[VInt 7; VStr "Alice"; VInt 30]; [VInt 8; VStr "Bob"; VInt 41]].

Definition db1 : Connection := {| execute := fun _ => Ok rows |}.

(** A provider with two operations: [identity] returns its first
    argument ([None] without one), [const] returns a fixed string. *)
Definition identity : method := fun args =>
  match args with
  | v :: _ => Ok v
  | [] => Ok VNone
  end.

Definition const : method := fun _ => Ok (VStr "k").

Definition Echo : provider_class :=
  {| getattr := fun fn_name =>
       if String.eqb fn_name "identity" then Some identity
       else if String.eqb fn_name "const" then Some const
       else None |}.

Definition env : Collaborators :=
  {| cm_get := fun conn_name =>
       if String.eqb conn_name "db1" then Ok db1
       else Err (CollaboratorError conn_name);
     locate := fun cls_name =>
       if String.eqb cls_name "anonymizer.datasource.providers.Echo"
       then Some Echo else None |}.

Definition entry (source name : string) : PropertyManager.property_info :=
  {| PropertyManager.pi_source := source;
     PropertyManager.pi_name := name;
     PropertyManager.pi_type := VStr "VARCHAR";
     PropertyManager.pi_user_fk := None;
     PropertyManager.pi_aggregate := None;
     PropertyManager.pi_label := None;
     PropertyManager.pi_expose := None |}.

Definition hidden (e : PropertyManager.property_info)
  : PropertyManager.property_info :=
  {| PropertyManager.pi_source := PropertyManager.pi_source e;
     PropertyManager.pi_name := PropertyManager.pi_name e;
     PropertyManager.pi_type := PropertyManager.pi_type e;
     PropertyManager.pi_user_fk := PropertyManager.pi_user_fk e;
     PropertyManager.pi_aggregate := PropertyManager.pi_aggregate e;
     PropertyManager.pi_label := PropertyManager.pi_label e;
     PropertyManager.pi_expose := Some false |}.

Definition joined (source name user_fk : string) (aggregate : option string)
  : PropertyManager.property_info :=
  {| PropertyManager.pi_source := source;
     PropertyManager.pi_name := name;
     PropertyManager.pi_type := VStr "INT";
     PropertyManager.pi_user_fk := Some user_fk;
     PropertyManager.pi_aggregate := aggregate;
     PropertyManager.pi_label := None;
     PropertyManager.pi_expose := None |}.

Definition site (entries : list PropertyManager.property_info)
  : PropertyManager.Configuration :=
  {| PropertyManager.cfg_user_pk := "users.id@db1";
     PropertyManager.cfg_properties := entries |}.

Definition no_property : Property.t :=
  Property.Build EmptyString EmptyString EmptyString None true false
                 EmptyString EmptyString VNone None None Property.unset_fn [].

(** The manager [PropertyManager(env, site(entries), token)] when the
    constructor returns; an empty one when it raises. *)
Definition manager (entries : list PropertyManager.property_info)
    (token : value) : PropertyManager.t :=
  match PropertyManager.init env (site entries) token (VStr "uuid4") with
  | Ok self => self
  | Err _ =>
      {| PropertyManager.connection_manager := env;
         PropertyManager.configuration := site entries;
         PropertyManager.user_pk := no_property;
         PropertyManager.properties := [];
         PropertyManager.token := token |}
  end.

(** users(id, name, age) with a generated copy of the name. *)
Definition basic : list PropertyManager.property_info :=
  [entry "users.name@db1" "name"; entry "users.age@db1" "age";
   entry "^Echo.identity(@name)" "alias"].

(** [nick] reads [alias], which is declared after it. *)
Definition out_of_order : list PropertyManager.property_info :=
  [entry "users.name@db1" "name";
   entry "^Echo.identity(@alias)" "nick";
   entry "^Echo.identity(@name)" "alias"].

(** [ping] and [pong] read each other. *)
Definition cyclic : list PropertyManager.property_info :=
  [entry "users.name@db1" "name";
   entry "^Echo.identity(@pong)" "ping";
   entry "^Echo.identity(@ping)" "pong"].

(** [alias] reads a property nobody declares. *)
Definition undeclared : list PropertyManager.property_info :=
  [entry "users.name@db1" "name"; entry "^Echo.identity(@nickname)" "alias"].

(** Two properties read through the same foreign key. *)
Definition two_joins : list PropertyManager.property_info :=
  [entry "users.name@db1" "name";
   joined "orders.id@db1" "orders" "orders.user_id@db1" (Some "count");
   joined "orders.total@db1" "spent" "orders.user_id@db1" (Some "sum")].

(** A generated value with no reference, and one derived from it. *)
Definition chained : list PropertyManager.property_info :=
  [entry "users.name@db1" "name";
   entry "^Echo.const()" "salt";
   entry "^Echo.identity(@salt)" "code"].

(** A generated property whose argument list ends in an empty argument. *)
Definition empty_argument : list PropertyManager.property_info :=
  [entry "users.name@db1" "name"; entry "^Echo.const(a,)" "salt"].

(** The key column declared once more, as an ordinary property. *)
Definition key_again : list PropertyManager.property_info :=
  [entry "users.name@db1" "name"; entry "users.id@db1" "uid"].

(** A generated property that is not exposed. *)
Definition hidden_salt : list PropertyManager.property_info :=
  [entry "users.name@db1" "name"; hidden (entry "^Echo.const()" "salt")].

Definition record_of (l : list (string * value)) : record := list_to_map l.

(** Float operations under which no operand reads as a float: enough
    for expressions whose operands are integers or words. *)
Definition no_float : FloatOps :=
  {| float := Empty_set;
     to_float := fun _ => None;
     compare_float := fun _ x => match x with end |}.

End Examples.

(** * Vocabulary of the statements *)

(** ** Filter expressions *)

(** The comparison operators of a filter expression. *)
Definition operators : list string := ["="; "!="; ">"; ">="; "<"; "<="].

(** The name holds none of the characters operators are made of. *)
Definition no_operator_char (f_name : string) : Prop :=
  Forall (fun c => Py.char_in c Property.op_chars = false) (list_ascii_of_string f_name).

(** ** The query *)

(** The properties that contribute a join to the query, and the join each
    contributes. *)
Definition has_join (prop : Property.t) : bool :=
  negb (Property.is_generated prop) &&
  match Property.user_fk prop with Some _ => true | None => false end.

Definition join_text (self : PropertyManager.t) (prop : Property.t) : string :=
  match Property.user_fk prop with
  | Some fk =>
      "LEFT OUTER JOIN " ++ Property.table prop ++ " ON " ++
      Property.full fk ++ "=" ++ Property.full (PropertyManager.user_pk self) ++ " "
  | None => EmptyString
  end.

Definition concat_all (l : list string) : string :=
  foldr String.append EmptyString l.

(** ** Row evaluation *)

Definition sample_token : value := VStr "run-1".

(** The names of the declared properties. *)
Definition names (self : PropertyManager.t) : list string :=
  Property.name <$> PropertyManager.properties self.

(** The number of columns the query selects. *)
Definition stored_count (props : list Property.t) : nat :=
  List.length (List.filter (fun prop => negb (Property.is_generated prop)) props).

(** Every provider operation of the list returns, whatever its arguments. *)
Definition providers_return (props : list Property.t) : Prop :=
  ∀ prop args, prop ∈ props → Property.is_generated prop = true →
    ∃ v, Property.fn prop args = Ok v.

(** [arg] is a literal, or a reference to a name among [known]. *)
Definition arg_resolved (known : list string) (arg : string) : bool :=
  match arg with
  | String "@" ref => bool_decide (ref ∈ known)
  | _ => true
  end.

(** Every reference of a generated property names a value that is in
    [known] when the property's turn comes: [known] grows by the name of
    each generated property as the list is walked. *)
Fixpoint refs_resolved (known : list string) (props : list Property.t) : bool :=
  match props with
  | [] => true
  | prop :: props' =>
      if Property.is_generated prop
      then forallb (arg_resolved known) (Property.fn_args prop)
           && refs_resolved (Property.name prop :: known) props'
      else refs_resolved known props'
  end.

(** Every reference names a stored property or a generated property
    declared earlier. *)
Definition declared_before (self : PropertyManager.t) : bool :=
  refs_resolved (Property.name <$> PropertyManager.stored self)
                (PropertyManager.properties self).

(** The shape [__init__] gives a manager: the primary key comes first, is a
    stored, exposed property, and no other property bears its name. *)
Definition key_first (self : PropertyManager.t) : Prop :=
  ∃ rest,
    PropertyManager.properties self = PropertyManager.user_pk self :: rest
    ∧ Property.is_generated (PropertyManager.user_pk self) = false
    ∧ Property.is_pk (PropertyManager.user_pk self) = true
    ∧ Property.filter_by (PropertyManager.user_pk self) = true
    ∧ ∀ prop, prop ∈ rest →
        Property.name prop ≠ Property.name (PropertyManager.user_pk self).

Definition sample_row : row := [VInt 7; VStr "Alice"; VInt 30].

(** ** Dependencies *)

(** [get_dependencies] returns for every property of the manager. *)
Definition dependencies_resolve (depth : nat) (self : PropertyManager.t) : bool :=
  forallb (fun prop =>
             match PropertyManager.get_dependencies depth self (Some prop) with
             | Ok _ => true
             | Err _ => false
             end) (PropertyManager.properties self).

(** [rank] decreases along every resolved reference of a generated
    property of the manager: the references have no cycle. *)
Definition acyclic (self : PropertyManager.t) (rank : Property.t → nat) : Prop :=
  ∀ prop ref dep,
    prop ∈ PropertyManager.properties self →
    Property.is_generated prop = true →
    String "@" ref ∈ Property.fn_args prop →
    PropertyManager.get_property_by_name self ref = Some dep →
    (rank dep < rank prop)%nat.

(** One turn of the loop of [get_dependencies] over [prop.fn_args]. *)
Definition dependency_step (self : PropertyManager.t) (depth : nat)
    (result : list Property.t) (p_name : string) : outcome (list Property.t) :=
  c ← Py.first p_name;
  if Ascii.eqb c "@" then
    let dep_prop := PropertyManager.get_property_by_name self (Py.drop 1 p_name) in
    deps ← PropertyManager.get_dependencies depth self dep_prop;
    Ok (result ++ option_list dep_prop ++ deps)%list
  else Ok result.

(** ** The merge *)


(** The argument is a reference [@name]. *)
Definition is_reference (arg : string) : bool :=
  match arg with
  | String "@" _ => true
  | _ => false
  end.







Definition sample_users : UserManager.t :=
  {| UserManager.pm := Examples.manager Examples.chained sample_token |}.

Definition sample_old : record :=
  Examples.record_of
    [("id", VStr "k7"); ("name", VStr "Alice");
     ("salt", VStr "salt-1"); ("code", VStr "code-1")].

Definition sample_new : record :=
  Examples.record_of
    [("id", VStr "k7"); ("name", VStr "Alicia");
     ("salt", VStr "salt-2"); ("code", VStr "code-2")].

Definition sample_other : record :=
  Examples.record_of
    [("id", VStr "k8"); ("name", VStr "Bob");
     ("salt", VStr "salt-3"); ("code", VStr "code-3")].

(** Proof steps over the sample configurations *)

(** Membership in the property list of a sample manager, case by case. *)
Ltac each_property Hin :=
  match type of Hin with
  | _ ∈ ?l =>
      let l' := eval vm_compute in l in
      change l with l' in Hin;
      repeat (apply elem_of_cons in Hin as [-> | Hin]);
      [.. | by apply elem_of_nil in Hin]
  end.


(** A second set of collaborators: the connection [db0] finds no row. *)
Definition empty_db : Connection := {| execute := fun _ => Ok [] |}.

Definition empty_env : Collaborators :=
  {| cm_get := fun conn_name =>
       if String.eqb conn_name "db0" then Ok empty_db
       else Err (CollaboratorError conn_name);
     locate := locate Examples.env |}.

Definition empty_manager : PropertyManager.t :=
  match PropertyManager.init empty_env
          {| PropertyManager.cfg_user_pk := "users.id@db0";
             PropertyManager.cfg_properties := [] |}
          sample_token (VStr "uuid4") with
  | Ok self => self
  | Err _ => Examples.manager [] sample_token
  end.

(** The operand of a filter expression: it does not begin with a character
    operators are made of. *)
Definition begins_operand (e : string) : Prop :=
  ∃ c rest, e = String c rest ∧ Py.char_in c Property.op_chars = false.

(** The value once its quotes are removed. *)
Definition unquoted (val val' : value) : Prop :=
  match val with
  | VStr s => ∃ s', Property.strip_quotes s = Ok s' ∧ val' = VStr s'
  | _ => val' = val
  end.

(** The property has a type that is not a scalar enumeration. *)
Definition plain_type (self : Property.t) : Prop :=
  ∃ t, Property.tp self = VStr t ∧ Py.startswith (Py.lower t) "scalar" = false.

(** What an operator says of two integers. *)
Definition int_holds (op : string) (v n : Z) : bool :=
  if String.eqb op "=" then (v =? n)%Z
  else if String.eqb op "!=" then negb (v =? n)%Z
  else if String.eqb op ">" then (n <? v)%Z
  else if String.eqb op ">=" then (n <=? v)%Z
  else if String.eqb op "<" then (v <? n)%Z
  else (v <=? n)%Z.

(** What an operator says of a string value against a number: the string
    is the greater, whatever it holds. *)
Definition above_holds (op : string) : bool :=
  String.eqb op "!=" || String.eqb op ">" || String.eqb op ">=".

(** The property has a scalar enumeration type [scalar(r1,...,rn)] whose
    options are [ranges]. *)
Definition scalar_type (self : Property.t) (ranges : list string) : Prop :=
  ∃ t inner, Property.tp self = VStr t
    ∧ Py.startswith (Py.lower t) "scalar" = true
    ∧ Py.index (Py.split "(" t) 1 = Ok inner
    ∧ ranges = Py.split "," (Py.drop_last inner).

(** The position of the first option of which [s] is one of the spellings
    (an option [a=b] has the spellings [a] and [b]). *)
Fixpoint bucket (ranges : list string) (s : string) : option nat :=
  match ranges with
  | [] => None
  | r :: rest =>
      if bool_decide (s ∈ Py.split "=" r) then Some O else S <$> bucket rest s
  end.

(** The value after the loop over the options numbered from [k]. *)
Definition resolve (k : nat) (ranges : list string) (v : value) : value :=
  match v with
  | VStr s =>
      match bucket ranges s with
      | Some i => VInt (Z.of_nat (k + i))
      | None => v
      end
  | _ => v
  end.

(** A property of the type [scalar(low=l,mid,high=h)]. *)
Definition sample_level : Property.t :=
  Property.Build EmptyString EmptyString EmptyString None true false
                 "level" "level" (VStr "scalar(low=l,mid,high=h)") None None
                 Property.unset_fn [].

(** A property of the type [int]. *)
Definition sample_age : Property.t :=
  Property.Build EmptyString EmptyString EmptyString None true false
                 "age" "age" (VStr "int") None None Property.unset_fn [].

(** ** Routing *)

(** The property a filter is routed by: the one named by the text before
    the first of [=], [<], [>]. *)
Definition filter_property (self : PropertyManager.t) (f : string)
  : option Property.t :=
  PropertyManager.get_property_by_name self
    (Py.re_split_first ["="; "<"; ">"]%char f).

(** The filter is routed by a property on which [P] holds. *)
Definition routed (self : PropertyManager.t) (P : Property.t → bool) (f : string)
  : bool :=
  match filter_property self f with
  | Some prop => P prop
  | None => false
  end.

Definition is_concrete (prop : Property.t) : bool :=
  negb (Property.is_generated prop) && bool_decide (Property.aggregate prop = None).

Definition is_aggregate (prop : Property.t) : bool :=
  negb (Property.is_generated prop)
  && negb (bool_decide (Property.aggregate prop = None)).

(** The record passes the filter: its value for the property of the
    filter matches; a filter on a stored property lets every record
    pass. *)
Definition passes `{FloatOps} (self : PropertyManager.t) (r : record) (f : string)
  : bool :=
  match filter_property self f with
  | Some prop =>
      if Property.is_generated prop then
        match r !! Property.name prop with
        | Some v =>
            match Property.matches prop v f with
            | Ok b => b
            | Err _ => false
            end
        | None => false
        end
      else true
  | None => true
  end.

(** users(id, name) with the sum of their orders and a generated copy of
    the name. *)
Definition sample_shop : PropertyManager.t :=
  Examples.manager
    [Examples.entry "users.name@db1" "name";
     Examples.joined "orders.total@db1" "spent" "orders.user_id@db1" (Some "sum");
     Examples.entry "^Echo.identity(@name)" "alias"]
    sample_token.

Definition sample_alice : record :=
  Examples.record_of [("name", VStr "Alice"); ("alias", VStr "Alice")].

Definition sample_bob : record :=
  Examples.record_of [("name", VStr "Bob"); ("alias", VStr "Bob")].

(** ** Sources *)

(** The character does not occur in the string. *)
Definition without (c : ascii) (s : string) : Prop :=
  c ∉ list_ascii_of_string s.

(** The source [table.column@connection] of a stored property. *)
Definition stored_source (table column conn_name : string) : string :=
  table ++ "." ++ column ++ "@" ++ conn_name.

(** The three parts of a stored source are free of the separators. *)
Definition plain_parts (table column conn_name : string) : Prop :=
  without "@" table ∧ without "." table
  ∧ without "@" column ∧ without "." column
  ∧ without "@" conn_name.

(** The source [^Class.method(arguments)] of a generated property. *)
Definition generated_source (cls_name fn_name args_str : string) : string :=
  "^" ++ cls_name ++ "." ++ fn_name ++ "(" ++ args_str ++ ")".

(** The two names of a generated source are free of the separators. *)
Definition plain_names (cls_name fn_name : string) : Prop :=
  without "@" cls_name ∧ without "." cls_name ∧ without "(" cls_name
  ∧ without "@" fn_name ∧ without "." fn_name ∧ without "(" fn_name.

(** What the constructor of the manager makes of one configuration
    entry. *)
Definition configured (info : PropertyManager.property_info) (prop : Property.t)
  : Prop :=
  Property.source prop = PropertyManager.pi_source info
  ∧ Property.is_pk prop = false
  ∧ Property.filter_by prop = default true (PropertyManager.pi_expose info)
  ∧ Property.aggregate prop = PropertyManager.pi_aggregate info
  ∧ (PropertyManager.pi_name info ≠ EmptyString →
     Property.name prop = PropertyManager.pi_name info).

(** A provider whose operation [const] declares its type. *)
Definition Typed : provider_class :=
  {| getattr := fun fn_name =>
       if String.eqb fn_name "const" then Some Examples.const
       else if String.eqb fn_name "const__type" then Some (fun _ => Ok (VStr "INT"))
       else None |}.

Definition typed_env : Collaborators :=
  {| cm_get := cm_get Examples.env;
     locate := fun cls_name =>
       if String.eqb cls_name "anonymizer.datasource.providers.Typed"
       then Some Typed else locate Examples.env cls_name |}.

(** No generated property of the manager bears the name. *)
Definition stored_name (self : UserManager.t) (k : string) : Prop :=
  ∀ prop, prop ∈ PropertyManager.properties (UserManager.pm self) →
    Property.is_generated prop = true → Property.name prop ≠ k.

(** The record [u] of the result stands for the new record [user]: its
    stored values are those of [user], and each of its values is that of
    [user] or that of a record of the old list. *)
Definition stands_for (self : UserManager.t) (old_list : list record)
    (user u : record) : Prop :=
  (∀ k, stored_name self k → u !! k = user !! k)
  ∧ ∀ k, u !! k = user !! k
         ∨ ∃ old_user, old_user ∈ old_list ∧ u !! k = old_user !! k.

(** The arguments resolve: the loop of the resolver over them returns. *)
Definition resolves (depth : nat) (self : PropertyManager.t) (args : list string)
  : Prop :=
  ∃ result, foldM (dependency_step self depth) args [] = Ok result.

(** A record as [info] returns it for the manager of [hidden_salt]. *)
Definition sample_visible : record :=
  Examples.record_of [("id", VStr "k7"); ("name", VStr "Alice")].

(** The columns of the [SELECT] clause, in order. *)
Definition select_columns (self : PropertyManager.t) : list string :=
  (fun prop => Property.full prop ++ " AS " ++ Property.name prop)
    <$> PropertyManager.stored self.

(** The arguments before the first reference are literals, none empty;
    [ref] is that first reference. *)
Definition first_reference (args : list string) (ref : string) : Prop :=
  ∃ literals rest,
    args = (literals ++ String "@" ref :: rest)%list
    ∧ Forall (fun arg => is_reference arg = false ∧ arg ≠ EmptyString) literals.

(** The properties of [loop] read each other: each is generated, and its
    first reference names a property of [loop]. *)
Definition looping (self : PropertyManager.t) (loop : Property.t → Prop) : Prop :=
  ∀ prop, loop prop →
    Property.is_generated prop = true
    ∧ ∃ ref next,
        first_reference (Property.fn_args prop) ref
        ∧ PropertyManager.get_property_by_name self ref = Some next
        ∧ loop next.


(** [k] is the name of an exposed property. *)
Definition exposed_name (self : PropertyManager.t) (k : string) : Prop :=
  ∃ prop, prop ∈ PropertyManager.properties self
          ∧ Property.name prop = k ∧ Property.filter_by prop = true.

(** * Properties of the engine *)

(** ** Loops and exceptions *)

Section Bind.
Context {A B : Type}.

Lemma bind_Ok (m : outcome A) (f : A → outcome B) (b : B) :
  m ≫= f = Ok b ↔ ∃ a, m = Ok a ∧ f a = Ok b.
Proof.
  destruct m as [a|e]; simpl; split.
  - eauto.
  - intros (a' & Ha & Hf). inversion Ha; subst; exact Hf.
  - discriminate.
  - intros (a' & Ha & _). discriminate.
Qed.

Lemma bind_Err (m : outcome A) (f : A → outcome B) (e : exn) :
  m ≫= f = Err e ↔ m = Err e ∨ ∃ a, m = Ok a ∧ f a = Err e.
Proof.
  destruct m as [a|e']; simpl; split.
  - intros Hf. right. exists a. split; [reflexivity | exact Hf].
  - intros [Ha | (a' & Ha & Hf)]; [discriminate |]. inversion Ha; subst; exact Hf.
  - intros Ha. left. by inversion Ha.
  - intros [Ha | (a' & Ha & _)]; [by inversion Ha | discriminate].
Qed.

End Bind.

Section Loops.
Context {A B S : Type}.

Lemma foldM_app (step : S → A → outcome S) (l1 l2 : list A) (s : S) :
  foldM step (l1 ++ l2) s = foldM step l1 s ≫= foldM step l2.
Proof.
  revert s. induction l1 as [|x l1 IH]; intros s; simpl; [done |].
  destruct (step s x); simpl; auto.
Qed.

(** An invariant kept by every successful turn holds when the loop returns. *)
Lemma foldM_invariant (P : S → Prop) (step : S → A → outcome S) (l : list A) :
  (∀ s x s', x ∈ l → P s → step s x = Ok s' → P s') →
  ∀ s s', P s → foldM step l s = Ok s' → P s'.
Proof.
  induction l as [|x l IH]; intros Hstep s s' Hs; simpl.
  - by intros [= <-].
  - intros (s1 & H1 & H2)%bind_Ok.
    eapply IH; [| | exact H2].
    + intros ? ? ? ?. apply Hstep. by right.
    + eapply Hstep; [by left | exact Hs | exact H1].
Qed.


(** The exception of a loop is the exception of one of its turns. *)
Lemma foldM_error (step : S → A → outcome S) (l : list A) (s : S) (e : exn) :
  foldM step l s = Err e → ∃ s1 x, x ∈ l ∧ step s1 x = Err e.
Proof.
  revert s. induction l as [|x l IH]; intros s; simpl; [done |].
  intros [H | (s1 & H1 & H2)]%bind_Err.
  - exists s, x. split; [by left | done].
  - destruct (IH _ H2) as (s2 & y & ? & ?). exists s2, y. split; [by right | done].
Qed.

Lemma mapM_Ok (f : A → outcome B) (l : list A) :
  (∀ x, x ∈ l → ∃ y, f x = Ok y) → ∃ ys, mapM f l = Ok ys.
Proof.
  induction l as [|x l IH]; intros Hf; simpl; [eauto |].
  destruct (Hf x) as [y ->]; [by left |]. simpl.
  destruct IH as [ys ->]; [intros; apply Hf; by right |]. simpl. eauto.
Qed.

Lemma mapM_error (f : A → outcome B) (l : list A) (e : exn) :
  mapM f l = Err e → ∃ x, x ∈ l ∧ f x = Err e.
Proof.
  induction l as [|x l IH]; simpl; [done |].
  intros [H | (y & Hy & [H | (ys & Hys & H)]%bind_Err)]%bind_Err.
  - exists x. split; [by left | done].
  - destruct (IH H) as (z & ? & ?). exists z. split; [by right | done].
  - done.
Qed.

Lemma mapM_fails (f : A → outcome B) (l : list A) (x : A) :
  x ∈ l → (∃ e, f x = Err e) → ∃ e, mapM f l = Err e.
Proof.
  intros Hx [e He]. induction l as [|z l IH]; [by apply elem_of_nil in Hx |].
  simpl. apply elem_of_cons in Hx as [<- | Hx].
  - rewrite He. simpl. eauto.
  - destruct (f z); simpl; [| eauto].
    destruct (IH Hx) as [e' ->]. simpl. eauto.
Qed.

End Loops.

(** ** The filter engine: an empty operand *)

Lemma re_split_first_prefix (cls : list ascii) (pre rest : string) (c : ascii) :
  Forall (fun x => Py.char_in x cls = false) (list_ascii_of_string pre) →
  Py.char_in c cls = true →
  Py.re_split_first cls (pre ++ String c rest) = pre.
Proof.
  intros Hn Hc. induction pre as [|a s IH]; simpl.
  - by rewrite Hc.
  - inversion Hn as [|? ? Ha Hs]; subst. by rewrite Ha, IH.
Qed.

Lemma not_in_class (cls : list ascii) (f_name : string) :
  cls ⊆ Property.op_chars → no_operator_char f_name →
  Forall (fun x => Py.char_in x cls = false) (list_ascii_of_string f_name).
Proof.
  intros Hsub Hn. eapply Forall_impl; [exact Hn |]. intros x. unfold Py.char_in.
  rewrite !bool_decide_eq_false. intros Hx Hin. by apply Hx, Hsub.
Qed.

Lemma drop_length_app (s rest : string) :
  Py.drop (String.length s) (s ++ rest) = rest.
Proof. induction s; simpl; auto. Qed.

Lemma last_char_nonempty (c : ascii) (s : string) :
  is_Some (Py.last_char (String c s)).
Proof. revert c. induction s as [|d s IH]; intros c; simpl; [eauto | apply IH]. Qed.

Lemma strip_quotes_error (s : string) (e : exn) :
  Property.strip_quotes s = Err e → e = IndexError.
Proof.
  destruct s as [|c s]; [by inversion 1 |].
  unfold Property.strip_quotes, Py.last. simpl Py.first.
  destruct (last_char_nonempty c s) as [d ->]. simpl.
  by destruct (_ || _).
Qed.

(** C10: a filter expression that ends with its operator ("age=" and the
    like) leaves the operand empty, and [matches] raises [IndexError] when
    the quote removal indexes it (or, before that, an empty string value),
    whatever the property and the value. *)
Theorem matches_empty_operand `{FloatOps} (self : Property.t) (val : value)
    (f_name op : string) :
  no_operator_char f_name → op ∈ operators →
  Property.matches self val (f_name ++ op) = Err IndexError.
Proof.
  intros Hn Hop. unfold Property.matches.
  assert (∃ c rest, op = String c rest ∧
            Py.char_in c ["="; "!"; "<"; ">"]%char = true ∧
            Property.scan op = (op, EmptyString)) as (c & rest & -> & Hc & Hscan).
  { unfold operators in Hop.
    repeat (apply elem_of_cons in Hop as [-> | Hop];
            [eexists _, _; split; [reflexivity | split; reflexivity] |]).
    by apply elem_of_nil in Hop. }
  rewrite (re_split_first_prefix ["="; "!"; "<"; ">"]%char f_name rest c),
    drop_length_app, Hscan; [| apply not_in_class; [| done] | done].
  2: { unfold Property.op_chars. intros x.
       rewrite !elem_of_cons, !elem_of_nil. tauto. }
  destruct val as [| n | s]; simpl; try reflexivity.
  destruct (Property.strip_quotes s) as [|e] eqn:E; [reflexivity |].
  by rewrite (strip_quotes_error _ _ E).
Qed.

Lemma matches_empty_operand_witness :
  Property.matches (H := Examples.no_float) Examples.no_property (VInt 5) "age=" = Err IndexError.
Proof.
  apply (matches_empty_operand (H := Examples.no_float) Examples.no_property (VInt 5) "age" "=").
  - unfold no_operator_char. simpl. repeat constructor.
  - unfold operators. set_solver.
Defined.

(** ** The query planner *)

Lemma append_cons (x : ascii) (a b : string) :
  String x a ++ b = String x (a ++ b).
Proof. reflexivity. Qed.

Lemma append_assoc (a b c : string) : (a ++ b) ++ c = a ++ (b ++ c).
Proof.
  induction a as [|x a IH]; [done |]. by rewrite !append_cons, IH.
Qed.

Lemma append_nil_r (a : string) : a ++ EmptyString = a.
Proof. induction a as [|x a IH]; [done |]. by rewrite append_cons, IH. Qed.

Lemma contains_prefix (needle rest : string) :
  Py.contains needle (needle ++ rest) = true.
Proof.
  assert (String.prefix needle (needle ++ rest) = true) as Hp.
  { induction needle as [|c n IH]; [by destruct rest |].
    rewrite append_cons. simpl. by destruct (ascii_dec c c). }
  destruct (needle ++ rest); cbn [Py.contains]; by rewrite Hp.
Qed.

Lemma contains_app_r (needle a b : string) :
  Py.contains needle b = true → Py.contains needle (a ++ b) = true.
Proof.
  intros Hb. induction a as [|c a IH]; [done |].
  rewrite append_cons. simpl. rewrite IH. apply orb_true_r.
Qed.

Lemma contains_cons (needle : string) (c : ascii) (s : string) :
  Py.contains needle (String c s) =
  String.prefix needle (String c s) || Py.contains needle s.
Proof. reflexivity. Qed.

Lemma prefix_app (needle s b : string) :
  String.prefix needle s = true → String.prefix needle (s ++ b) = true.
Proof.
  revert s. induction needle as [|x n IH]; intros s.
  - intros _. by destruct (s ++ b).
  - destruct s as [|y s]; [done |]. rewrite append_cons. simpl.
    destruct (ascii_dec x y); [apply IH | done].
Qed.

Lemma contains_app_l (needle a b : string) :
  Py.contains needle a = true → Py.contains needle (a ++ b) = true.
Proof.
  induction a as [|c a IH].
  - destruct needle; [intros _ | done]. by destruct b.
  - rewrite append_cons, !contains_cons. intros [Hp | Hc]%orb_true_iff.
    + rewrite <- append_cons, (prefix_app _ _ _ Hp). done.
    + rewrite (IH Hc). apply orb_true_r.
Qed.

Lemma join_step_eq (self : PropertyManager.t) (acc : string) (prop : Property.t) :
  PropertyManager.join_step self acc prop =
  acc ++ (if has_join prop then join_text self prop else EmptyString).
Proof.
  unfold PropertyManager.join_step, has_join, join_text.
  destruct (Property.is_generated prop), (Property.user_fk prop); simpl;
    by rewrite ?append_nil_r.
Qed.

Lemma join_clause_from (self : PropertyManager.t) (l : list Property.t) (acc : string) :
  fold_left (PropertyManager.join_step self) l acc =
  acc ++ concat_all (join_text self <$> List.filter has_join l).
Proof.
  revert acc. induction l as [|prop l IH]; intros acc.
  - symmetry. apply append_nil_r.
  - cbn [fold_left List.filter]. rewrite IH, join_step_eq.
    destruct (has_join prop).
    + by rewrite append_assoc.
    + by rewrite append_nil_r.
Qed.

(** C8 (as the code has it): the join clause holds one LEFT OUTER JOIN for
    every stored property that declares a foreign key, in declaration
    order; nothing removes a join whose table was already joined. *)
Theorem join_clause_one_per_property (self : PropertyManager.t) :
  PropertyManager.join_clause self =
  concat_all (join_text self <$> List.filter has_join (PropertyManager.properties self)).
Proof. unfold PropertyManager.join_clause. by rewrite join_clause_from. Qed.

Lemma contains_self (needle : string) : Py.contains needle needle = true.
Proof.
  pose proof (contains_prefix needle EmptyString) as H.
  by rewrite append_nil_r in H.
Qed.

Lemma group_by_in_all_query (self : PropertyManager.t) :
  Py.contains (PropertyManager.group_by self) (PropertyManager.all_query self) = true.
Proof. unfold PropertyManager.all_query. apply contains_app_r, contains_self. Qed.

Lemma group_by_in_filter_query (self : PropertyManager.t)
    (filters_concrete filters_aggregate : list string) :
  Py.contains (PropertyManager.group_by self)
    (PropertyManager.filter_query self filters_concrete filters_aggregate) = true.
Proof.
  unfold PropertyManager.filter_query. cbv zeta.
  destruct (negb (bool_decide (filters_aggregate = []))).
  - apply contains_app_l, contains_app_r, contains_self.
  - apply contains_app_r, contains_self.
Qed.

(** C7: the query of [all] and of [filter] always holds the GROUP BY on
    the primary key (the two lemmas above); the query [get] executes is
    the plain query followed by its WHERE clause, with no GROUP BY. *)
Theorem get_query_has_no_group_by :
  PropertyManager.get_query (Examples.manager Examples.basic sample_token) (VInt 7) =
    "SELECT users.id AS id,users.name AS name,users.age AS age FROM users WHERE users.id=7"
  ∧ Py.contains "GROUP BY"
      (PropertyManager.get_query (Examples.manager Examples.basic sample_token) (VInt 7)) = false
  ∧ Py.contains "GROUP BY"
      (PropertyManager.all_query (Examples.manager Examples.basic sample_token)) = true.
Proof. vm_compute. done. Qed.

(** C8, refuted as stated: two properties read through the same foreign
    key put the join of their table twice in the query. *)
Lemma joins_not_deduplicated :
  PropertyManager.query (Examples.manager Examples.two_joins sample_token) =
    "SELECT users.id AS id,users.name AS name,count(orders.id) AS orders,sum(orders.total) AS spent FROM users LEFT OUTER JOIN orders ON orders.user_id=users.id LEFT OUTER JOIN orders ON orders.user_id=users.id "
  ∧ ¬ (Py.count "LEFT OUTER JOIN orders "
         (PropertyManager.query (Examples.manager Examples.two_joins sample_token)) ≤ 1)%nat.
Proof. split; [by vm_compute | vm_compute; lia]. Qed.

(** ** Routing of the filters *)

Lemma list_ascii_of_string_app (a b : string) :
  list_ascii_of_string (a ++ b) =
  (list_ascii_of_string a ++ list_ascii_of_string b)%list.
Proof.
  induction a as [|x a IH]; [done |]. rewrite append_cons. simpl. by rewrite IH.
Qed.

Lemma not_equal_split (f_name v : string) :
  no_operator_char f_name →
  Py.re_split_first ["="; "<"; ">"]%char (f_name ++ "!=" ++ v) = f_name ++ "!".
Proof.
  intros Hn.
  change (f_name ++ "!=" ++ v) with (f_name ++ ("!" ++ String "=" v)).
  rewrite <- append_assoc. apply re_split_first_prefix; [| done].
  rewrite list_ascii_of_string_app. apply Forall_app. split.
  - apply not_in_class; [| done]. unfold Property.op_chars. intros x.
    rewrite !elem_of_cons, !elem_of_nil. tauto.
  - by repeat constructor.
Qed.

(** C6: [filter] splits the expression at the first of [=], [<], [>], so
    for the operator [!=] it looks up the name followed by [!]; with no
    property of that name the lookup returns [None] and reading
    [prop.filter_by] raises, where [matches] splits at [!] as well. *)
Theorem filter_not_equal_raises `{FloatOps} (self : PropertyManager.t)
    (f_name v : string) :
  no_operator_char f_name →
  PropertyManager.get_property_by_name self (f_name ++ "!") = None →
  PropertyManager.filter self (PropertyManager.FList [f_name ++ "!=" ++ v]) =
    Err AttributeError.
Proof.
  intros Hn Hnone. unfold PropertyManager.filter. simpl.
  unfold PropertyManager.separate. simpl. unfold PropertyManager.route.
  by rewrite (not_equal_split _ _ Hn), Hnone.
Qed.

Lemma filter_not_equal_raises_witness :
  PropertyManager.filter (H := Examples.no_float)
    (Examples.manager Examples.basic sample_token)
    (PropertyManager.FList ["age!=30"]) = Err AttributeError
  ∧ PropertyManager.separate (Examples.manager Examples.basic sample_token)
      ["age>=30"] = Ok ([], ["age>=30"], []).
Proof.
  split; [| by vm_compute].
  apply (filter_not_equal_raises (H := Examples.no_float)
           (Examples.manager Examples.basic sample_token) "age" "30").
  - unfold no_operator_char. simpl. by repeat constructor.
  - by vm_compute.
Defined.

(** ** The row evaluator *)

Section Info.
Context (self : PropertyManager.t).

Lemma get_property_by_name_Some (name : string) (prop : Property.t) :
  PropertyManager.get_property_by_name self name = Some prop →
  prop ∈ PropertyManager.properties self ∧ Property.name prop = name.
Proof.
  unfold PropertyManager.get_property_by_name.
  intros [Hin Heq]%find_some. split.
  - by apply list_elem_of_In.
  - by apply String.eqb_eq.
Qed.

Lemma get_property_by_name_None (name : string) :
  PropertyManager.get_property_by_name self name = None ↔ name ∉ names self.
Proof.
  unfold PropertyManager.get_property_by_name, names. split.
  - intros Hnone (prop & -> & Hin)%list_elem_of_fmap.
    apply list_elem_of_In in Hin.
    pose proof (find_none _ _ Hnone _ Hin) as Hne. simpl in Hne.
    by rewrite String.eqb_refl in Hne.
  - intros Hnot. destruct (List.find _ _) as [prop|] eqn:E; [| done].
    apply find_some in E as [Hin Heq]. destruct Hnot.
    apply list_elem_of_fmap. exists prop. split.
    + symmetry. by apply String.eqb_eq.
    + by apply list_elem_of_In.
Qed.

Lemma get_property_by_name_is_Some (name : string) :
  name ∈ names self → is_Some (PropertyManager.get_property_by_name self name).
Proof.
  intros Hin. destruct (PropertyManager.get_property_by_name self name) eqn:E; [eauto |].
  by apply get_property_by_name_None in E.
Qed.

(** *** The first loop: stored values *)

Lemma fill_step_Ok (row : option row) (idx idx' : nat) (r r' : record)
    (prop : Property.t) :
  PropertyManager.fill_step self row (idx, r) prop = Ok (idx', r') →
  (Property.is_generated prop = true ∧ idx' = idx ∧ r' = r) ∨
  (Property.is_generated prop = false ∧ idx' = S idx ∧
   ∃ raw, PropertyManager.row_index row idx = Ok raw ∧
     r' = <[Property.name prop :=
              if Property.is_pk prop
              then PropertyManager.anonymize (PropertyManager.token self) raw
              else raw]> r).
Proof.
  unfold PropertyManager.fill_step.
  destruct (Property.is_generated prop); simpl.
  - intros [= <- <-]. by left.
  - intros (raw & Hraw & [= <- <-])%bind_Ok. right. eauto.
Qed.

Lemma fill_lookup (row : option row) (l : list Property.t) (k : string) :
  ∀ idx r idx' r',
    foldM (PropertyManager.fill_step self row) l (idx, r) = Ok (idx', r') →
    (∀ prop, prop ∈ l → Property.is_generated prop = false →
             Property.name prop ≠ k) →
    r' !! k = r !! k.
Proof.
  induction l as [|prop l IH]; intros idx r idx' r'; simpl.
  - by intros [= <- <-].
  - intros ([idx1 r1] & H1 & H2)%bind_Ok Hk.
    rewrite (IH _ _ _ _ H2); [| intros; apply Hk; [by right | done]].
    apply fill_step_Ok in H1 as [(_ & _ & ->) | (Hg & _ & raw & _ & ->)]; [done |].
    apply lookup_insert_ne, Hk; [by left | done].
Qed.

Lemma fill_keys (row : option row) (l : list Property.t) :
  ∀ idx r idx' r' k,
    foldM (PropertyManager.fill_step self row) l (idx, r) = Ok (idx', r') →
    is_Some (r' !! k) ↔
    is_Some (r !! k) ∨
    ∃ prop, prop ∈ l ∧ Property.is_generated prop = false ∧ Property.name prop = k.
Proof.
  induction l as [|prop l IH]; intros idx r idx' r' k; simpl.
  - intros [= <- <-]. split; [by left |].
    intros [? | (? & []%elem_of_nil & _)]; done.
  - intros ([idx1 r1] & H1 & H2)%bind_Ok. rewrite (IH _ _ _ _ _ H2).
    apply fill_step_Ok in H1 as [(Hg & _ & ->) | (Hg & _ & raw & _ & ->)].
    + split.
      * intros [? | (p & Hp & ? & ?)]; [by left | right].
        exists p. split; [by right | done].
      * intros [? | (p & [-> | Hp]%elem_of_cons & Hgp & ?)]; [by left | congruence |].
        right. eauto.
    + rewrite lookup_insert_is_Some. split.
      * intros [[<- | [_ ?]] | (p & Hp & ? & ?)].
        -- right. exists prop. split; [by left | done].
        -- by left.
        -- right. exists p. split; [by right | done].
      * intros [? | (p & [-> | Hp]%elem_of_cons & Hgp & <-)].
        -- left. destruct (decide (Property.name prop = k)); [by left | by right].
        -- left. by left.
        -- right. eauto.
Qed.

Lemma fill_error (row : option row) (l : list Property.t) (st : nat * record)
    (e : exn) :
  foldM (PropertyManager.fill_step self row) l st = Err e →
  e = IndexError ∨ e = TypeError.
Proof.
  intros ([idx r] & prop & _ & Hstep)%foldM_error.
  unfold PropertyManager.fill_step in Hstep.
  destruct (negb _); [| done].
  apply bind_Err in Hstep as [Hrow | (? & _ & ?)]; [| done].
  unfold PropertyManager.row_index, Py.index in Hrow.
  destruct row as [rw|]; [| inversion Hrow; by right].
  destruct (rw !! idx); inversion Hrow. by left.
Qed.

Lemma fill_total (rw : row) (l : list Property.t) :
  ∀ idx r, (idx + stored_count l ≤ List.length rw)%nat →
    ∃ idx' r', foldM (PropertyManager.fill_step self (Some rw)) l (idx, r) =
               Ok (idx', r').
Proof.
  induction l as [|prop l IH]; intros idx r Hlen; simpl; [eauto |].
  unfold stored_count in Hlen. simpl in Hlen.
  unfold PropertyManager.fill_step at 1.
  destruct (Property.is_generated prop); simpl in *.
  - by apply IH.
  - unfold Py.index. destruct (lookup_lt_is_Some_2 rw idx) as [raw ->]; [lia |].
    simpl. apply IH. unfold stored_count. lia.
Qed.

(** *** The second loop: generated values *)

Lemma generate_step_Ok (r r' : record) (prop : Property.t) :
  PropertyManager.generate_step r prop = Ok r' →
  (Property.is_generated prop = false ∧ r' = r) ∨
  (Property.is_generated prop = true ∧
   ∃ args v, mapM (PropertyManager.substitute r) (Property.fn_args prop) = Ok args ∧
     Property.fn prop args = Ok v ∧ r' = <[Property.name prop := v]> r).
Proof.
  unfold PropertyManager.generate_step.
  destruct (Property.is_generated prop).
  - intros (args & Hargs & (v & Hv & [= <-])%bind_Ok)%bind_Ok. right.
    split; [done |]. by exists args, v.
  - intros [= <-]. by left.
Qed.

Lemma generate_lookup (l : list Property.t) (k : string) :
  ∀ r r', foldM PropertyManager.generate_step l r = Ok r' →
    (∀ prop, prop ∈ l → Property.is_generated prop = true →
             Property.name prop ≠ k) →
    r' !! k = r !! k.
Proof.
  induction l as [|prop l IH]; intros r r'; simpl.
  - by intros [= <-].
  - intros (r1 & H1 & H2)%bind_Ok Hk.
    rewrite (IH _ _ H2); [| intros; apply Hk; [by right | done]].
    apply generate_step_Ok in H1 as [(_ & ->) | (Hg & args & v & _ & _ & ->)]; [done |].
    apply lookup_insert_ne, Hk; [by left | done].
Qed.

Lemma generate_keys (l : list Property.t) :
  ∀ r r' k, foldM PropertyManager.generate_step l r = Ok r' →
    is_Some (r' !! k) ↔
    is_Some (r !! k) ∨
    ∃ prop, prop ∈ l ∧ Property.is_generated prop = true ∧ Property.name prop = k.
Proof.
  induction l as [|prop l IH]; intros r r' k; simpl.
  - intros [= <-]. split; [by left |].
    intros [? | (? & []%elem_of_nil & _)]; done.
  - intros (r1 & H1 & H2)%bind_Ok. rewrite (IH _ _ _ H2).
    apply generate_step_Ok in H1 as [(Hg & ->) | (Hg & args & v & _ & _ & ->)].
    + split.
      * intros [? | (p & Hp & ? & ?)]; [by left | right].
        exists p. split; [by right | done].
      * intros [? | (p & [-> | Hp]%elem_of_cons & Hgp & ?)]; [by left | congruence |].
        right. eauto.
    + rewrite lookup_insert_is_Some. split.
      * intros [[<- | [_ ?]] | (p & Hp & ? & ?)].
        -- right. exists prop. split; [by left | done].
        -- by left.
        -- right. exists p. split; [by right | done].
      * intros [? | (p & [-> | Hp]%elem_of_cons & Hgp & <-)].
        -- left. destruct (decide (Property.name prop = k)); [by left | by right].
        -- left. by left.
        -- right. eauto.
Qed.

Lemma substitute_error (r : record) (arg : string) (e : exn) :
  PropertyManager.substitute r arg = Err e →
  ∃ ref, arg = String "@" ref ∧ r !! ref = None ∧
         e = PropertyNotFoundException (PropertyManager.not_found_msg ref).
Proof.
  unfold PropertyManager.substitute.
  destruct (Py.str_truthy arg); [| done].
  destruct arg as [|c ref]; [done |].
  destruct (decide (c = "@"%char)) as [-> | Hc].
  - destruct (r !! ref) eqn:E; [done |]. intros [= <-]. eauto.
  - destruct c as [[] [] [] [] [] [] [] []]; done.
Qed.

Lemma substitute_resolved (known : list string) (r : record) (arg : string) :
  arg_resolved known arg = true →
  (∀ n, n ∈ known → is_Some (r !! n)) →
  ∃ v, PropertyManager.substitute r arg = Ok v.
Proof.
  intros Hres Hknown.
  destruct (PropertyManager.substitute r arg) as [v | e] eqn:E; [eauto |].
  apply substitute_error in E as (ref & -> & Hnone & _).
  simpl in Hres. apply bool_decide_eq_true in Hres.
  destruct (Hknown _ Hres) as [v Hv]. congruence.
Qed.

Lemma substitute_unknown (r : record) (ref : string) :
  r !! ref = None →
  PropertyManager.substitute r (String "@" ref) =
  Err (PropertyNotFoundException (PropertyManager.not_found_msg ref)).
Proof. intros Hnone. unfold PropertyManager.substitute. simpl. by rewrite Hnone. Qed.

(** The exception of the second loop is a failed substitution or the
    exception of a provider. *)
Lemma generate_error (l : list Property.t) (r : record) (e : exn) :
  foldM PropertyManager.generate_step l r = Err e →
  (∃ ref, e = PropertyNotFoundException (PropertyManager.not_found_msg ref)) ∨
  (∃ prop args, prop ∈ l ∧ Property.is_generated prop = true ∧
                Property.fn prop args = Err e).
Proof.
  intros (r1 & prop & Hin & Hstep)%foldM_error.
  unfold PropertyManager.generate_step in Hstep.
  destruct (Property.is_generated prop) eqn:Hg; [| done].
  apply bind_Err in Hstep as [Hargs | (args & _ & Hfn)].
  - apply mapM_error in Hargs as (arg & _ & (ref & _ & _ & ->)%substitute_error).
    left. eauto.
  - apply bind_Err in Hfn as [Hfn | (? & _ & ?)]; [| done].
    right. eauto.
Qed.

(** With the references resolved in order, every substitution succeeds:
    the second loop returns, or a provider raises. *)
Lemma generate_in_order (l : list Property.t) :
  ∀ known r,
    refs_resolved known l = true →
    (∀ n, n ∈ known → is_Some (r !! n)) →
    (∃ r', foldM PropertyManager.generate_step l r = Ok r') ∨
    (∃ e prop args, foldM PropertyManager.generate_step l r = Err e ∧
       prop ∈ l ∧ Property.is_generated prop = true ∧
       Property.fn prop args = Err e).
Proof.
  induction l as [|prop l IH]; intros known r Hres Hknown; [left; by exists r |].
  cbn [foldM]. simpl in Hres.
  destruct (Property.is_generated prop) eqn:Hg.
  - apply andb_true_iff in Hres as [Hargs Hrest].
    destruct (mapM_Ok (PropertyManager.substitute r) (Property.fn_args prop))
      as [args Hmap].
    { intros arg Harg. eapply substitute_resolved; [| exact Hknown].
      rewrite forallb_forall in Hargs. by apply Hargs, list_elem_of_In. }
    assert (PropertyManager.generate_step r prop =
            Property.fn prop args ≫= λ v, Ok (<[Property.name prop := v]> r))
      as ->.
    { unfold PropertyManager.generate_step. by rewrite Hg, Hmap. }
    destruct (Property.fn prop args) as [v | e] eqn:Hfn; simpl.
    + destruct (IH (Property.name prop :: known) (<[Property.name prop := v]> r))
        as [Hok | (e & p & a & He & Hp & Hgp & Hfp)]; [done | | by left |].
      * intros n [-> | Hn]%elem_of_cons; rewrite lookup_insert_is_Some.
        -- by left.
        -- destruct (decide (Property.name prop = n)); [by left | right].
           split; [done | by apply Hknown].
      * right. exists e, p, a. repeat split; [done | by right | done | done].
    + right. exists e, prop, args. repeat split; [by left | done | done].
  - assert (PropertyManager.generate_step r prop = Ok r) as ->.
    { unfold PropertyManager.generate_step. by rewrite Hg. }
    simpl. destruct (IH known r Hres Hknown)
      as [Hok | (e & p & a & He & Hp & Hgp & Hfp)]; [by left |].
    right. exists e, p, a. repeat split; [done | by right | done | done].
Qed.

(** A reference to a name that no property carries fails the loop. *)
Lemma generate_undeclared (l : list Property.t) (prop : Property.t) (ref : string) :
  prop ∈ l → Property.is_generated prop = true →
  String "@" ref ∈ Property.fn_args prop →
  (∀ p, p ∈ l → Property.name p ≠ ref) →
  ∀ r, r !! ref = None → ∃ e, foldM PropertyManager.generate_step l r = Err e.
Proof.
  intros Hin Hg Harg. induction l as [|p l IH]; intros Hnames r Hr;
    [by apply elem_of_nil in Hin |].
  simpl. destruct (PropertyManager.generate_step r p) as [r1 | e] eqn:Hstep;
    simpl; [| eauto].
  apply elem_of_cons in Hin as [<- | Hin].
  - unfold PropertyManager.generate_step in Hstep. rewrite Hg in Hstep.
    destruct (mapM_fails (PropertyManager.substitute r) _ _ Harg) as [e He].
    { rewrite (substitute_unknown _ _ Hr). eauto. }
    by rewrite He in Hstep.
  - apply IH; [done | intros; apply Hnames; by right |].
    apply generate_step_Ok in Hstep as [(_ & ->) | (_ & args & v & _ & _ & ->)];
      [done |].
    rewrite lookup_insert_ne; [done |]. apply Hnames. by left.
Qed.

(** *** The last step: hidden properties *)

Lemma strip_hidden_Ok (r : record) :
  (∀ k, is_Some (r !! k) → k ∈ names self) →
  PropertyManager.strip_hidden self r =
  Ok (base.filter (fun kv => PropertyManager.exposed self kv.1 = true) r).
Proof.
  intros Hkeys. unfold PropertyManager.strip_hidden.
  rewrite bool_decide_eq_true_2; [done |].
  intros k v Hk. apply get_property_by_name_is_Some, Hkeys. eauto.
Qed.

Lemma strip_hidden_lookup (r r' : record) (k : string) :
  PropertyManager.strip_hidden self r = Ok r' →
  PropertyManager.exposed self k = true → r' !! k = r !! k.
Proof.
  unfold PropertyManager.strip_hidden. case_bool_decide; [| done].
  intros [= <-] Hk. destruct (r !! k) as [v|] eqn:E.
  - by apply map_lookup_filter_Some.
  - apply map_lookup_filter_None. left. done.
Qed.

End Info.

Section InfoTheorems.
Context (self : PropertyManager.t).

Lemma info_unfold (row : option row) :
  PropertyManager.info self row =
  foldM (PropertyManager.fill_step self row) (PropertyManager.properties self) (O, ∅)
    ≫= λ st, foldM PropertyManager.generate_step (PropertyManager.properties self) st.2
    ≫= PropertyManager.strip_hidden self.
Proof.
  unfold PropertyManager.info.
  destruct (foldM (PropertyManager.fill_step self row) _ _) as [[idx r]|]; done.
Qed.

(** The keys of the record the two loops build are property names. *)
Lemma loops_keys (row : option row) (idx : nat) (r1 r2 : record) (k : string) :
  foldM (PropertyManager.fill_step self row) (PropertyManager.properties self) (O, ∅)
    = Ok (idx, r1) →
  foldM PropertyManager.generate_step (PropertyManager.properties self) r1 = Ok r2 →
  is_Some (r2 !! k) → k ∈ names self.
Proof.
  intros Hfill Hgen Hk.
  apply (generate_keys _ _ _ _ Hgen) in Hk as [Hk | (p & Hp & _ & <-)].
  - apply (fill_keys _ _ _ _ _ _ _ _ Hfill) in Hk as [Hk | (p & Hp & _ & <-)].
    + rewrite lookup_empty in Hk. by destruct Hk.
    + apply list_elem_of_fmap. eauto.
  - apply list_elem_of_fmap. eauto.
Qed.

Lemma stored_known (row : option row) (idx : nat) (r1 : record) (n : string) :
  foldM (PropertyManager.fill_step self row) (PropertyManager.properties self) (O, ∅)
    = Ok (idx, r1) →
  n ∈ Property.name <$> PropertyManager.stored self → is_Some (r1 !! n).
Proof.
  intros Hfill (p & -> & Hp)%list_elem_of_fmap.
  apply (fill_keys _ _ _ _ _ _ _ _ Hfill). right. exists p.
  unfold PropertyManager.stored in Hp.
  apply list_elem_of_In, filter_In in Hp as [Hin Hg].
  apply negb_true_iff in Hg. split; [by apply list_elem_of_In | done].
Qed.

(** With the references resolved in declaration order, [info] raises only
  for a short row or from a provider, and returns otherwise. *)
Lemma info_in_order (row : option row) :
  declared_before self = true →
  (∀ e, PropertyManager.info self row = Err e →
        (e = IndexError ∨ e = TypeError) ∨
        ∃ prop args, prop ∈ PropertyManager.properties self ∧
          Property.is_generated prop = true ∧ Property.fn prop args = Err e)
  ∧ (∀ rw, row = Some rw →
       (stored_count (PropertyManager.properties self) ≤ List.length rw)%nat →
       providers_return (PropertyManager.properties self) →
       ∃ result, PropertyManager.info self row = Ok result).
Proof.
  intros Horder. rewrite info_unfold.
  destruct (foldM (PropertyManager.fill_step self row) _ _) as [[idx r1]|e1] eqn:Hfill.
  - simpl.
    destruct (generate_in_order (PropertyManager.properties self) _ r1 Horder)
      as [[r2 Hgen] | (e & prop & args & Hgen & Hin & Hg & Hfn)].
    { intros n. by apply (stored_known row idx). }
    + rewrite Hgen. simpl. rewrite strip_hidden_Ok.
      2: { intros k. by apply (loops_keys row idx r1 r2). }
      split; [done | eauto].
    + rewrite Hgen. simpl. split.
      * intros e' [= <-]. right. eauto.
      * intros rw _ _ Hret. destruct (Hret prop args Hin Hg) as [v Hv]. congruence.
  - simpl. split.
    + intros e [= <-]. left. by apply (fill_error self row _ _ _ Hfill).
    + intros rw -> Hlen _.
      destruct (fill_total self rw (PropertyManager.properties self) O ∅)
        as (? & ? & Htot); [done |]. congruence.
Qed.

(** C2 (as the code has it): [info] evaluates the generated properties
    in declaration order.  When every reference names a stored property
    or a generated property declared earlier, no substitution finds its
    value absent: [info] raises only for a short row or from a provider,
    and returns a record when the row has a column for every stored
    property and the providers return. *)
Theorem info_in_declaration_order (row : option row) :
  declared_before self = true →
  (∀ e, PropertyManager.info self row = Err e →
        (e = IndexError ∨ e = TypeError) ∨
        ∃ prop args, prop ∈ PropertyManager.properties self ∧
          Property.is_generated prop = true ∧ Property.fn prop args = Err e)
  ∧ (∀ rw, row = Some rw →
       (stored_count (PropertyManager.properties self) ≤ List.length rw)%nat →
       providers_return (PropertyManager.properties self) →
       ∃ result, PropertyManager.info self row = Ok result).
Proof. apply info_in_order. Qed.

(** A reference to a name no property carries fails every evaluation. *)
Lemma undeclared_reference_fails (prop : Property.t) (ref : string)
    (row : option row) :
  prop ∈ PropertyManager.properties self →
  Property.is_generated prop = true →
  String "@" ref ∈ Property.fn_args prop →
  ref ∉ names self →
  (∃ e, PropertyManager.info self row = Err e)
  ∧ (∀ rw, row = Some rw →
       (stored_count (PropertyManager.properties self) ≤ List.length rw)%nat →
       providers_return (PropertyManager.properties self) →
       ∃ msg, PropertyManager.info self row = Err (PropertyNotFoundException msg)).
Proof.
  intros Hin Hg Harg Hundeclared. rewrite info_unfold.
  destruct (foldM (PropertyManager.fill_step self row) _ _) as [[idx r1]|e1] eqn:Hfill.
  - simpl.
    destruct (generate_undeclared (PropertyManager.properties self) prop ref
                Hin Hg Harg) with (r := r1) as [e Hgen].
    { intros p Hp <-. apply Hundeclared, list_elem_of_fmap. eauto. }
    { apply eq_None_not_Some. intros E. destruct Hundeclared.
      apply (fill_keys _ _ _ _ _ _ _ _ Hfill) in E as [E | (p & Hp & _ & <-)].
      - rewrite lookup_empty in E. by destruct E.
      - apply list_elem_of_fmap. eauto. }
    rewrite Hgen. simpl. split; [eauto |].
    intros rw _ _ Hret.
    destruct (generate_error _ _ _ Hgen) as [[r' ->] | (p & args & Hp & Hgp & Hfn)];
      [eauto |].
    destruct (Hret p args Hp Hgp) as [v Hv]. congruence.
  - simpl. split; [eauto |]. intros rw -> Hlen _.
    destruct (fill_total self rw (PropertyManager.properties self) O ∅)
      as (? & ? & Htot); [done |]. congruence.
Qed.

End InfoTheorems.

Lemma string_length_app (a b : string) :
  String.length (a ++ b) = (String.length a + String.length b)%nat.
Proof. induction a as [|x a IH]; [done |]. rewrite append_cons. simpl. by rewrite IH. Qed.

Lemma hex_word_length (w : Z) : String.length (Sha1.hex_word w) = 8%nat.
Proof. reflexivity. Qed.

Lemma hexdigest_length (s : string) : String.length (Sha1.hexdigest s) = 40%nat.
Proof.
  unfold Sha1.hexdigest. destruct (Sha1.digest s) as [[[[h0 h1] h2] h3] h4].
  by rewrite !string_length_app, !hex_word_length.
Qed.

Lemma append_inj_r (a b c : string) : a ++ c = b ++ c → a = b.
Proof.
  intros H. apply (f_equal list_ascii_of_string) in H.
  rewrite !list_ascii_of_string_app in H. apply app_inv_tail in H.
  rewrite <- (string_of_list_ascii_of_string a), <- (string_of_list_ascii_of_string b).
  by rewrite H.
Qed.

Section Key.
Context (self : PropertyManager.t).

Lemma key_lookup (raw : value) (cols : row) (result : record) :
  key_first self →
  PropertyManager.info self (Some (raw :: cols)) = Ok result →
  result !! Property.name (PropertyManager.user_pk self) =
  Some (PropertyManager.anonymize (PropertyManager.token self) raw).
Proof.
  intros (rest & Hprops & Hg & Hpk & Hexp & Hrest). rewrite info_unfold.
  intros ([idx r1] & Hfill & (r2 & Hgen & Hstrip)%bind_Ok)%bind_Ok.
  simpl in Hgen.
  rewrite (strip_hidden_lookup self r2 result _ Hstrip).
  2: { unfold PropertyManager.exposed, PropertyManager.get_property_by_name.
       rewrite Hprops. simpl. by rewrite String.eqb_refl. }
  rewrite (generate_lookup _ _ _ _ Hgen).
  2: { rewrite Hprops. intros p [-> | Hp]%elem_of_cons Hgp; [congruence | by apply Hrest]. }
  rewrite Hprops in Hfill. cbn [foldM] in Hfill.
  apply bind_Ok in Hfill as ([idx0 r0] & Hstep & Hfill).
  rewrite (fill_lookup self _ _ _ _ _ _ _ Hfill).
  2: { intros p Hp _. by apply Hrest. }
  apply fill_step_Ok in Hstep as [(Hg' & _) | (_ & _ & raw' & Hraw & ->)]; [congruence |].
  rewrite Hpk, lookup_insert_eq. by inversion Hraw.
Qed.

(** C4 (as the code has it): the key field of the record is the SHA-1 hex
    digest of [str(token) + '###' + str(raw)], so it is a function of the
    token and of the raw key alone; tokens whose [str] differ give
    different texts to hash; and the digest is a string of 40
    characters, whatever the raw key. *)
Theorem primary_key_is_hashed (raw : value) (cols : row) :
  key_first self →
  (∀ result, PropertyManager.info self (Some (raw :: cols)) = Ok result →
     result !! Property.name (PropertyManager.user_pk self) =
     Some (PropertyManager.anonymize (PropertyManager.token self) raw))
  ∧ (declared_before self = true →
     providers_return (PropertyManager.properties self) →
     (stored_count (PropertyManager.properties self) ≤ S (List.length cols))%nat →
     ∃ result, PropertyManager.info self (Some (raw :: cols)) = Ok result)
  ∧ (∀ t1 t2, Py.str t1 ≠ Py.str t2 →
       PropertyManager.hash_input t1 raw ≠ PropertyManager.hash_input t2 raw)
  ∧ (∃ digest, PropertyManager.anonymize (PropertyManager.token self) raw = VStr digest
               ∧ String.length digest = 40%nat).
Proof.
  intros Hkey. repeat split.
  - intros result. by apply key_lookup.
  - intros Horder Hret Hlen.
    by eapply (proj2 (info_in_order self _ Horder)).
  - intros t1 t2 Hne Heq. apply Hne. unfold PropertyManager.hash_input in Heq.
    by apply append_inj_r in Heq.
  - eexists. split; [reflexivity | apply hexdigest_length].
Qed.

End Key.

(** ** Evaluations of the sample configurations *)

Lemma basic_providers_return :
  providers_return
    (PropertyManager.properties (Examples.manager Examples.basic sample_token)).
Proof.
  intros prop args Hin Hg. each_property Hin; try discriminate Hg.
  destruct args; eexists; reflexivity.
Qed.

Lemma basic_key_first : key_first (Examples.manager Examples.basic sample_token).
Proof.
  eexists. split; [by vm_compute |]. repeat split.
  intros prop Hin. each_property Hin; by vm_compute.
Qed.

(** C5 (as the code has it): the constructor builds each property from its
    own entry and checks no reference.  In a manager it has built, a
    generated property that refers to a name no property carries makes
    [info] raise on every row, and what [info] raises is
    [PropertyNotFoundException] when the row has a column for every
    stored property and the providers return. *)
Theorem undeclared_reference_is_deferred (env : Collaborators)
    (configuration : PropertyManager.Configuration) (token uuid4 : value)
    (self : PropertyManager.t) (prop : Property.t) (ref : string) (row : option row) :
  PropertyManager.init env configuration token uuid4 = Ok self →
  prop ∈ PropertyManager.properties self →
  Property.is_generated prop = true →
  String "@" ref ∈ Property.fn_args prop →
  ref ∉ names self →
  (∃ rest, PropertyManager.properties self = PropertyManager.user_pk self :: rest
           ∧ mapM (PropertyManager.init_property env)
                  (PropertyManager.cfg_properties configuration) = Ok rest)
  ∧ (∃ e, PropertyManager.info self row = Err e)
  ∧ (∀ rw, row = Some rw →
       (stored_count (PropertyManager.properties self) ≤ List.length rw)%nat →
       providers_return (PropertyManager.properties self) →
       ∃ msg, PropertyManager.info self row = Err (PropertyNotFoundException msg)).
Proof.
  intros Hinit Hin Hg Harg Hundeclared. split; [| by apply (undeclared_reference_fails self prop ref)].
  unfold PropertyManager.init in Hinit.
  apply bind_Ok in Hinit as (pk & _ & (props & Hprops & [= <-])%bind_Ok).
  by exists props.
Qed.

(** C5, refuted as stated: the manager of a configuration whose generated
    property refers to the undeclared name [nickname] is constructed, and
    the defect shows when a row is evaluated. *)
Lemma undeclared_reference_constructs :
  ∃ self,
    PropertyManager.init Examples.env (Examples.site Examples.undeclared)
                         sample_token (VStr "uuid4") = Ok self
    ∧ ("nickname" ∉ names self)
    ∧ PropertyManager.info self (Some sample_row) =
      Err (PropertyNotFoundException (PropertyManager.not_found_msg "nickname")).
Proof.
  eexists. split; [vm_compute; reflexivity |]. split; [| vm_compute; reflexivity].
  vm_compute. intros H. repeat (apply elem_of_cons in H as [H | H]; [discriminate |]).
  by apply elem_of_nil in H.
Qed.

Lemma undeclared_reference_is_deferred_witness :
  ∃ msg,
    PropertyManager.info (Examples.manager Examples.undeclared sample_token)
                         (Some sample_row) = Err (PropertyNotFoundException msg).
Proof.
  pose (self := Examples.manager Examples.undeclared sample_token).
  assert (PropertyManager.init Examples.env (Examples.site Examples.undeclared)
            sample_token (VStr "uuid4") = Ok self) as Hinit by (by vm_compute).
  destruct (PropertyManager.get_property_by_name self "alias") as [prop|] eqn:Hprop;
    [| by vm_compute in Hprop].
  destruct (get_property_by_name_Some self _ _ Hprop) as [Hin _].
  assert (Property.is_generated prop = true ∧
          String "@" "nickname" ∈ Property.fn_args prop) as [Hg Harg].
  { vm_compute in Hprop. injection Hprop as <-. split; [done | by left]. }
  destruct (undeclared_reference_is_deferred _ _ _ _ self prop "nickname"
              (Some sample_row) Hinit Hin Hg Harg) as (_ & _ & Hmsg).
  - vm_compute. intros H.
    repeat (apply elem_of_cons in H as [H | H]; [discriminate |]).
    by apply elem_of_nil in H.
  - apply (Hmsg sample_row); [done | vm_compute; lia |].
    intros p args Hp Hgp. each_property Hp; try discriminate Hgp.
    destruct args; eexists; reflexivity.
Defined.

(** C2, refuted as stated: the references of this property set have no
    cycle (the resolver returns for every property), [nick] reads [alias]
    and is declared before it, and [info] finds the value of [alias]
    absent. *)
Lemma out_of_order_is_not_found :
  dependencies_resolve 4 (Examples.manager Examples.out_of_order sample_token) = true
  ∧ PropertyManager.info (Examples.manager Examples.out_of_order sample_token)
                         (Some sample_row) =
    Err (PropertyNotFoundException (PropertyManager.not_found_msg "alias")).
Proof. split; by vm_compute. Qed.

Lemma info_in_declaration_order_witness :
  ∃ result,
    PropertyManager.info (Examples.manager Examples.basic sample_token)
                         (Some sample_row) = Ok result.
Proof.
  destruct (info_in_declaration_order
              (Examples.manager Examples.basic sample_token) (Some sample_row))
    as [_ Hok]; [by vm_compute |].
  apply (Hok sample_row); [done | vm_compute; lia | apply basic_providers_return].
Defined.

(** C4, refuted as stated: the tokens [1] and ['1'] are different and have
    the same [str], so the same raw key gets the same anonymized value
    under both; and a property declared on the key column carries the raw
    key into the record. *)
Lemma key_anonymization_fails :
  VInt 1 ≠ VStr "1"
  ∧ PropertyManager.anonymize (VInt 1) (VInt 7) =
    PropertyManager.anonymize (VStr "1") (VInt 7)
  ∧ PropertyManager.info (Examples.manager Examples.basic (VInt 1)) (Some sample_row) =
    PropertyManager.info (Examples.manager Examples.basic (VStr "1")) (Some sample_row)
  ∧ (λ result, result !! "id") <$>
      PropertyManager.info (Examples.manager Examples.basic (VInt 1)) (Some sample_row) =
    Ok (Some (VStr "fd80277fb7c3f936b1c87a208f576db7e02b0b93"))
  ∧ (λ result, result !! "uid") <$>
      PropertyManager.info (Examples.manager Examples.key_again sample_token)
        (Some [VInt 7; VStr "Alice"; VInt 7]) =
    Ok (Some (VInt 7)).
Proof. repeat split; [done | by vm_compute ..]. Qed.

Lemma primary_key_is_hashed_witness :
  ∃ result,
    PropertyManager.info (Examples.manager Examples.basic sample_token)
                         (Some sample_row) = Ok result
    ∧ result !! "id" = Some (VStr "ab9ac03458919fc541e0c50f58289ee6ce605f3c").
Proof.
  destruct (primary_key_is_hashed (Examples.manager Examples.basic sample_token)
              (VInt 7) [VStr "Alice"; VInt 30] basic_key_first)
    as (Hkey & Hok & _ & _).
  destruct Hok as [result Hresult];
    [by vm_compute | apply basic_providers_return | vm_compute; lia |].
  exists result. split; [done |].
  change "id" with (Property.name (PropertyManager.user_pk
                      (Examples.manager Examples.basic sample_token))).
  rewrite (Hkey _ Hresult). by vm_compute.
Defined.

(** ** The dependency resolver *)

Section Resolver.
Context (self : PropertyManager.t).

Lemma foldM_ext {A S : Type} (f g : S → A → outcome S) (l : list A) (s : S) :
  (∀ s x, x ∈ l → f s x = g s x) → foldM f l s = foldM g l s.
Proof.
  revert s. induction l as [|x l IH]; intros s Hfg; [done |].
  cbn [foldM]. rewrite Hfg; [| by left].
  destruct (g s x); [| done]. simpl. apply IH. intros. apply Hfg. by right.
Qed.

Lemma get_dependencies_unfold (depth : nat) (prop : Property.t) :
  PropertyManager.get_dependencies (S depth) self (Some prop) =
  if Property.is_generated prop
  then foldM (dependency_step self depth) (Property.fn_args prop) []
  else Ok [].
Proof. reflexivity. Qed.

Lemma get_dependencies_None (depth : nat) :
  PropertyManager.get_dependencies (S depth) self None = Err AttributeError.
Proof. reflexivity. Qed.

Lemma dependency_step_empty (depth : nat) (result : list Property.t) :
  dependency_step self depth result EmptyString = Err IndexError.
Proof. reflexivity. Qed.

Lemma dependency_step_literal (depth : nat) (result : list Property.t)
    (c : ascii) (s : string) :
  c ≠ "@"%char → dependency_step self depth result (String c s) = Ok result.
Proof.
  intros Hc. unfold dependency_step. simpl.
  by rewrite (proj2 (Ascii.eqb_neq c "@") Hc).
Qed.

Lemma dependency_step_ref (depth : nat) (result : list Property.t) (ref : string) :
  dependency_step self depth result (String "@" ref) =
  PropertyManager.get_dependencies depth self
    (PropertyManager.get_property_by_name self ref)
  ≫= λ deps, Ok (result ++
                  option_list (PropertyManager.get_property_by_name self ref) ++
                  deps)%list.
Proof. reflexivity. Qed.

(** With the references free of cycles, the outcome of the resolver is
    the same at every depth above the rank, and is not the exhaustion of
    the depth. *)
Lemma get_dependencies_stable (rank : Property.t → nat) :
  acyclic self rank →
  ∀ n prop, (rank prop < n)%nat →
    prop ∈ PropertyManager.properties self →
    ∀ d1 d2, (rank prop + 1 < d1)%nat → (rank prop + 1 < d2)%nat →
      PropertyManager.get_dependencies d1 self (Some prop) =
      PropertyManager.get_dependencies d2 self (Some prop)
      ∧ PropertyManager.get_dependencies d1 self (Some prop) ≠ Err RecursionError.
Proof.
  intros Hacyclic. induction n as [|n IH]; intros prop Hn Hin d1 d2 H1 H2; [lia |].
  destruct d1 as [|d1]; [lia |]. destruct d2 as [|d2]; [lia |].
  rewrite !get_dependencies_unfold.
  destruct (Property.is_generated prop) eqn:Hg; [| done].
  assert (∀ result p_name, p_name ∈ Property.fn_args prop →
            dependency_step self d1 result p_name = dependency_step self d2 result p_name
            ∧ dependency_step self d1 result p_name ≠ Err RecursionError) as Hstep.
  { intros result p_name Harg.
    destruct p_name as [|c ref]; [by rewrite !dependency_step_empty |].
    destruct (decide (c = "@"%char)) as [-> | Hc];
      [| by rewrite !dependency_step_literal].
    rewrite !dependency_step_ref.
    destruct (PropertyManager.get_property_by_name self ref) as [dep|] eqn:Hdep.
    - pose proof (Hacyclic _ _ _ Hin Hg Harg Hdep) as Hrank.
      destruct (get_property_by_name_Some self _ _ Hdep) as [Hdin _].
      destruct (IH dep ltac:(lia) Hdin d1 d2 ltac:(lia) ltac:(lia)) as [-> Hne].
      split; [done |].
      destruct (PropertyManager.get_dependencies d2 self (Some dep)); [done |].
      simpl. congruence.
    - destruct d1 as [|d1]; [lia |]. destruct d2 as [|d2]; [lia |].
      by rewrite !get_dependencies_None. }
  split.
  - apply foldM_ext. intros. by apply Hstep.
  - intros (result & p_name & Harg & Herr)%foldM_error.
    by apply (Hstep result p_name Harg).
Qed.

Lemma literals_resolve (depth : nat) (literals : list string)
    (result : list Property.t) :
  Forall (fun arg => is_reference arg = false ∧ arg ≠ EmptyString) literals →
  foldM (dependency_step self depth) literals result = Ok result.
Proof.
  induction 1 as [|arg l [Hlit Hne] _ IH]; [done |].
  cbn [foldM]. destruct arg as [|c s]; [done |].
  rewrite dependency_step_literal; [exact IH |].
  intros ->. discriminate Hlit.
Qed.

Lemma get_dependencies_loops (loop : Property.t → Prop) :
  looping self loop →
  ∀ depth prop, loop prop →
    PropertyManager.get_dependencies depth self (Some prop) = Err RecursionError.
Proof.
  intros Hloop. induction depth as [|depth IH]; intros prop Hprop; [done |].
  destruct (Hloop prop Hprop)
    as (Hg & ref & next & (literals & rest & Hargs & Hlit) & Hnext & Hin).
  rewrite get_dependencies_unfold, Hg, Hargs, foldM_app.
  rewrite (literals_resolve depth literals [] Hlit).
  cbn [mbind result_bind foldM].
  by rewrite dependency_step_ref, Hnext, (IH next Hin).
Qed.


(** C3 (as the code has it): the resolver keeps no set of visited
    properties and counts no depth.  When the references have no cycle
    (some rank decreases along every resolved reference), it terminates:
    its outcome is the same at every depth above the rank and is never
    the exhaustion of the recursion depth.  When the properties of a set
    read each other (the first reference of each, after literal arguments
    only, names a property of the set), the outcome is the exhaustion of
    the depth at every depth: no cycle is detected. *)
Theorem get_dependencies_terminates (rank : Property.t → nat)
    (loop : Property.t → Prop) :
  (acyclic self rank →
   ∀ prop, prop ∈ PropertyManager.properties self →
     ∃ outcome,
       outcome ≠ Err RecursionError
       ∧ ∀ depth, (rank prop + 1 < depth)%nat →
           PropertyManager.get_dependencies depth self (Some prop) = outcome)
  ∧ (looping self loop →
     ∀ prop, loop prop →
       ∀ depth,
         PropertyManager.get_dependencies depth self (Some prop)
         = Err RecursionError).
Proof.
  split.
  - intros Hacyclic prop Hin.
    exists (PropertyManager.get_dependencies (rank prop + 2) self (Some prop)).
    split.
    + by apply (get_dependencies_stable rank Hacyclic (S (rank prop)) prop
                  ltac:(lia) Hin (rank prop + 2)%nat (rank prop + 2)%nat
                  ltac:(lia) ltac:(lia)).
    + intros depth Hdepth.
      by apply (get_dependencies_stable rank Hacyclic (S (rank prop)) prop
                  ltac:(lia) Hin depth (rank prop + 2)%nat ltac:(lia) ltac:(lia)).
  - intros Hloop prop Hprop depth. by apply (get_dependencies_loops loop Hloop).
Qed.

(** Two generated properties that read each other: the resolver uses up
    every depth. *)
Lemma get_dependencies_cycle (p q : Property.t) (name_p name_q : string) :
  PropertyManager.get_property_by_name self name_p = Some p →
  PropertyManager.get_property_by_name self name_q = Some q →
  Property.is_generated p = true → Property.is_generated q = true →
  Property.fn_args p = [String "@" name_q] →
  Property.fn_args q = [String "@" name_p] →
  ∀ depth,
    PropertyManager.get_dependencies depth self (Some p) = Err RecursionError
    ∧ PropertyManager.get_dependencies depth self (Some q) = Err RecursionError.
Proof.
  intros Hp Hq Hgp Hgq Hap Haq. induction depth as [|depth [IHp IHq]]; [done |].
  rewrite !get_dependencies_unfold, Hgp, Hgq, Hap, Haq.
  cbn [foldM]. by rewrite !dependency_step_ref, Hp, Hq, IHp, IHq.
Qed.

End Resolver.

(** C3, refuted as stated: [ping] and [pong] read each other, and the
    resolver answers at no depth with anything but the exhaustion of the
    recursion depth; no cycle is detected. *)
Lemma cyclic_references_exhaust_depth :
  ¬ ∃ depth outcome,
      PropertyManager.get_dependencies depth
        (Examples.manager Examples.cyclic sample_token)
        (PropertyManager.get_property_by_name
           (Examples.manager Examples.cyclic sample_token) "ping") = outcome
      ∧ outcome ≠ Err RecursionError.
Proof.
  intros (depth & outcome & Houtcome & Hne). apply Hne. rewrite <- Houtcome.
  set (self := Examples.manager Examples.cyclic sample_token).
  destruct (PropertyManager.get_property_by_name self "ping") as [p|] eqn:Hp;
    [| by vm_compute in Hp].
  destruct (PropertyManager.get_property_by_name self "pong") as [q|] eqn:Hq;
    [| by vm_compute in Hq].
  apply (get_dependencies_cycle self p q "ping" "pong" Hp Hq).
  all: vm_compute in Hp, Hq; injection Hp as <-; injection Hq as <-; reflexivity.
Qed.

Lemma get_dependencies_terminates_witness :
  (∃ deps,
     PropertyManager.get_dependencies 3
       (Examples.manager Examples.chained sample_token)
       (PropertyManager.get_property_by_name
          (Examples.manager Examples.chained sample_token) "code") = Ok deps
     ∧ Property.name <$> deps = ["salt"])
  ∧ PropertyManager.get_dependencies 40
      (Examples.manager Examples.cyclic sample_token)
      (PropertyManager.get_property_by_name
         (Examples.manager Examples.cyclic sample_token) "ping")
    = Err RecursionError.
Proof.
  split.
  - set (self := Examples.manager Examples.chained sample_token).
    destruct (PropertyManager.get_property_by_name self "code") as [prop|] eqn:Hprop;
      [| by vm_compute in Hprop].
    destruct (get_property_by_name_Some self _ _ Hprop) as [Hin _].
    destruct (proj1 (get_dependencies_terminates self
                       (fun p => List.length (Property.fn_args p))
                       (fun _ => False)))
      with (prop := prop) as (outcome & _ & Hall); [| done |].
    + intros p ref dep Hp Hg Harg Hdep. subst self.
      each_property Hp; try discriminate Hg.
      * by apply elem_of_nil in Harg.
      * apply list_elem_of_singleton in Harg. injection Harg as ->.
        vm_compute in Hdep. injection Hdep as <-. vm_compute. lia.
    + assert (List.length (Property.fn_args prop) = 1%nat) as Hrank.
      { vm_compute in Hprop. by injection Hprop as <-. }
      rewrite (Hall 3%nat), <- (Hall 4%nat) by lia.
      vm_compute in Hprop. injection Hprop as <-. eexists. split; by vm_compute.
  - set (self := Examples.manager Examples.cyclic sample_token).
    destruct (PropertyManager.get_property_by_name self "ping") as [p|] eqn:Hp;
      [| by vm_compute in Hp].
    destruct (PropertyManager.get_property_by_name self "pong") as [q|] eqn:Hq;
      [| by vm_compute in Hq].
    apply (proj2 (get_dependencies_terminates self (fun _ => O)
                    (fun prop => prop = p ∨ prop = q))); [| by left].
    intros prop [-> | ->].
    + split; [vm_compute in Hp; by injection Hp as <- |].
      exists "pong", q. split; [| split; [exact Hq | by right]].
      exists [], []. split; [| constructor].
      vm_compute in Hp. by injection Hp as <-.
    + split; [vm_compute in Hq; by injection Hq as <- |].
      exists "ping", p. split; [| split; [exact Hp | by left]].
      exists [], []. split; [| constructor].
      vm_compute in Hq. by injection Hq as <-.
Defined.

(** ** The differential merge *)



Lemma NoDup_fmap_eq {A B : Type} (f : A → B) (l : list A) (i j : nat) (x y : A) :
  NoDup (f <$> l) → l !! i = Some x → l !! j = Some y → f x = f y → i = j.
Proof.
  intros Hnd Hi Hj Hf. eapply NoDup_lookup; [exact Hnd | |].
  - rewrite list_lookup_fmap, Hi. reflexivity.
  - rewrite list_lookup_fmap, Hj. simpl. by rewrite Hf.
Qed.

Section Merge.
Context (depth : nat) (self : UserManager.t) (old_user : record).

Lemma merge_step_Ok (u u' : record) (prop : Property.t) :
  UserManager.merge_step depth self old_user u prop = Ok u' →
  (Property.is_generated prop = false ∧ u' = u) ∨
  (Property.is_generated prop = true ∧
   ∃ deps, PropertyManager.get_dependencies depth (UserManager.pm self) (Some prop) = Ok deps ∧
     ((UserManager.dirty old_user u deps = true ∧ u' = u) ∨
      (UserManager.dirty old_user u deps = false ∧
       ∃ v, old_user !! Property.name prop = Some v ∧
            u' = <[Property.name prop := v]> u))).
Proof.
  unfold UserManager.merge_step.
  destruct (Property.is_generated prop); [| intros [= <-]; by left].
  intros (deps & Hdeps & Hrest)%bind_Ok. right. split; [done |].
  exists deps. split; [done |].
  destruct (UserManager.dirty old_user u deps); simpl in Hrest.
  - left. by inversion Hrest.
  - right. split; [done |].
    destruct (old_user !! Property.name prop) as [v|]; [| done].
    exists v. by inversion Hrest.
Qed.

Lemma merge_lookup (l : list Property.t) (k : string) :
  ∀ u u', foldM (UserManager.merge_step depth self old_user) l u = Ok u' →
    (∀ prop, prop ∈ l → Property.is_generated prop = true →
             Property.name prop ≠ k) →
    u' !! k = u !! k.
Proof.
  induction l as [|prop l IH]; intros u u'; simpl.
  - by intros [= <-].
  - intros (u1 & H1 & H2)%bind_Ok Hk.
    rewrite (IH _ _ H2); [| intros; apply Hk; [by right | done]].
    apply merge_step_Ok in H1
      as [(_ & ->) | (Hg & deps & _ & [(_ & ->) | (_ & v & _ & ->)])]; [done | done |].
    apply lookup_insert_ne, Hk; [by left | done].
Qed.

(** Every value of the merged record comes from the new record or from
    the old one. *)
Lemma merge_values (l : list Property.t) (user u : record) (k : string) :
  foldM (UserManager.merge_step depth self old_user) l user = Ok u →
  u !! k = user !! k ∨ u !! k = old_user !! k.
Proof.
  apply (foldM_invariant
           (fun u => u !! k = user !! k ∨ u !! k = old_user !! k)); [| by left].
  intros u0 prop u1 _ Hu0 Hstep.
  apply merge_step_Ok in Hstep
    as [(_ & ->) | (Hg & deps & _ & [(_ & ->) | (_ & v & Hv & ->)])]; [done | done |].
  destruct (decide (Property.name prop = k)) as [<- | Hne].
  - right. by rewrite lookup_insert_eq.
  - by rewrite lookup_insert_ne.
Qed.


End Merge.

Lemma mapM_Forall2 {A B : Type} (R : A → B → Prop) (f : A → outcome B) (l : list A) :
  (∀ x, x ∈ l → ∃ y, f x = Ok y ∧ R x y) →
  ∃ ys, mapM f l = Ok ys ∧ Forall2 R l ys.
Proof.
  induction l as [|x l IH]; intros Hf; simpl; [by exists [] |].
  destruct (Hf x) as (y & -> & Hy); [by left |]. simpl.
  destruct IH as (ys & -> & Hys); [intros; apply Hf; by right |]. simpl.
  exists (y :: ys). by split; [| constructor].
Qed.

Lemma mapM_inv {A B : Type} (f : A → outcome B) (l : list A) (ys : list B) :
  mapM f l = Ok ys → Forall2 (fun x y => f x = Ok y) l ys.
Proof.
  revert ys. induction l as [|x l IH]; intros ys.
  - simpl. intros [= <-]. constructor.
  - cbn [mapM]. intros (y & Hy & (ys' & Hys & [= <-])%bind_Ok)%bind_Ok.
    constructor; [done | by apply IH].
Qed.

Section Closure.
Context (self : PropertyManager.t).


(** A property whose arguments are all literals has no dependency. *)
Lemma get_dependencies_literals (depth : nat) (prop : Property.t)
    (deps : list Property.t) :
  Forall (fun arg => is_reference arg = false) (Property.fn_args prop) →
  PropertyManager.get_dependencies depth self (Some prop) = Ok deps →
  deps = [].
Proof.
  intros Hargs. destruct depth as [|depth]; [done |].
  rewrite get_dependencies_unfold.
  destruct (Property.is_generated prop); [| by intros [= <-]].
  apply (foldM_invariant (fun result => result = [])); [| done].
  intros result p_name result' Hin -> Hstep.
  rewrite Forall_forall in Hargs. specialize (Hargs _ Hin).
  destruct p_name as [|c ref]; [done |].
  destruct (decide (c = "@"%char)) as [-> | Hc]; [done |].
  rewrite dependency_step_literal in Hstep by done. by inversion Hstep.
Qed.

End Closure.

Section MergeSpec.
Context (depth : nat) (self : UserManager.t) (old_user : record).



End MergeSpec.

Section Combine.
Context (depth : nat) (self : UserManager.t) (pk : Property.t).



End Combine.

Section Carry.
Context (depth : nat) (self : UserManager.t).




End Carry.









(** Outside the managers and records of the two theorems above [combine]
    raises: on an empty argument the resolver indexes [p_name[0]] (which
    [info] guards with [if fn_arg]), and the records [all] returns hold no
    value for a generated property that is not exposed. *)
Lemma combine_raises :
  (∃ r, PropertyManager.info (Examples.manager Examples.empty_argument sample_token)
          (Some sample_row) = Ok r
        ∧ UserManager.combine 5
            {| UserManager.pm := Examples.manager Examples.empty_argument sample_token |}
            [r] [r] = Err IndexError)
  ∧ (∃ rows, PropertyManager.all (Examples.manager Examples.hidden_salt sample_token)
             = Ok rows
             ∧ UserManager.combine 5
                 {| UserManager.pm := Examples.manager Examples.hidden_salt sample_token |}
                 rows rows = Err (KeyError "salt")).
Proof. split; eexists; split; by vm_compute. Qed.

(** ** The record of a row *)

Section InfoRecord.
Context (self : PropertyManager.t).

Lemma exposed_in_names (k : string) :
  PropertyManager.exposed self k = true → k ∈ names self.
Proof.
  unfold PropertyManager.exposed.
  destruct (PropertyManager.get_property_by_name self k) as [p|] eqn:E; [| done].
  intros _. destruct (get_property_by_name_Some self k p E) as [Hin <-].
  apply list_elem_of_fmap. eauto.
Qed.

(** The two loops give a value to every declared name. *)
Lemma loops_fill_names (row : option row) (idx : nat) (r1 r2 : record) (k : string) :
  foldM (PropertyManager.fill_step self row) (PropertyManager.properties self) (O, ∅)
    = Ok (idx, r1) →
  foldM PropertyManager.generate_step (PropertyManager.properties self) r1 = Ok r2 →
  k ∈ names self → is_Some (r2 !! k).
Proof.
  intros Hfill Hgen (p & -> & Hp)%list_elem_of_fmap.
  apply (generate_keys _ _ _ _ Hgen).
  destruct (Property.is_generated p) eqn:Hg; [right; eauto |].
  left. apply (fill_keys _ _ _ _ _ _ _ _ Hfill). right. eauto.
Qed.

Lemma info_Ok (row : option row) (result : record) :
  PropertyManager.info self row = Ok result →
  ∃ idx r1 r2,
    foldM (PropertyManager.fill_step self row) (PropertyManager.properties self) (O, ∅)
      = Ok (idx, r1)
    ∧ foldM PropertyManager.generate_step (PropertyManager.properties self) r1 = Ok r2
    ∧ result = base.filter (fun kv => PropertyManager.exposed self kv.1 = true) r2.
Proof.
  rewrite info_unfold.
  intros ([idx r1] & Hfill & (r2 & Hgen & Hstrip)%bind_Ok)%bind_Ok.
  exists idx, r1, r2. split; [done |]. split; [done |].
  unfold PropertyManager.strip_hidden in Hstrip. case_bool_decide; [| done].
  by inversion Hstrip.
Qed.

Lemma info_exposes (row : option row) (result : record) (k : string) :
  PropertyManager.info self row = Ok result →
  is_Some (result !! k) ↔ PropertyManager.exposed self k = true.
Proof.
  intros (idx & r1 & r2 & Hfill & Hgen & ->)%info_Ok. split.
  - intros [v Hv]. by apply map_lookup_filter_Some in Hv as [_ Hk].
  - intros Hk.
    destruct (loops_fill_names row idx r1 r2 k Hfill Hgen (exposed_in_names k Hk))
      as [v Hv].
    exists v. by apply map_lookup_filter_Some.
Qed.

Lemma fill_index (row : option row) (l : list Property.t) :
  ∀ idx r idx' r',
    foldM (PropertyManager.fill_step self row) l (idx, r) = Ok (idx', r') →
    idx' = (idx + stored_count l)%nat.
Proof.
  induction l as [|prop l IH]; intros idx r idx' r'.
  - intros [= <- <-]. unfold stored_count. simpl. lia.
  - cbn [foldM]. intros ([idx1 r1] & H1 & H2)%bind_Ok.
    rewrite (IH _ _ _ _ H2). unfold stored_count. cbn [List.filter].
    apply fill_step_Ok in H1 as [(-> & -> & _) | (-> & -> & _)]; simpl; lia.
Qed.

(** With unique names, a name is looked up to the property that bears it. *)
Lemma lookup_unique (i : nat) (prop : Property.t) :
  NoDup (names self) →
  PropertyManager.properties self !! i = Some prop →
  PropertyManager.get_property_by_name self (Property.name prop) = Some prop.
Proof.
  intros Hnd Hi.
  destruct (get_property_by_name_is_Some self (Property.name prop)) as [p Hp].
  { apply list_elem_of_fmap. exists prop. split; [done |].
    apply list_elem_of_lookup. eauto. }
  rewrite Hp. f_equal.
  destruct (get_property_by_name_Some self _ _ Hp) as [[j Hj]%list_elem_of_lookup Hname].
  pose proof (NoDup_fmap_eq Property.name _ _ _ _ _ Hnd Hj Hi Hname) as ->.
  congruence.
Qed.

(** With unique names, the names whose first property is exposed are the
    names of the exposed properties. *)
Lemma exposed_names (k : string) :
  NoDup (names self) →
  PropertyManager.exposed self k = true ↔ exposed_name self k.
Proof.
  intros Hnd. unfold PropertyManager.exposed, exposed_name. split.
  - destruct (PropertyManager.get_property_by_name self k) as [prop|] eqn:E; [| done].
    intros Hexp. destruct (get_property_by_name_Some self k prop E) as [Hin Hname].
    by exists prop.
  - intros (prop & [i Hi]%list_elem_of_lookup & <- & Hexp).
    by rewrite (lookup_unique i prop Hnd Hi).
Qed.

(** The record [info] returns has a value for a name exactly when the
    first property that bears the name is exposed.  With unique names,
    it has a value for exactly the names of the exposed properties: no
    hidden property is in it, and no exposed one is missing. *)
Theorem info_keys (row : option row) (result : record) (k : string) :
  PropertyManager.info self row = Ok result →
  (is_Some (result !! k) ↔ PropertyManager.exposed self k = true)
  ∧ (NoDup (names self) → is_Some (result !! k) ↔ exposed_name self k).
Proof.
  intros Hinfo. split; [by apply (info_exposes row) |].
  intros Hnd. rewrite <- (exposed_names k Hnd). by apply (info_exposes row).
Qed.

(** No other turn of a loop writes the name of the property at [i]. *)
Lemma other_names (i : nat) (prop p : Property.t) :
  NoDup (names self) →
  PropertyManager.properties self !! i = Some prop →
  p ∈ take i (PropertyManager.properties self)
  ∨ p ∈ drop (S i) (PropertyManager.properties self) →
  Property.name p ≠ Property.name prop.
Proof.
  intros Hnd Hi Hp Heq. destruct Hp as [[j Hj]%list_elem_of_lookup | [j Hj]%list_elem_of_lookup].
  - pose proof (lookup_lt_Some _ _ _ Hj) as Hlt. rewrite length_take in Hlt.
    rewrite lookup_take_lt in Hj by lia.
    pose proof (NoDup_fmap_eq Property.name _ _ _ _ _ Hnd Hj Hi Heq). lia.
  - rewrite lookup_drop in Hj.
    pose proof (NoDup_fmap_eq Property.name _ _ _ _ _ Hnd Hj Hi Heq). lia.
Qed.

(** With unique names, an exposed stored property holds the column of the
    row at its rank among the stored properties: the raw value, or its
    digest for the primary key. *)
Theorem info_stored_value (i : nat) (prop : Property.t) (rw : row) (result : record) :
  NoDup (names self) →
  PropertyManager.properties self !! i = Some prop →
  Property.is_generated prop = false →
  Property.filter_by prop = true →
  PropertyManager.info self (Some rw) = Ok result →
  ∃ raw,
    rw !! stored_count (take i (PropertyManager.properties self)) = Some raw
    ∧ result !! Property.name prop =
      Some (if Property.is_pk prop
            then PropertyManager.anonymize (PropertyManager.token self) raw
            else raw).
Proof.
  intros Hnd Hi Hg Hexp (idx & r1 & r2 & Hfill & Hgen & ->)%info_Ok.
  rewrite <- (take_drop_middle _ i prop Hi), foldM_app in Hfill.
  apply bind_Ok in Hfill as ([idx_i r_i] & Htake & Hfill). cbn [foldM] in Hfill.
  apply bind_Ok in Hfill as ([idx_s r_s] & Hstep & Hdrop).
  apply fill_index in Htake. simpl in Htake. subst idx_i.
  apply fill_step_Ok in Hstep as [(Hg' & _) | (_ & _ & raw & Hraw & ->)]; [congruence |].
  exists raw. split.
  { unfold PropertyManager.row_index, Py.index in Hraw.
    destruct (rw !! _); by inversion Hraw. }
  assert (r2 !! Property.name prop =
          Some (if Property.is_pk prop
                then PropertyManager.anonymize (PropertyManager.token self) raw
                else raw)) as Hr2.
  { rewrite (generate_lookup _ _ _ _ Hgen).
    2: { intros p [j Hj]%list_elem_of_lookup Hgp Heq.
         pose proof (NoDup_fmap_eq Property.name _ _ _ _ _ Hnd Hj Hi Heq). congruence. }
    rewrite (fill_lookup self _ _ _ _ _ _ _ Hdrop).
    2: { intros p Hp _. apply (other_names i); auto. }
    by rewrite lookup_insert_eq. }
  apply map_lookup_filter_Some. split; [done |]. simpl.
  unfold PropertyManager.exposed. by rewrite (lookup_unique i prop Hnd Hi).
Qed.

(** Without a row ([fetchone] found none) [info] raises [TypeError] at the
    first stored property. *)
Lemma info_without_row (prop : Property.t) :
  prop ∈ PropertyManager.properties self →
  Property.is_generated prop = false →
  PropertyManager.info self None = Err TypeError.
Proof.
  intros Hin Hg. rewrite info_unfold.
  assert (∀ l st, prop ∈ l →
            foldM (PropertyManager.fill_step self None) l st = Err TypeError) as Hfill.
  { induction l as [|p l IH]; intros [idx r] Hp; [by apply elem_of_nil in Hp |].
    cbn [foldM].
    assert (PropertyManager.fill_step self None (idx, r) p =
            if Property.is_generated p then Ok (idx, r) else Err TypeError) as ->.
    { unfold PropertyManager.fill_step. by destruct (Property.is_generated p). }
    destruct (Property.is_generated p) eqn:Hgp; [| reflexivity].
    simpl. apply IH. apply elem_of_cons in Hp as [-> | Hp]; [congruence | done]. }
  by rewrite Hfill.
Qed.






End InfoRecord.

Lemma basic_names_unique :
  NoDup (names (Examples.manager Examples.basic sample_token)).
Proof. apply (bool_decide_unpack _). by vm_compute. Qed.

Lemma hidden_salt_names_unique :
  NoDup (names (Examples.manager Examples.hidden_salt sample_token)).
Proof. apply (bool_decide_unpack _). by vm_compute. Qed.

Lemma info_keys_witness :
  ∃ result,
    PropertyManager.info (Examples.manager Examples.hidden_salt sample_token)
                         (Some sample_row) = Ok result
    ∧ is_Some (result !! "name") ∧ ¬ is_Some (result !! "salt").
Proof.
  set (self := Examples.manager Examples.hidden_salt sample_token).
  destruct (PropertyManager.info self (Some sample_row)) as [result|] eqn:Hinfo;
    [| vm_compute in Hinfo; discriminate Hinfo].
  exists result. split; [reflexivity |].
  pose proof (fun k => proj2 (info_keys self (Some sample_row) result k Hinfo)
                         hidden_salt_names_unique) as Hkeys.
  split.
  - apply Hkeys.
    destruct (PropertyManager.properties self !! 1%nat) as [prop|] eqn:Hprop;
      [| vm_compute in Hprop; discriminate Hprop].
    exists prop. split; [apply list_elem_of_lookup; eauto |].
    vm_compute in Hprop. injection Hprop as <-. by split.
  - intros (prop & Hin & Hname & Hexposed)%Hkeys. subst self.
    each_property Hin; try discriminate Hname. discriminate Hexposed.
Defined.

Lemma info_stored_value_witness :
  ∃ result,
    PropertyManager.info (Examples.manager Examples.basic sample_token)
                         (Some sample_row) = Ok result
    ∧ result !! "age" = Some (VInt 30).
Proof.
  set (self := Examples.manager Examples.basic sample_token).
  destruct (PropertyManager.properties self !! 2%nat) as [prop|] eqn:Hprop;
    [| vm_compute in Hprop; discriminate Hprop].
  destruct (PropertyManager.info self (Some sample_row)) as [result|e] eqn:Hinfo;
    [| vm_compute in Hinfo; discriminate Hinfo].
  exists result. split; [done |].
  destruct (info_stored_value self 2 prop sample_row result basic_names_unique Hprop)
    as (raw & Hraw & Hvalue).
  - vm_compute in Hprop. by injection Hprop as <-.
  - vm_compute in Hprop. by injection Hprop as <-.
  - exact Hinfo.
  - vm_compute in Hprop. injection Hprop as <-.
    vm_compute in Hraw. injection Hraw as <-. exact Hvalue.
Defined.


(** [PropertyManager.get] on a key the store does not hold: the query
    finds no row, and [get] raises [TypeError] from [info]. *)
Theorem get_of_missing_key (self : PropertyManager.t) (conn : Connection)
    (pk : value) (prop : Property.t) :
  Property.connection (PropertyManager.user_pk self) = Some conn →
  execute conn (PropertyManager.get_query self pk) = Ok [] →
  prop ∈ PropertyManager.properties self →
  Property.is_generated prop = false →
  PropertyManager.get self pk = Err TypeError.
Proof.
  intros Hconn Hrows Hin Hg.
  unfold PropertyManager.get, PropertyManager.pk_connection, fetchone.
  rewrite Hconn. simpl. rewrite Hrows. simpl. by apply (info_without_row self prop).
Qed.

Lemma get_of_missing_key_witness :
  PropertyManager.get empty_manager (VInt 7) = Err TypeError.
Proof.
  destruct (PropertyManager.properties empty_manager !! 0%nat) as [prop|] eqn:Hprop;
    [| vm_compute in Hprop; discriminate Hprop].
  apply (get_of_missing_key empty_manager empty_db (VInt 7) prop).
  - vm_compute. reflexivity.
  - reflexivity.
  - apply list_elem_of_lookup. eauto.
  - vm_compute in Hprop. by injection Hprop as <-.
Defined.

(** ** The filter expressions of a property *)

Lemma scan_rest (l : list ascii) (operator exp : string) :
  exp ≠ EmptyString →
  fold_left Property.scan_step l (operator, exp) =
  (operator, exp ++ string_of_list_ascii l).
Proof.
  revert exp. induction l as [|c l IH]; intros exp Hexp; simpl.
  - by rewrite append_nil_r.
  - assert (Py.str_truthy exp = true) as ->.
    { unfold Py.str_truthy. destruct exp; [done | reflexivity]. }
    simpl. rewrite IH.
    + rewrite append_assoc. reflexivity.
    + destruct exp; [done |]. rewrite append_cons. discriminate.
Qed.

Lemma scan_operator (op e : string) :
  Forall (fun c => Py.char_in c Property.op_chars = true) (list_ascii_of_string op) →
  e = EmptyString ∨ begins_operand e →
  Property.scan (op ++ e) = (op, e).
Proof.
  intros Hop He. unfold Property.scan.
  assert (∀ operator,
            fold_left Property.scan_step (list_ascii_of_string (op ++ e))
                      (operator, EmptyString) = (operator ++ op, e)) as H; [| apply H].
  induction op as [|c op IH]; intros operator.
  - rewrite append_nil_r. change (EmptyString ++ e) with e.
    destruct He as [-> | (c & rest & -> & Hc)]; [done |].
    simpl. rewrite Hc. rewrite scan_rest by done.
    by rewrite string_of_list_ascii_of_string.
  - inversion Hop as [|? ? Hc Hrest]; subst. rewrite append_cons. simpl.
    rewrite Hc, (IH Hrest). by rewrite append_assoc.
Qed.

Lemma re_split_first_whole (cls : list ascii) (s : string) :
  Forall (fun x => Py.char_in x cls = false) (list_ascii_of_string s) →
  Py.re_split_first cls s = s.
Proof.
  induction s as [|c r IH]; [done |]. simpl. intros Hn.
  inversion Hn as [|? ? Hc Hr]; subst. by rewrite Hc, (IH Hr).
Qed.

Lemma apply_operator_integers (op : string) (v n : Z) :
  op ∈ operators →
  Property.apply_operator op (Some (v ?= n)%Z) = Ok (int_holds op v n).
Proof.
  intros Hop. unfold operators in Hop. unfold int_holds.
  repeat (apply elem_of_cons in Hop as [-> | Hop];
          [destruct (Z.eqb_spec v n), (Z.ltb_spec v n), (Z.ltb_spec n v),
             (Z.leb_spec v n), (Z.leb_spec n v), (Z.compare_spec v n);
           try lia; reflexivity |]).
  by apply elem_of_nil in Hop.
Qed.

Section MatchesLaws.
Context `{FloatOps}.

(** The scanning of an expression [name op operand]. *)
Lemma matches_scanned (self : Property.t) (val val' : value)
    (f_name op e e' : string) :
  no_operator_char f_name →
  (∃ c rest, op = String c rest) →
  Forall (fun c => Py.char_in c Property.op_chars = true) (list_ascii_of_string op) →
  begins_operand e →
  Property.strip_quotes e = Ok e' →
  unquoted val val' →
  Property.matches self val (f_name ++ op ++ e) =
  Property.coerce self val' e'
    ≫= λ ve, Property.apply_operator op (Property.compare_operand ve.1 ve.2).
Proof.
  intros Hn (c & rest & ->) Hop He Hquote Hval. unfold Property.matches.
  rewrite append_cons.
  rewrite (re_split_first_prefix ["="; "!"; "<"; ">"]%char f_name (rest ++ e) c).
  2: { apply not_in_class; [| done]. unfold Property.op_chars. intros x.
       rewrite !elem_of_cons, !elem_of_nil. tauto. }
  2: { inversion Hop as [|? ? Hc _]; subst. revert Hc.
       unfold Py.char_in, Property.op_chars.
       rewrite !bool_decide_eq_true, !elem_of_cons, !elem_of_nil. tauto. }
  rewrite drop_length_app, <- append_cons, (scan_operator _ _ Hop) by (by right).
  assert (match val with
          | VStr s => VStr <$> Property.strip_quotes s
          | _ => Ok val
          end = Ok val') as ->.
  { unfold unquoted in Hval. destruct val as [| |s].
    - by subst.
    - by subst.
    - destruct Hval as (s' & -> & ->). reflexivity. }
  simpl. rewrite Hquote. reflexivity.
Qed.

Lemma operators_are_operators (op : string) :
  op ∈ operators →
  (∃ c rest, op = String c rest)
  ∧ Forall (fun c => Py.char_in c Property.op_chars = true) (list_ascii_of_string op).
Proof.
  unfold operators. intros Hop.
  repeat (apply elem_of_cons in Hop as [-> | Hop];
          [split; [eauto | simpl; repeat constructor] |]).
  by apply elem_of_nil in Hop.
Qed.

Lemma coerce_plain_int (self : Property.t) (val : value) (e : string) (n : Z) :
  plain_type self → Py.int e = Some n →
  Property.coerce self val e = Ok (val, Property.OVal (VInt n)).
Proof.
  intros (t & Ht & Hplain) Hn. unfold Property.coerce.
  rewrite Ht. simpl. by rewrite Hplain, Hn.
Qed.

Lemma coerce_plain (self : Property.t) (val : value) (e : string) :
  plain_type self → ∃ operand, Property.coerce self val e = Ok (val, operand).
Proof.
  intros (t & Ht & Hplain). unfold Property.coerce.
  rewrite Ht. simpl. rewrite Hplain.
  destruct (Py.int e); [eauto |]. destruct (to_float e); eauto.
Qed.

(** For a property of a plain type, an integer value and an operand that
    reads as an integer, quoted or not, [matches] is the comparison of the
    two integers under the operator. *)
Theorem matches_compares_integers (self : Property.t) (v n : Z)
    (f_name op e e' : string) :
  no_operator_char f_name → op ∈ operators →
  begins_operand e → Property.strip_quotes e = Ok e' → Py.int e' = Some n →
  plain_type self →
  Property.matches self (VInt v) (f_name ++ op ++ e) = Ok (int_holds op v n).
Proof.
  intros Hn Hop He Hquote Hint Hplain.
  destruct (operators_are_operators op Hop) as [Hne Hchars].
  rewrite (matches_scanned self (VInt v) (VInt v) f_name op e e'); try done.
  rewrite (coerce_plain_int self _ _ n Hplain Hint). simpl.
  apply apply_operator_integers, Hop.
Qed.

End MatchesLaws.

Section MatchesLaws2.
Context `{FloatOps}.

(** A string value is never read as a number: against an operand that
    reads as an integer it is the greater of the two and different from it,
    whatever its characters (Python 2 orders every string above every
    number).  So the value 5 held as a string matches age>10. *)
Theorem matches_string_above_number (self : Property.t) (s s' : string) (n : Z)
    (f_name op e e' : string) :
  no_operator_char f_name → op ∈ operators →
  begins_operand e → Property.strip_quotes e = Ok e' → Py.int e' = Some n →
  Property.strip_quotes s = Ok s' →
  plain_type self →
  Property.matches self (VStr s) (f_name ++ op ++ e) = Ok (above_holds op).
Proof.
  intros Hn Hop He Hquote Hint Hs Hplain.
  destruct (operators_are_operators op Hop) as [Hne Hchars].
  rewrite (matches_scanned self (VStr s) (VStr s') f_name op e e'); try done.
  2: { simpl. eauto. }
  rewrite (coerce_plain_int self _ _ n Hplain Hint). simpl.
  unfold operators in Hop.
  repeat (apply elem_of_cons in Hop as [-> | Hop]; [reflexivity |]).
  by apply elem_of_nil in Hop.
Qed.

(** An operator written with the operator characters that is none of the
    six known ones is refused with [UnknownOperatorException], for a
    property of a plain type and an operand that is not empty. *)
Theorem matches_unknown_operator (self : Property.t) (val val' : value)
    (f_name op e e' : string) :
  no_operator_char f_name →
  (∃ c rest, op = String c rest) →
  Forall (fun c => Py.char_in c Property.op_chars = true) (list_ascii_of_string op) →
  op ∉ operators →
  begins_operand e → Property.strip_quotes e = Ok e' →
  unquoted val val' →
  plain_type self →
  Property.matches self val (f_name ++ op ++ e) = Err (UnknownOperatorException op).
Proof.
  intros Hn Hne Hchars Hop He Hquote Hval Hplain.
  rewrite (matches_scanned self val val' f_name op e e'); try done.
  destruct (coerce_plain self val' e' Hplain) as [operand ->]. simpl.
  unfold Property.apply_operator.
  unfold operators in Hop. rewrite !not_elem_of_cons in Hop.
  destruct Hop as (H1 & H2 & H3 & H4 & H5 & H6 & _).
  apply String.eqb_neq in H1, H2, H3, H4, H5, H6.
  by rewrite H1, H2, H3, H4, H5, H6.
Qed.

(** An expression that is only a name, with no operator, is refused when
    the empty operand is indexed, before the operator is looked at. *)
Theorem matches_bare_name (self : Property.t) (val : value) (f_name : string) :
  no_operator_char f_name →
  Property.matches self val f_name = Err IndexError.
Proof.
  intros Hn. unfold Property.matches.
  rewrite re_split_first_whole.
  2: { apply not_in_class; [| done]. unfold Property.op_chars. intros x.
       rewrite !elem_of_cons, !elem_of_nil. tauto. }
  assert (Py.drop (String.length f_name) f_name = EmptyString) as ->.
  { clear. induction f_name; [done | by simpl]. }
  unfold Property.scan. simpl.
  destruct val as [| n | s]; simpl; try reflexivity.
  destruct (Property.strip_quotes s) as [|e] eqn:E; [reflexivity |].
  by rewrite (strip_quotes_error _ _ E).
Qed.

End MatchesLaws2.

(** *** Scalar enumerations *)

Lemma in_aliases (v : value) (r : string) :
  Property.in_strings v
    (let r_arr := Py.split "=" r in
     if (List.length r_arr =? 1)%nat then (r_arr ++ take 1 r_arr)%list else r_arr)
  = Property.in_strings v (Py.split "=" r).
Proof.
  destruct v as [| n | s]; try done.
  simpl. destruct (List.length (Py.split "=" r) =? 1)%nat; [| done].
  apply bool_decide_ext. rewrite elem_of_app. split; [| by left].
  intros [Hin | Hin]; [done |].
  apply elem_of_take in Hin as (i & Hi & _). by eapply list_elem_of_lookup_2.
Qed.

Lemma resolve_step (k : nat) (r : string) (ranges : list string) (v : value) :
  resolve (S k) ranges
    (if Property.in_strings v (Py.split "=" r) then VInt (Z.of_nat k) else v) =
  resolve k (r :: ranges) v.
Proof.
  destruct v as [| n | s]; try done. simpl.
  destruct (bool_decide (s ∈ Py.split "=" r)); simpl.
  - by rewrite Nat.add_0_r.
  - destruct (bucket ranges s); simpl; [| done]. do 2 f_equal. lia.
Qed.

Lemma scalar_fold (ranges : list string) (k : nat) (val exp : value) :
  fold_left Property.scalar_step (imap (fun i r => ((k + i)%nat, r)) ranges)
            (val, exp) =
  (resolve k ranges val, resolve k ranges exp).
Proof.
  revert k val exp. induction ranges as [|r ranges IH]; intros k val exp.
  - by destruct val, exp.
  - cbn [imap fold_left]. unfold Property.scalar_step at 2.
    rewrite !in_aliases.
    rewrite (imap_ext _ (fun i r => ((S k + i)%nat, r))).
    2: { intros i x _. simpl. f_equal. lia. }
    rewrite IH, Nat.add_0_r. by rewrite !resolve_step.
Qed.

Section ScalarLaws.
Context `{FloatOps}.

Lemma coerce_scalar (self : Property.t) (ranges : list string) (s e : string) :
  scalar_type self ranges →
  Property.coerce self (VStr s) e =
  match bucket ranges s, bucket ranges e with
  | None, _ => Err (ValueError ("Invalid option: " ++ s))
  | Some _, None => Err (ValueError ("Invalid option: " ++ e))
  | Some i, Some j =>
      Ok (VInt (Z.of_nat i), Property.OVal (VInt (Z.of_nat j)))
  end.
Proof.
  intros (t & inner & Ht & Hscalar & Hinner & ->). unfold Property.coerce.
  rewrite Ht. simpl. rewrite Hscalar, Hinner. simpl.
  rewrite (scalar_fold _ 0). simpl.
  destruct (bucket _ s), (bucket _ e); reflexivity.
Qed.

(** For a property of a scalar enumeration type, a string value and an
    operand that each spell an option are compared by the positions of
    their options in the declaration. *)
Theorem matches_scalar_positions (self : Property.t) (ranges : list string)
    (s s' f_name op e e' : string) (i j : nat) :
  no_operator_char f_name → op ∈ operators →
  begins_operand e → Property.strip_quotes e = Ok e' →
  Property.strip_quotes s = Ok s' →
  scalar_type self ranges →
  bucket ranges s' = Some i → bucket ranges e' = Some j →
  Property.matches self (VStr s) (f_name ++ op ++ e) =
  Ok (int_holds op (Z.of_nat i) (Z.of_nat j)).
Proof.
  intros Hn Hop He Hquote Hs Hscalar Hi Hj.
  destruct (operators_are_operators op Hop) as [Hne Hchars].
  rewrite (matches_scanned self (VStr s) (VStr s') f_name op e e'); try done.
  2: { simpl. eauto. }
  rewrite (coerce_scalar self ranges _ _ Hscalar), Hi, Hj. simpl.
  apply apply_operator_integers, Hop.
Qed.

(** For a property of a scalar enumeration type, a string value that
    spells no option is refused with [ValueError], and so is, for a valid
    value, an operand that spells none; the operator is not looked at. *)
Theorem matches_scalar_invalid_option (self : Property.t) (ranges : list string)
    (s s' f_name op e e' : string) :
  no_operator_char f_name →
  (∃ c rest, op = String c rest) →
  Forall (fun c => Py.char_in c Property.op_chars = true) (list_ascii_of_string op) →
  begins_operand e → Property.strip_quotes e = Ok e' →
  Property.strip_quotes s = Ok s' →
  scalar_type self ranges →
  (bucket ranges s' = None →
   Property.matches self (VStr s) (f_name ++ op ++ e) =
   Err (ValueError ("Invalid option: " ++ s')))
  ∧ (is_Some (bucket ranges s') → bucket ranges e' = None →
     Property.matches self (VStr s) (f_name ++ op ++ e) =
     Err (ValueError ("Invalid option: " ++ e'))).
Proof.
  intros Hn Hne Hchars He Hquote Hs Hscalar.
  rewrite (matches_scanned self (VStr s) (VStr s') f_name op e e'); try done.
  2: { simpl. eauto. }
  rewrite (coerce_scalar self ranges _ _ Hscalar). split.
  - by intros ->.
  - intros [i ->] ->. done.
Qed.

End ScalarLaws.

(** *** Sample comparisons *)

Lemma matches_compares_integers_witness :
  Property.matches (H := Examples.no_float) sample_age (VInt 5) "age>'10'" = Ok false.
Proof.
  apply (matches_compares_integers (H := Examples.no_float)
           sample_age 5 10 "age" ">" "'10'" "10").
  - unfold no_operator_char. simpl. repeat constructor.
  - unfold operators. set_solver.
  - eexists _, _. split; reflexivity.
  - reflexivity.
  - reflexivity.
  - exists "int". split; reflexivity.
Defined.

Lemma matches_string_above_number_witness :
  Property.matches (H := Examples.no_float) sample_age (VStr "5") ">10" = Ok true.
Proof.
  apply (matches_string_above_number (H := Examples.no_float)
           sample_age "5" "5" 10 EmptyString ">" "10" "10").
  - unfold no_operator_char. simpl. constructor.
  - unfold operators. set_solver.
  - eexists _, _. split; reflexivity.
  - reflexivity.
  - reflexivity.
  - reflexivity.
  - exists "int". split; reflexivity.
Defined.

Lemma matches_unknown_operator_witness :
  Property.matches (H := Examples.no_float) sample_age (VInt 30) "age==30" =
  Err (UnknownOperatorException "==").
Proof.
  apply (matches_unknown_operator (H := Examples.no_float)
           sample_age (VInt 30) (VInt 30) "age" "==" "30" "30").
  - unfold no_operator_char. simpl. repeat constructor.
  - eauto.
  - simpl. repeat constructor.
  - unfold operators. intros Hin.
    repeat (apply elem_of_cons in Hin as [Hin | Hin]; [discriminate |]).
    by apply elem_of_nil in Hin.
  - eexists _, _. split; reflexivity.
  - reflexivity.
  - reflexivity.
  - exists "int". split; reflexivity.
Defined.

Lemma matches_bare_name_witness :
  Property.matches (H := Examples.no_float) sample_age (VInt 30) "age" = Err IndexError.
Proof.
  apply (matches_bare_name (H := Examples.no_float) sample_age (VInt 30) "age").
  unfold no_operator_char. simpl. repeat constructor.
Defined.

Lemma sample_level_type : scalar_type sample_level ["low=l"; "mid"; "high=h"].
Proof. exists "scalar(low=l,mid,high=h)", "low=l,mid,high=h)". repeat (split; [reflexivity |]); reflexivity. Qed.

Lemma matches_scalar_positions_witness :
  Property.matches (H := Examples.no_float) sample_level (VStr "low") "level<'h'" = Ok true.
Proof.
  apply (matches_scalar_positions (H := Examples.no_float) sample_level
           ["low=l"; "mid"; "high=h"] "low" "low" "level" "<" "'h'" "h" 0 2).
  - unfold no_operator_char. simpl. repeat constructor.
  - unfold operators. set_solver.
  - eexists _, _. split; reflexivity.
  - reflexivity.
  - reflexivity.
  - exact sample_level_type.
  - reflexivity.
  - reflexivity.
Defined.

Lemma matches_scalar_invalid_option_witness :
  Property.matches (H := Examples.no_float) sample_level (VStr "tiny") "level=mid" =
  Err (ValueError "Invalid option: tiny").
Proof.
  apply (matches_scalar_invalid_option (H := Examples.no_float) sample_level
           ["low=l"; "mid"; "high=h"] "tiny" "tiny" "level" "=" "mid" "mid").
  - unfold no_operator_char. simpl. repeat constructor.
  - eauto.
  - simpl. repeat constructor.
  - eexists _, _. split; reflexivity.
  - reflexivity.
  - reflexivity.
  - exact sample_level_type.
  - reflexivity.
Defined.

(** ** The filters of a query *)

Lemma filter_filter {A : Type} (P Q : A → bool) (l : list A) :
  List.filter Q (List.filter P l) = List.filter (fun x => P x && Q x) l.
Proof.
  induction l as [|x l IH]; [done |]. simpl.
  destruct (P x); simpl; [| exact IH]. destruct (Q x); by rewrite IH.
Qed.

Lemma filter_all {A : Type} (P : A → bool) (l : list A) :
  Forall (fun x => P x = true) l → List.filter P l = l.
Proof.
  induction 1 as [|x l Hx _ IH]; [done |]. simpl. by rewrite Hx, IH.
Qed.

Lemma filter_none {A : Type} (P : A → bool) (l : list A) :
  Forall (fun x => P x = false) l → List.filter P l = [].
Proof.
  induction 1 as [|x l Hx _ IH]; [done |]. simpl. by rewrite Hx, IH.
Qed.

Section Routing.
Context (self : PropertyManager.t).

Lemma route_filterable (g c a : list string) (f : string) :
  routed self Property.filter_by f = true →
  PropertyManager.route self (g, c, a) f =
  Ok ((g ++ List.filter (routed self Property.is_generated) [f])%list,
      (c ++ List.filter (routed self is_concrete) [f])%list,
      (a ++ List.filter (routed self is_aggregate) [f])%list).
Proof.
  intros Hf. unfold routed in Hf.
  destruct (filter_property self f) as [prop|] eqn:E; [| done].
  assert (∀ P, routed self P f = P prop) as Hr.
  { intros P. unfold routed. by rewrite E. }
  cbn [List.filter]. rewrite !Hr. unfold PropertyManager.route.
  unfold filter_property in E. rewrite E, Hf. simpl.
  unfold is_concrete, is_aggregate.
  destruct (Property.is_generated prop); simpl.
  - by rewrite !app_nil_r.
  - destruct (bool_decide (Property.aggregate prop = None)); simpl;
      by rewrite !app_nil_r.
Qed.

Lemma separate_from (fs g c a : list string) :
  Forall (fun f => routed self Property.filter_by f = true) fs →
  foldM (PropertyManager.route self) fs (g, c, a) =
  Ok ((g ++ List.filter (routed self Property.is_generated) fs)%list,
      (c ++ List.filter (routed self is_concrete) fs)%list,
      (a ++ List.filter (routed self is_aggregate) fs)%list).
Proof.
  intros Hfs. revert g c a. induction Hfs as [|f fs Hf _ IH]; intros g c a.
  - simpl. by rewrite !app_nil_r.
  - cbn [foldM]. rewrite (route_filterable _ _ _ _ Hf). cbn. rewrite IH.
    destruct (routed self Property.is_generated f), (routed self is_concrete f),
      (routed self is_aggregate f);
      rewrite ?app_nil_r, <- ?app_assoc; reflexivity.
Qed.

(** When every filter names an exposed property, the three groups are the
    filters on generated properties, on stored properties without an
    aggregate and on stored properties with one, each in the order
    given: no filter is lost, none is in two groups. *)
Theorem separate_partitions (fs : list string) :
  Forall (fun f => routed self Property.filter_by f = true) fs →
  PropertyManager.separate self fs =
  Ok (List.filter (routed self Property.is_generated) fs,
      List.filter (routed self is_concrete) fs,
      List.filter (routed self is_aggregate) fs).
Proof. intros Hfs. unfold PropertyManager.separate. by rewrite separate_from. Qed.

Lemma separate_stops (pre post : list string) (f : string) (e : exn) :
  Forall (fun f => routed self Property.filter_by f = true) pre →
  (∀ acc, PropertyManager.route self acc f = Err e) →
  PropertyManager.separate self (pre ++ f :: post) = Err e.
Proof.
  intros Hpre Hf. unfold PropertyManager.separate.
  rewrite foldM_app, (separate_from _ _ _ _ Hpre). cbn [mbind result_bind foldM app]. by rewrite Hf.
Qed.

End Routing.

Section FilterErrors.
Context `{FloatOps} (self : PropertyManager.t).

(** [filter] checks its filters in order before any query is made: the
    first one that names no property raises [AttributeError], the first
    one that names a hidden property raises
    [PropertyNotFoundException] with the name of the property. *)
Theorem filter_refuses (pre post : list string) (f : string) :
  Forall (fun f => routed self Property.filter_by f = true) pre →
  (filter_property self f = None →
   PropertyManager.filter self (PropertyManager.FList (pre ++ f :: post)) =
   Err AttributeError)
  ∧ (∀ prop, filter_property self f = Some prop →
       Property.filter_by prop = false →
       PropertyManager.filter self (PropertyManager.FList (pre ++ f :: post)) =
       Err (PropertyNotFoundException
              (PropertyManager.not_found_msg (Property.name prop)))).
Proof.
  intros Hpre.
  assert (PropertyManager.filters_truthy
            (PropertyManager.FList (pre ++ f :: post)) = true) as Htruthy.
  { simpl. rewrite bool_decide_eq_false_2; [done |]. by destruct pre. }
  unfold PropertyManager.filter. rewrite Htruthy. cbn [negb PropertyManager.filters_list].
  split.
  - intros Hnone. rewrite (separate_stops self pre post f AttributeError Hpre); [done |].
    intros [[g c] a]. unfold PropertyManager.route.
    unfold filter_property in Hnone. by rewrite Hnone.
  - intros prop Hprop Hhidden.
    rewrite (separate_stops self pre post f
               (PropertyNotFoundException
                  (PropertyManager.not_found_msg (Property.name prop))) Hpre); [done |].
    intros [[g c] a]. unfold PropertyManager.route.
    unfold filter_property in Hprop. by rewrite Hprop, Hhidden.
Qed.

End FilterErrors.

Section Generated.
Context `{FloatOps} (self : PropertyManager.t).

Lemma keep_passing (prop : Property.t) (f : string) (results : list record)
    (keep : list bool) :
  filter_property self f = Some prop → Property.is_generated prop = true →
  mapM (fun result =>
          match result !! Property.name prop with
          | None => Err (KeyError (Property.name prop))
          | Some v => Property.matches prop v f
          end) results = Ok keep →
  snd <$> List.filter fst (zip keep results) = List.filter (fun r => passes self r f) results.
Proof.
  intros Hprop Hgen. revert keep.
  induction results as [|r results IH]; intros keep.
  - simpl. intros [= <-]. done.
  - cbn [mapM]. intros (b & Hb & (bs & Hbs & [= <-])%bind_Ok)%bind_Ok.
    cbn [zip zip_with List.filter fst]. unfold passes at 1.
    rewrite Hprop, Hgen.
    destruct (r !! Property.name prop) as [v|]; [| done]. rewrite Hb.
    destruct b; cbn; by rewrite (IH bs Hbs).
Qed.

Lemma filter_by_generated_step_Ok (results out : list record) (f : string) :
  PropertyManager.filter_by_generated_step self results f = Ok out →
  out = List.filter (fun r => passes self r f) results.
Proof.
  unfold PropertyManager.filter_by_generated_step.
  destruct (PropertyManager.get_property_by_name self _) as [prop|] eqn:E; [| done].
  destruct (Property.is_generated prop) eqn:Hgen.
  - intros (keep & Hkeep & [= <-])%bind_Ok.
    by apply (keep_passing prop f results keep E Hgen).
  - intros [= <-]. symmetry. apply filter_all, Forall_forall. intros r _.
    unfold passes, filter_property. by rewrite E, Hgen.
Qed.

Lemma filter_by_generated_passing (fs : list string) (results out : list record) :
  PropertyManager.filter_by_generated self results fs = Ok out →
  out = List.filter (fun r => forallb (passes self r) fs) results.
Proof.
  unfold PropertyManager.filter_by_generated. revert results.
  induction fs as [|f fs IH]; intros results.
  - simpl. intros [= <-]. symmetry. by apply filter_all, Forall_forall.
  - cbn [foldM]. intros (mid & Hmid & Hout)%bind_Ok.
    apply filter_by_generated_step_Ok in Hmid as ->.
    apply IH in Hout as ->. by rewrite filter_filter.
Qed.

(** When [filter_by_generated] returns, it returns the records that pass
    every filter, in their order: the value of the record for the
    generated property of the filter matches the filter, and a filter on
    a stored property removes nothing. *)
Theorem filter_by_generated_keeps (fs : list string) (results out : list record) :
  PropertyManager.filter_by_generated self results fs = Ok out →
  out = List.filter (fun r => forallb (passes self r) fs) results.
Proof. apply filter_by_generated_passing. Qed.

Lemma filter_by_generated_subset (fs : list string) (results out : list record)
    (r : record) :
  PropertyManager.filter_by_generated self results fs = Ok out →
  r ∈ out → r ∈ results.
Proof.
  intros -> %filter_by_generated_passing.
  rewrite !list_elem_of_In, List.filter_In. tauto.
Qed.

(** A filter list of filters on exposed generated properties only is not
    put into the query: [filter] runs the query of [all], builds every
    record, and then filters the records. *)
Theorem filter_on_generated_only (fs : list string) :
  fs ≠ [] →
  Forall (fun f => routed self Property.filter_by f = true) fs →
  Forall (fun f => routed self Property.is_generated f = true) fs →
  PropertyManager.filter self (PropertyManager.FList fs) =
  PropertyManager.all self
    ≫= λ results, PropertyManager.filter_by_generated self results fs.
Proof.
  intros Hne Hexposed Hgen. unfold PropertyManager.filter. simpl.
  rewrite bool_decide_eq_false_2 by done. simpl.
  unfold PropertyManager.separate. rewrite (separate_from self fs [] [] [] Hexposed).
  cbn [mbind result_bind app].
  rewrite (filter_all _ _ Hgen).
  assert (∀ P, (∀ prop, Property.is_generated prop = true → P prop = false) →
            List.filter (routed self P) fs = []) as Hnone.
  { intros P HP. apply filter_none. eapply Forall_impl; [exact Hgen |].
    intros f. unfold routed. destruct (filter_property self f); [| done].
    apply HP. }
  rewrite !Hnone.
  2: { intros prop Hp. unfold is_aggregate. by rewrite Hp. }
  2: { intros prop Hp. unfold is_concrete. by rewrite Hp. }
  unfold PropertyManager.all, PropertyManager.filter_query, PropertyManager.all_query.
  simpl.
  destruct (PropertyManager.pk_connection self) as [conn|]; [| done]. simpl.
  destruct (execute conn _) as [rows|]; [| done]. simpl. done.
Qed.

Lemma filter_exposes (filters : PropertyManager.filters_arg)
    (out : list record) (r : record) (k : string) :
  PropertyManager.filter self filters = Ok out → r ∈ out →
  is_Some (r !! k) ↔ PropertyManager.exposed self k = true.
Proof.
  assert (∀ rows results, mapM (fun row => PropertyManager.info self (Some row)) rows
                          = Ok results →
            r ∈ results → is_Some (r !! k) ↔ PropertyManager.exposed self k = true)
    as Hrows.
  { induction rows as [|row rows IH]; intros results.
    - simpl. intros [= <-] ?%elem_of_nil. done.
    - cbn [mapM]. intros (y & Hy & (ys & Hys & [= <-])%bind_Ok)%bind_Ok.
      intros [-> | Hr]%elem_of_cons; [by eapply info_exposes | by eapply IH]. }
  unfold PropertyManager.filter.
  destruct (negb (PropertyManager.filters_truthy filters)).
  - unfold PropertyManager.all.
    intros (conn & _ & (rows & _ & Hmap)%bind_Ok)%bind_Ok. by eapply Hrows.
  - intros ([[g c] a] & _ & (conn & _ & (rows & _ & (results & Hmap & Hgen)%bind_Ok)
                                        %bind_Ok)%bind_Ok)%bind_Ok.
    intros Hr. eapply Hrows; [exact Hmap |].
    by eapply filter_by_generated_subset.
Qed.

(** Every record [filter] returns, whatever the filters, has a value for
    a name exactly when the first property that bears the name is
    exposed.  With unique names, it has a value for exactly the names of
    the exposed properties. *)
Theorem filter_record_keys (filters : PropertyManager.filters_arg)
    (out : list record) (r : record) (k : string) :
  PropertyManager.filter self filters = Ok out → r ∈ out →
  (is_Some (r !! k) ↔ PropertyManager.exposed self k = true)
  ∧ (NoDup (names self) → is_Some (r !! k) ↔ exposed_name self k).
Proof.
  intros Hout Hr. split; [by eapply filter_exposes |].
  intros Hnd. rewrite <- (exposed_names self k Hnd). by eapply filter_exposes.
Qed.

End Generated.

(** *** Sample filters *)

Lemma separate_partitions_witness :
  PropertyManager.separate sample_shop
    ["alias=Al"; "spent>10"; "name=Bob"; "spent<100"] =
  Ok (["alias=Al"], ["name=Bob"], ["spent>10"; "spent<100"]).
Proof.
  apply (separate_partitions sample_shop
           ["alias=Al"; "spent>10"; "name=Bob"; "spent<100"]).
  repeat (apply Forall_cons_2; [by vm_compute |]). apply Forall_nil_2.
Defined.

Lemma filter_refuses_witness :
  PropertyManager.filter (H := Examples.no_float)
    (Examples.manager Examples.hidden_salt sample_token)
    (PropertyManager.FList ["name=Bob"; "nick=Bobby"; "salt=k"]) = Err AttributeError
  ∧ PropertyManager.filter (H := Examples.no_float)
      (Examples.manager Examples.hidden_salt sample_token)
      (PropertyManager.FList ["name=Bob"; "salt=k"; "nick=Bobby"]) =
    Err (PropertyNotFoundException (PropertyManager.not_found_msg "salt")).
Proof.
  split.
  - apply (filter_refuses (H := Examples.no_float)
             (Examples.manager Examples.hidden_salt sample_token)
             ["name=Bob"] ["salt=k"] "nick=Bobby").
    + repeat (apply Forall_cons_2; [by vm_compute |]). apply Forall_nil_2.
    + by vm_compute.
  - destruct (PropertyManager.properties
                (Examples.manager Examples.hidden_salt sample_token) !! 2%nat)
      as [prop|] eqn:Hprop; [| vm_compute in Hprop; discriminate Hprop].
    assert (Property.name prop = "salt" ∧ Property.filter_by prop = false
            ∧ filter_property (Examples.manager Examples.hidden_salt sample_token)
                "salt=k" = Some prop) as (Hname & Hhidden & Hfilter).
    { vm_compute in Hprop. injection Hprop as <-. by vm_compute. }
    rewrite <- Hname.
    apply (proj2 (filter_refuses (H := Examples.no_float)
                    (Examples.manager Examples.hidden_salt sample_token)
                    ["name=Bob"] ["nick=Bobby"] "salt=k"
                    ltac:(repeat (apply Forall_cons_2; [by vm_compute |]);
                          apply Forall_nil_2))
                 prop Hfilter Hhidden).
Defined.

Lemma filter_by_generated_keeps_witness :
  [sample_alice] =
  List.filter
    (fun r => forallb (passes (H := Examples.no_float)
                         (Examples.manager Examples.basic sample_token) r)
                      ["alias=Alice"; "name=Bob"])
    [sample_alice; sample_bob].
Proof.
  apply (filter_by_generated_keeps (H := Examples.no_float)
           (Examples.manager Examples.basic sample_token)
           ["alias=Alice"; "name=Bob"] [sample_alice; sample_bob] [sample_alice]).
  by vm_compute.
Defined.

Lemma filter_on_generated_only_witness :
  PropertyManager.filter (H := Examples.no_float)
    (Examples.manager Examples.basic sample_token)
    (PropertyManager.FList ["alias=Alice"]) =
  PropertyManager.all (Examples.manager Examples.basic sample_token)
    ≫= λ results,
         PropertyManager.filter_by_generated (H := Examples.no_float)
           (Examples.manager Examples.basic sample_token) results ["alias=Alice"].
Proof.
  apply (filter_on_generated_only (H := Examples.no_float)
           (Examples.manager Examples.basic sample_token) ["alias=Alice"]).
  - discriminate.
  - repeat (apply Forall_cons_2; [by vm_compute |]). apply Forall_nil_2.
  - repeat (apply Forall_cons_2; [by vm_compute |]). apply Forall_nil_2.
Defined.

Lemma filter_record_keys_witness :
  ∃ out r,
    PropertyManager.filter (H := Examples.no_float)
      (Examples.manager Examples.hidden_salt sample_token)
      (PropertyManager.FList ["name=Alice"]) = Ok out
    ∧ r ∈ out
    ∧ is_Some (r !! "name") ∧ ¬ is_Some (r !! "salt").
Proof.
  set (self := Examples.manager Examples.hidden_salt sample_token).
  destruct (PropertyManager.filter (H := Examples.no_float) self
              (PropertyManager.FList ["name=Alice"])) as [out|] eqn:Hout;
    [| vm_compute in Hout; discriminate Hout].
  destruct out as [|r out]; [vm_compute in Hout; discriminate Hout |].
  exists (r :: out), r. split; [reflexivity |]. split; [by left |].
  pose proof (fun k => proj2 (filter_record_keys (H := Examples.no_float) self
                                (PropertyManager.FList ["name=Alice"]) (r :: out) r k
                                Hout ltac:(by left))
                         hidden_salt_names_unique) as Hkeys.
  split.
  - apply Hkeys.
    destruct (PropertyManager.properties self !! 1%nat) as [prop|] eqn:Hprop;
      [| vm_compute in Hprop; discriminate Hprop].
    exists prop. split; [apply list_elem_of_lookup; eauto |].
    vm_compute in Hprop. injection Hprop as <-. by split.
  - intros (prop & Hin & Hname & Hexposed)%Hkeys. subst self.
    each_property Hin; try discriminate Hname. discriminate Hexposed.
Defined.

(** ** The constructors *)

Lemma prefix_char (c d : ascii) (s : string) :
  String.prefix (String c EmptyString) (String d s) = bool_decide (c = d).
Proof.
  simpl. destruct (ascii_dec c d) as [-> | Hne].
  - rewrite bool_decide_eq_true_2 by done. by destruct s.
  - by rewrite bool_decide_eq_false_2.
Qed.

Lemma rev_string_rev (a : string) :
  Py.rev_string (rev (list_ascii_of_string a) ++ []) = a.
Proof.
  unfold Py.rev_string. rewrite app_nil_r, rev_involutive.
  apply string_of_list_ascii_of_string.
Qed.

Lemma split_go_piece (c : ascii) (cur : list ascii) (a rest : string) :
  without c a →
  Py.split_go (String c EmptyString) O cur (a ++ String c rest) =
  Py.rev_string (rev (list_ascii_of_string a) ++ cur)
    :: Py.split_go (String c EmptyString) O [] rest.
Proof.
  unfold without. revert cur. induction a as [|d a IH]; intros cur Ha.
  - change (EmptyString ++ String c rest) with (String c rest).
    cbn [Py.split_go]. rewrite prefix_char, bool_decide_eq_true_2 by done.
    reflexivity.
  - rewrite append_cons. cbn [Py.split_go].
    cbn [list_ascii_of_string] in Ha. apply not_elem_of_cons in Ha as [Hd Ha].
    rewrite prefix_char, bool_decide_eq_false_2 by done.
    rewrite (IH _ Ha). cbn [list_ascii_of_string rev].
    by rewrite <- app_assoc.
Qed.

Lemma split_go_last (c : ascii) (cur : list ascii) (a : string) :
  without c a →
  Py.split_go (String c EmptyString) O cur a =
  [Py.rev_string (rev (list_ascii_of_string a) ++ cur)].
Proof.
  unfold without. revert cur. induction a as [|d a IH]; intros cur Ha.
  - reflexivity.
  - cbn [Py.split_go].
    cbn [list_ascii_of_string] in Ha. apply not_elem_of_cons in Ha as [Hd Ha].
    rewrite prefix_char, bool_decide_eq_false_2 by done.
    rewrite (IH _ Ha). cbn [list_ascii_of_string rev].
    by rewrite <- app_assoc.
Qed.

Lemma split_piece (c : ascii) (a rest : string) :
  without c a →
  Py.split (String c EmptyString) (a ++ String c rest) =
  a :: Py.split (String c EmptyString) rest.
Proof.
  intros Ha. unfold Py.split. by rewrite (split_go_piece _ _ _ _ Ha), rev_string_rev.
Qed.

Lemma split_last (c : ascii) (a : string) :
  without c a → Py.split (String c EmptyString) a = [a].
Proof.
  intros Ha. unfold Py.split. by rewrite (split_go_last _ _ _ Ha), rev_string_rev.
Qed.

Lemma split_go_nonempty (sep : string) (s : string) (skip : nat) (cur : list ascii) :
  ∃ piece pieces, Py.split_go sep skip cur s = piece :: pieces.
Proof.
  revert skip cur. induction s as [|d s IH]; intros skip cur; [simpl; eauto |].
  cbn [Py.split_go]. destruct skip; [| apply IH].
  destruct (String.prefix sep (String d s)); [eauto | apply IH].
Qed.

Section Sources.
Context (env : Collaborators).

(** A source [table.column@connection] whose parts hold no separator is
    read back part by part: the property has that table and that column,
    the connection the manager gives for that name, and its [full] name
    is [table.column], inside [aggregate(...)] when there is an
    aggregate.  The name defaults to the column. *)
Theorem init_reads_stored_source (table column conn_name : string)
    (conn : Connection) (name : option string) (tp : value)
    (aggregate label : option string) (filter_by is_pk : bool) :
  plain_parts table column conn_name →
  Property.source_is_generated (stored_source table column conn_name) = false →
  cm_get env conn_name = Ok conn →
  ∃ prop,
    Property.init env (stored_source table column conn_name) None name tp
                  aggregate label filter_by is_pk = Ok prop
    ∧ Property.table prop = table
    ∧ Property.column prop = column
    ∧ Property.connection prop = Some conn
    ∧ Property.user_fk prop = None
    ∧ Property.full prop =
        (if Py.opt_truthy aggregate
         then default EmptyString aggregate ++ "(" ++ table ++ "." ++ column ++ ")"
         else table ++ "." ++ column)
    ∧ (name = None → aggregate = None → Property.name prop = column).
Proof.
  intros (Ht1 & Ht2 & Hc1 & Hc2 & Hn) Hstored Hconn.
  unfold Property.init, Property.init_body.
  assert (Py.split "@" (stored_source table column conn_name) =
          [table ++ "." ++ column; conn_name]) as ->.
  { assert (stored_source table column conn_name =
            (table ++ "." ++ column) ++ String "@" conn_name) as ->.
    { unfold stored_source. rewrite !append_assoc. reflexivity. }
    rewrite split_piece.
    - by rewrite (split_last _ _ Hn).
    - unfold without. rewrite !list_ascii_of_string_app.
      rewrite !not_elem_of_app. repeat split; try done.
      cbn. by intros [=]%list_elem_of_singleton. }
  cbn [Py.index lookup list_lookup mbind result_bind].
  assert (Py.split "." (table ++ "." ++ column) = [table; column]) as ->.
  { change (table ++ "." ++ column) with (table ++ String "." column).
    by rewrite (split_piece _ _ _ Ht2), (split_last _ _ Hc2). }
  cbn [Py.index lookup list_lookup mbind result_bind].
  rewrite Hstored. cbn [negb]. rewrite Hconn. cbn.
  eexists. split; [reflexivity |]. cbn.
  repeat split; try done.
  - unfold Property.full. cbn [Property.table Property.column Property.aggregate].
    destruct (Py.opt_truthy aggregate); [| done].
    by rewrite !append_assoc.
  - intros -> ->. reflexivity.
Qed.

End Sources.

Lemma string_of_list_ascii_app (l1 l2 : list ascii) :
  string_of_list_ascii (l1 ++ l2) = string_of_list_ascii l1 ++ string_of_list_ascii l2.
Proof. induction l1 as [|c l1 IH]; [done |]. simpl. by rewrite IH. Qed.

Lemma split_go_cur (c : ascii) (cur : list ascii) (rest : string) :
  Py.split_go (String c EmptyString) O cur rest =
  match Py.split_go (String c EmptyString) O [] rest with
  | piece :: pieces => (Py.rev_string cur ++ piece) :: pieces
  | [] => []
  end.
Proof.
  revert cur. induction rest as [|d rest IH]; intros cur.
  - simpl. by rewrite append_nil_r.
  - cbn [Py.split_go]. rewrite prefix_char. case_bool_decide.
    + simpl. by rewrite append_nil_r.
    + rewrite (IH (d :: cur)), (IH [d]).
      destruct (Py.split_go _ _ [] rest) as [|piece pieces]; [done |].
      unfold Py.rev_string. cbn [rev]. rewrite string_of_list_ascii_app.
      by rewrite append_assoc.
Qed.

(** A piece free of the separator stays at the head of the first piece. *)
Lemma split_prefix (c : ascii) (a rest : string) :
  without c a →
  ∃ piece pieces,
    Py.split (String c EmptyString) (a ++ rest) = (a ++ piece) :: pieces.
Proof.
  unfold Py.split. intros Ha.
  assert (∀ cur, Py.split_go (String c EmptyString) O cur (a ++ rest) =
                 Py.split_go (String c EmptyString) O
                   (rev (list_ascii_of_string a) ++ cur) rest) as Hgo.
  { unfold without in Ha. clear -Ha. induction a as [|d a IH]; intros cur; [done |].
    rewrite append_cons.
    cbn [list_ascii_of_string] in Ha. apply not_elem_of_cons in Ha as [Hd Ha].
    cbn [Py.split_go]. rewrite prefix_char, bool_decide_eq_false_2 by done.
    rewrite (IH Ha). cbn [list_ascii_of_string rev]. by rewrite <- app_assoc. }
  rewrite Hgo, split_go_cur, rev_string_rev.
  destruct (split_go_nonempty (String c EmptyString) rest O []) as (p & ps & ->).
  eauto.
Qed.

Lemma find_piece (c : ascii) (a rest : string) :
  without c a → Py.find c (a ++ String c rest) = Some (String.length a).
Proof.
  unfold without. induction a as [|d a IH]; intros Ha.
  - simpl. by rewrite Ascii.eqb_refl.
  - cbn [list_ascii_of_string] in Ha. apply not_elem_of_cons in Ha as [Hd Ha].
    rewrite append_cons. cbn [Py.find].
    apply Ascii.eqb_neq in Hd. rewrite Hd, (IH Ha). reflexivity.
Qed.

Lemma drop_last_app (s : string) (c : ascii) :
  Py.drop_last (s ++ String c EmptyString) = s.
Proof.
  induction s as [|d s IH]; [done |]. rewrite append_cons. cbn [Py.drop_last].
  rewrite IH. destruct s; reflexivity.
Qed.

Lemma drop_past (s rest : string) (c : ascii) :
  Py.drop (S (String.length s)) (s ++ String c rest) = rest.
Proof. induction s as [|d s IH]; [done |]. exact IH. Qed.

Section GeneratedSources.
Context (env : Collaborators).

Lemma without_app (c : ascii) (a b : string) :
  without c a → without c b → without c (a ++ b).
Proof.
  unfold without. rewrite list_ascii_of_string_app, not_elem_of_app. tauto.
Qed.

Lemma without_cons (c d : ascii) (a : string) :
  c ≠ d → without c a → without c (String d a).
Proof. unfold without. cbn. rewrite not_elem_of_cons. tauto. Qed.

Lemma without_nil (c : ascii) : without c EmptyString.
Proof. unfold without. cbn. apply not_elem_of_nil. Qed.

(** How [__init__] reads a generated source, whatever the arguments
    hold. *)
Lemma init_generated_source (cls_name fn_name args_str : string)
    (user_fk name : option string) (tp : value)
    (aggregate label : option string) (filter_by is_pk : bool) :
  plain_names cls_name fn_name →
  ∃ column,
    Property.init env (generated_source cls_name fn_name args_str) user_fk name tp
                  aggregate label filter_by is_pk =
    let source := generated_source cls_name fn_name args_str in
    let name :=
      if Py.opt_truthy name then default EmptyString name
      else if Py.opt_truthy aggregate
           then column ++ "__" ++ default EmptyString aggregate
           else column in
    let label := if Py.opt_truthy label then default EmptyString label else name in
    let tp := if Py.truthy tp then tp else VStr "VARCHAR" in
    let cls_path := "anonymizer.datasource.providers." ++ cls_name in
    match locate env cls_path with
    | None => Err (ProviderNotFound ("Provider " ++ cls_path ++ " was not found"))
    | Some cls =>
        match getattr cls fn_name with
        | None =>
            Err (ProviderMethodNotFound
                   ("Provider method " ++ fn_name ++ " was not found"))
        | Some fn =>
            fn_args ← Csv.first_row args_str;
            tp ← (if Py.eqb tp (VStr "###") then
                    match getattr cls (fn_name ++ "__type") with
                    | None =>
                        Err (ProviderMethodNotFound
                               ("Provider method " ++ fn_name ++
                                " declared dynamic type but function " ++
                                fn_name ++ "__type was not found"))
                    | Some fn_type => fn_type (VStr <$> fn_args)
                    end
                  else Ok tp);
            Ok (Property.Build source ("^" ++ cls_name) column aggregate filter_by
                               is_pk name label tp None None fn fn_args)
        end
    end.
Proof.
  intros (Hc1 & Hc2 & Hc3 & Hf1 & Hf2 & Hf3).
  set (head := "^" ++ cls_name).
  assert (without "@" head ∧ without "." head ∧ without "(" head) as (Hh1 & Hh2 & Hh3).
  { unfold head. change ("^" ++ cls_name) with (String "^" cls_name).
    repeat split; by apply without_cons. }
  assert (generated_source cls_name fn_name args_str =
          (head ++ String "." fn_name ++ "(") ++ args_str ++ ")") as Hsrc1.
  { unfold generated_source, head. by rewrite !append_assoc. }
  assert (generated_source cls_name fn_name args_str =
          head ++ String "." ((fn_name ++ "(") ++ args_str ++ ")")) as Hsrc2.
  { unfold generated_source, head. by rewrite !append_assoc. }
  assert (generated_source cls_name fn_name args_str =
          (head ++ String "." fn_name) ++ String "(" (args_str ++ ")")) as Hsrc3.
  { unfold generated_source, head. by rewrite !append_assoc. }
  (* the piece before the first [@] *)
  destruct (split_prefix "@" (head ++ String "." fn_name ++ "(") (args_str ++ ")"))
    as (p0 & ps0 & Hat).
  { apply without_app; [done |]. apply without_cons; [done |].
    apply without_app; [done |]. apply without_cons; [done | apply without_nil]. }
  (* its pieces between dots *)
  destruct (split_prefix "." (fn_name ++ "(") p0) as (p1 & ps1 & Hdot0).
  { apply without_app; [done |]. apply without_cons; [done | apply without_nil]. }
  assert (Py.split "." ((head ++ String "." fn_name ++ "(") ++ p0) =
          head :: (((fn_name ++ "(") ++ p1) :: ps1)) as Hdot.
  { rewrite append_assoc. change (String "." fn_name ++ "(") with (String "." (fn_name ++ "(")).
    rewrite append_cons. by rewrite (split_piece _ _ _ Hh2), Hdot0. }
  (* the pieces of the source between dots *)
  destruct (split_prefix "." (fn_name ++ "(") (args_str ++ ")")) as (p2 & ps2 & Hdot2).
  { apply without_app; [done |]. apply without_cons; [done | apply without_nil]. }
  assert (Py.split "(" ((fn_name ++ "(") ++ p2) = fn_name :: Py.split "(" p2) as Hparen.
  { rewrite append_assoc. change ("(" ++ p2) with (String "(" p2).
    by rewrite (split_piece _ _ _ Hf3). }
  exists ((fn_name ++ "(") ++ p1).
  unfold Property.init, Property.init_body.
  rewrite Hsrc1 at 1. rewrite Hat.
  cbn [Py.index lookup list_lookup mbind result_bind]. rewrite Hdot.
  cbn [Py.index lookup list_lookup mbind result_bind].
  assert (Property.source_is_generated (generated_source cls_name fn_name args_str)
          = true) as -> by reflexivity.
  cbn [negb].
  rewrite Hsrc2 at 1. rewrite (split_piece _ _ _ Hh2), Hdot2.
  cbn [Py.index lookup list_lookup mbind result_bind].
  assert (Py.drop 1 head = cls_name) as -> by reflexivity.
  cbn zeta.
  destruct (locate env _) as [cls|]; [| reflexivity].
  rewrite Hsrc2 at 1. rewrite (split_piece _ _ _ Hh2), Hdot2.
  cbn [Py.index lookup list_lookup mbind result_bind]. rewrite Hparen.
  cbn [Py.index lookup list_lookup mbind result_bind].
  destruct (getattr cls fn_name) as [fn|]; [| reflexivity].
  assert (Py.slice_to_last
            match Py.find "(" (generated_source cls_name fn_name args_str) with
            | Some i => S i
            | None => O
            end (generated_source cls_name fn_name args_str) = args_str) as ->.
  { rewrite Hsrc3 at 1. rewrite find_piece.
    2: { apply without_app; [done |]. by apply without_cons. }
    unfold Py.slice_to_last. rewrite Hsrc3.
    change (String "(" (args_str ++ ")")) with (String "(" args_str ++ ")").
    rewrite <- append_assoc, drop_last_app.
    apply drop_past. }
  reflexivity.
Qed.

(** A source [^Class.method(arguments)] whose two names hold no separator
    is read back as the operation [method] of the provider class [Class]
    and the arguments as one CSV row, whatever the arguments hold; the
    property has no connection and no foreign key, even when one is
    given. *)
Theorem init_reads_generated_source (cls_name fn_name args_str : string)
    (cls : provider_class) (fn : method) (fn_args : list string)
    (user_fk name : option string) (tp : value)
    (aggregate label : option string) (filter_by is_pk : bool) :
  plain_names cls_name fn_name →
  locate env ("anonymizer.datasource.providers." ++ cls_name) = Some cls →
  getattr cls fn_name = Some fn →
  Csv.first_row args_str = Ok fn_args →
  tp ≠ VStr "###" →
  ∃ prop,
    Property.init env (generated_source cls_name fn_name args_str) user_fk name tp
                  aggregate label filter_by is_pk = Ok prop
    ∧ Property.is_generated prop = true
    ∧ Property.fn prop = fn
    ∧ Property.fn_args prop = fn_args
    ∧ Property.connection prop = None
    ∧ Property.user_fk prop = None
    ∧ Property.tp prop = (if Py.truthy tp then tp else VStr "VARCHAR").
Proof.
  intros Hnames Hcls Hfn Hargs Htp.
  destruct (init_generated_source cls_name fn_name args_str user_fk name tp
              aggregate label filter_by is_pk Hnames) as (column & ->).
  cbn zeta. rewrite Hcls, Hfn, Hargs. cbn [mbind result_bind].
  assert (Py.eqb (if Py.truthy tp then tp else VStr "VARCHAR") (VStr "###") = false)
    as ->.
  { unfold Py.eqb. apply bool_decide_eq_false.
    destruct (Py.truthy tp); [done | discriminate]. }
  cbn [mbind result_bind]. eexists. split; [reflexivity |]. by repeat split.
Qed.

(** A generated source that names a provider class the environment does
    not hold raises [ProviderNotFound]; one that names an operation its
    class does not hold raises [ProviderMethodNotFound]. *)
Theorem init_unknown_provider (cls_name fn_name args_str : string)
    (user_fk name : option string) (tp : value)
    (aggregate label : option string) (filter_by is_pk : bool) :
  plain_names cls_name fn_name →
  (locate env ("anonymizer.datasource.providers." ++ cls_name) = None →
   Property.init env (generated_source cls_name fn_name args_str) user_fk name tp
                 aggregate label filter_by is_pk =
   Err (ProviderNotFound
          ("Provider anonymizer.datasource.providers." ++ cls_name ++
           " was not found")))
  ∧ (∀ cls,
       locate env ("anonymizer.datasource.providers." ++ cls_name) = Some cls →
       getattr cls fn_name = None →
       Property.init env (generated_source cls_name fn_name args_str) user_fk name tp
                     aggregate label filter_by is_pk =
       Err (ProviderMethodNotFound
              ("Provider method " ++ fn_name ++ " was not found"))).
Proof.
  intros Hnames.
  destruct (init_generated_source cls_name fn_name args_str user_fk name tp
              aggregate label filter_by is_pk Hnames) as (column & ->).
  cbn zeta. split.
  - intros ->. reflexivity.
  - intros cls -> ->. reflexivity.
Qed.

(** The type [###] is replaced by what the operation [method__type] of
    the class returns for the arguments; without such an operation the
    constructor raises [ProviderMethodNotFound]. *)
Theorem init_dynamic_type (cls_name fn_name args_str : string)
    (cls : provider_class) (fn : method) (fn_args : list string)
    (user_fk name : option string)
    (aggregate label : option string) (filter_by is_pk : bool) :
  plain_names cls_name fn_name →
  locate env ("anonymizer.datasource.providers." ++ cls_name) = Some cls →
  getattr cls fn_name = Some fn →
  Csv.first_row args_str = Ok fn_args →
  (∀ fn_type t,
     getattr cls (fn_name ++ "__type") = Some fn_type →
     fn_type (VStr <$> fn_args) = Ok t →
     ∃ prop,
       Property.init env (generated_source cls_name fn_name args_str) user_fk name
                     (VStr "###") aggregate label filter_by is_pk = Ok prop
       ∧ Property.tp prop = t)
  ∧ (getattr cls (fn_name ++ "__type") = None →
     ∃ msg,
       Property.init env (generated_source cls_name fn_name args_str) user_fk name
                     (VStr "###") aggregate label filter_by is_pk =
       Err (ProviderMethodNotFound msg)).
Proof.
  intros Hnames Hcls Hfn Hargs.
  destruct (init_generated_source cls_name fn_name args_str user_fk name (VStr "###")
              aggregate label filter_by is_pk Hnames) as (column & ->).
  cbn zeta. rewrite Hcls, Hfn, Hargs. cbn [mbind result_bind Py.truthy].
  assert (Py.eqb (if negb ("###" =? EmptyString)%string then VStr "###"
                  else VStr "VARCHAR") (VStr "###") = true) as -> by reflexivity.
  split.
  - intros fn_type t -> ->. cbn [mbind result_bind]. eexists. by split.
  - intros ->. cbn [mbind result_bind]. eauto.
Qed.

End GeneratedSources.

(** ** The manager of a configuration *)

Section Managers.
Context (env : Collaborators).

(** What the constructor keeps of its arguments, when it returns. *)
Lemma init_keeps (source : string) (user_fk name : option string) (tp : value)
    (aggregate label : option string) (filter_by is_pk : bool) (prop : Property.t) :
  Property.init env source user_fk name tp aggregate label filter_by is_pk = Ok prop →
  Property.source prop = source
  ∧ Property.is_pk prop = is_pk
  ∧ Property.filter_by prop = filter_by
  ∧ Property.aggregate prop = aggregate
  ∧ (Py.opt_truthy name = true → Property.name prop = default EmptyString name).
Proof.
  unfold Property.init, Property.init_body.
  intros (s0 & _ & (table & _ & (column & _ & Hrest)%bind_Ok)%bind_Ok)%bind_Ok.
  destruct (negb (Property.source_is_generated source)).
  - apply bind_Ok in Hrest as (conn_name & _ & (conn & _ & (fk & _ & [= <-])%bind_Ok)
                                                  %bind_Ok).
    cbn. repeat split; try done. by intros ->.
  - apply bind_Ok in Hrest as (cls_part & _ & Hrest).
    destruct (locate env _) as [cls|]; [| done].
    apply bind_Ok in Hrest as (fn_part & _ & (fn_name & _ & Hrest)%bind_Ok).
    destruct (getattr cls fn_name) as [fn|]; [| done].
    apply bind_Ok in Hrest as (fn_args & _ & (tp' & _ & [= <-])%bind_Ok).
    cbn. repeat split; try done. by intros ->.
Qed.

(** The manager the constructor returns holds the primary key first,
    which [get_primary_key] finds, then one property for each entry of the
    configuration, in order, none of them a key, exposed as its entry
    says and named as its entry says; the token is the one given, or the
    fresh one when the one given is false. *)
Theorem init_manager (cfg : PropertyManager.Configuration) (token uuid4 : value)
    (self : PropertyManager.t) :
  PropertyManager.init env cfg token uuid4 = Ok self →
  ∃ props,
    PropertyManager.properties self = PropertyManager.user_pk self :: props
    ∧ PropertyManager.get_primary_key self = Some (PropertyManager.user_pk self)
    ∧ Property.filter_by (PropertyManager.user_pk self) = true
    ∧ Forall2 configured (PropertyManager.cfg_properties cfg) props
    ∧ PropertyManager.token self = (if Py.truthy token then token else uuid4).
Proof.
  unfold PropertyManager.init.
  intros (user_pk & Hpk & (props & Hprops & [= <-])%bind_Ok)%bind_Ok.
  apply init_keeps in Hpk as (_ & Hkey & Hexposed & _).
  exists props. cbn. split; [done |]. split.
  { unfold PropertyManager.get_primary_key. cbn. by rewrite Hkey. }
  split; [done |]. split; [| by destruct (Py.truthy token)].
  apply mapM_inv in Hprops. eapply Forall2_impl; [exact Hprops |].
  intros info prop Hinit. unfold PropertyManager.init_property in Hinit.
  apply init_keeps in Hinit as (Hsource & Hkey' & Hexp & Hagg & Hname).
  repeat split; try done.
  intros Hne. apply Hname. cbn. unfold Py.str_truthy.
  by apply negb_true_iff, String.eqb_neq.
Qed.

End Managers.

(** [get_property_by_name] returns the first property of the list that
    bears the name: a property declared after another of the same name is
    never found. *)
Theorem get_property_by_name_first (self : PropertyManager.t) (n : string)
    (prop : Property.t) :
  PropertyManager.get_property_by_name self n = Some prop ↔
  ∃ i, PropertyManager.properties self !! i = Some prop
       ∧ Property.name prop = n
       ∧ ∀ j q, (j < i)%nat → PropertyManager.properties self !! j = Some q →
                Property.name q ≠ n.
Proof.
  unfold PropertyManager.get_property_by_name.
  induction (PropertyManager.properties self) as [|p l IH]; cbn [List.find].
  - split; [done |]. by intros (i & Hi & _).
  - destruct (String.eqb (Property.name p) n) eqn:E.
    + apply String.eqb_eq in E. split.
      * intros [= <-]. exists O. split; [done |]. split; [done |]. lia.
      * intros (i & Hi & Hname & Hfirst). destruct i as [|i]; [by injection Hi as -> |].
        destruct (Hfirst O p); [lia | done | done].
    + apply String.eqb_neq in E. rewrite IH. split.
      * intros (i & Hi & Hname & Hfirst). exists (S i). split; [done |].
        split; [done |]. intros [|j] q Hj Hq; [by injection Hq as <- |].
        apply (Hfirst j); [lia | done].
      * intros (i & Hi & Hname & Hfirst). destruct i as [|i].
        { injection Hi as ->. done. }
        exists i. split; [done |]. split; [done |].
        intros j q Hj Hq. apply (Hfirst (S j)); [lia | done].
Qed.

(** *** Sample sources *)

Lemma init_reads_stored_source_witness :
  ∃ prop,
    Property.init Examples.env "users.age@db1" None None VNone (Some "max") None
                  true false = Ok prop
    ∧ Property.table prop = "users"
    ∧ Property.column prop = "age"
    ∧ Property.connection prop = Some Examples.db1
    ∧ Property.full prop = "max(users.age)".
Proof.
  destruct (init_reads_stored_source Examples.env "users" "age" "db1" Examples.db1
              None VNone (Some "max") None true false)
    as (prop & Hinit & Htable & Hcolumn & Hconn & _ & Hfull & _).
  - unfold plain_parts, without. repeat split; apply (bool_decide_unpack _); by vm_compute.
  - reflexivity.
  - reflexivity.
  - exists prop. auto.
Defined.

Lemma init_reads_generated_source_witness :
  ∃ prop,
    Property.init Examples.env "^Echo.identity(@name,1.5)" (Some "orders.user_id@db1")
                  (Some "alias") VNone None None true false = Ok prop
    ∧ Property.fn_args prop = ["@name"; "1.5"]
    ∧ Property.user_fk prop = None
    ∧ Property.tp prop = VStr "VARCHAR".
Proof.
  destruct (init_reads_generated_source Examples.env "Echo" "identity" "@name,1.5"
              Examples.Echo Examples.identity ["@name"; "1.5"]
              (Some "orders.user_id@db1") (Some "alias") VNone None None true false)
    as (prop & Hinit & _ & _ & Hargs & _ & Hfk & Htp).
  - unfold plain_names, without. repeat split; apply (bool_decide_unpack _); by vm_compute.
  - reflexivity.
  - reflexivity.
  - by vm_compute.
  - discriminate.
  - exists prop. auto.
Defined.

Lemma init_unknown_provider_witness :
  Property.init Examples.env "^Nope.identity(@name)" None (Some "alias") VNone None None
                true false =
  Err (ProviderNotFound "Provider anonymizer.datasource.providers.Nope was not found")
  ∧ Property.init Examples.env "^Echo.nope(@name)" None (Some "alias") VNone None None
                  true false =
    Err (ProviderMethodNotFound "Provider method nope was not found").
Proof.
  split.
  - apply (init_unknown_provider Examples.env "Nope" "identity" "@name" None
             (Some "alias") VNone None None true false).
    + unfold plain_names, without.
      repeat split; apply (bool_decide_unpack _); by vm_compute.
    + reflexivity.
  - apply (proj2 (init_unknown_provider Examples.env "Echo" "nope" "@name" None
                    (Some "alias") VNone None None true false
                    ltac:(unfold plain_names, without;
                          repeat split; apply (bool_decide_unpack _); by vm_compute))
                 Examples.Echo); reflexivity.
Defined.

Lemma init_dynamic_type_witness :
  (∃ prop,
     Property.init typed_env "^Typed.const()" None (Some "k") (VStr "###") None None
                   true false = Ok prop
     ∧ Property.tp prop = VStr "INT")
  ∧ ∃ msg,
      Property.init typed_env "^Echo.const()" None (Some "k") (VStr "###") None None
                    true false = Err (ProviderMethodNotFound msg).
Proof.
  split.
  - apply (proj1 (init_dynamic_type typed_env "Typed" "const" EmptyString
                    Typed Examples.const [] None (Some "k") None None true false
                    ltac:(unfold plain_names, without;
                          repeat split; apply (bool_decide_unpack _); by vm_compute)
                    eq_refl eq_refl eq_refl)
                 (fun _ => Ok (VStr "INT")) (VStr "INT")); reflexivity.
  - apply (proj2 (init_dynamic_type typed_env "Echo" "const" EmptyString
                    Examples.Echo Examples.const [] None (Some "k") None None true false
                    ltac:(unfold plain_names, without;
                          repeat split; apply (bool_decide_unpack _); by vm_compute)
                    eq_refl eq_refl eq_refl)).
    reflexivity.
Defined.

Lemma init_manager_witness :
  ∃ self,
    PropertyManager.init Examples.env (Examples.site Examples.hidden_salt)
                         VNone (VStr "uuid4") = Ok self
    ∧ PropertyManager.get_primary_key self = Some (PropertyManager.user_pk self)
    ∧ PropertyManager.token self = VStr "uuid4".
Proof.
  destruct (PropertyManager.init Examples.env (Examples.site Examples.hidden_salt)
              VNone (VStr "uuid4")) as [self|] eqn:Hinit;
    [| vm_compute in Hinit; discriminate Hinit].
  exists self. split; [reflexivity |].
  destruct (init_manager Examples.env (Examples.site Examples.hidden_salt)
              VNone (VStr "uuid4") self Hinit) as (props & _ & Hkey & _ & _ & Htoken).
  auto.
Defined.

Lemma get_property_by_name_first_witness :
  PropertyManager.get_property_by_name
    (Examples.manager [Examples.entry "users.name@db1" "id"] sample_token) "id" =
  Some (PropertyManager.user_pk
          (Examples.manager [Examples.entry "users.name@db1" "id"] sample_token)).
Proof.
  apply (get_property_by_name_first
           (Examples.manager [Examples.entry "users.name@db1" "id"] sample_token)).
  exists O. split; [reflexivity |]. split; [reflexivity |]. lia.
Defined.

(** ** Runs of the differential merge and of the resolver *)

Lemma mapM_id {A : Type} (f : A → outcome A) (l : list A) :
  (∀ x, f x = Ok x) → mapM f l = Ok l.
Proof.
  intros Hf. induction l as [|x l IH]; [done |]. cbn [mapM]. by rewrite Hf, IH.
Qed.

Lemma Forall2_same {A : Type} (R : A → A → Prop) (l out : list A) :
  Forall2 R l out → (∀ x y, x ∈ l → R x y → x = y) → l = out.
Proof.
  induction 1 as [|x y l out Hxy _ IH]; intros Hsame; [done |].
  rewrite (Hsame x y); [| by left | done].
  f_equal. apply IH. intros. apply Hsame; [by right | done].
Qed.

Section CombineLaws.
Context (depth : nat) (self : UserManager.t).

(** On a first run, with no old record, [combine] returns the new list
    as it is, whatever the manager. *)
Theorem combine_first_run (new_list : list record) :
  UserManager.combine depth self [] new_list = Ok new_list.
Proof.
  unfold UserManager.combine. by apply mapM_id.
Qed.

Lemma find_old_merged (pk : option Property.t) (user : record)
    (old_list : list record) (found : option record) :
  UserManager.find_old depth self pk user old_list = Ok found →
  match found with
  | None => True
  | Some u => ∃ old_user, old_user ∈ old_list
                ∧ UserManager.merge depth self old_user user = Ok u
  end.
Proof.
  induction old_list as [|old_user l IH]; cbn [UserManager.find_old].
  - by intros [= <-].
  - intros (ko & _ & (kn & _ & Hrest)%bind_Ok)%bind_Ok.
    destruct (Py.eqb ko kn).
    + destruct (UserManager.merge depth self old_user user) as [u|] eqn:Hu; [| done].
      injection Hrest as <-. exists old_user. split; [by left | done].
    + specialize (IH Hrest). destruct found as [u|]; [| done].
      destruct IH as (o & Ho & Hm). exists o. split; [by right | done].
Qed.

Lemma combine_stands_for (old_list new_list out : list record) :
  UserManager.combine depth self old_list new_list = Ok out →
  Forall2 (stands_for self old_list) new_list out.
Proof.
  unfold UserManager.combine. intros Hout%mapM_inv.
  eapply Forall2_impl; [exact Hout |]. clear. intros user u.
  intros (found & Hfound%find_old_merged & Hu)%bind_Ok.
  destruct found as [u'|]; injection Hu as <-.
  - destruct Hfound as (old_user & Hin & Hmerge). unfold UserManager.merge in Hmerge.
    split.
    + intros k Hk. eapply merge_lookup; [exact Hmerge |]. intros prop Hp. by apply Hk.
    + intros k. destruct (merge_values _ _ _ _ _ _ k Hmerge) as [? | ?]; eauto.
  - split; [done | by left].
Qed.

(** [combine] returns one record for each new record, in the order of the
    new list; the values of the stored properties are those of the new
    record, and every value is that of the new record or of an old one.
    Records that are in the old list only are dropped. *)
Theorem combine_record_by_record (old_list new_list out : list record) :
  UserManager.combine depth self old_list new_list = Ok out →
  Forall2 (stands_for self old_list) new_list out.
Proof. apply combine_stands_for. Qed.

Lemma foldM_step_of {A S : Type} (step : S → A → outcome S) (l : list A) (x : A) :
  x ∈ l → ∀ s s', foldM step l s = Ok s' → ∃ s1 s2, step s1 x = Ok s2.
Proof.
  induction l as [|y l IH]; intros Hx s s'; [by apply elem_of_nil in Hx |].
  cbn [foldM]. intros (s1 & Hs1 & Hrest)%bind_Ok.
  apply elem_of_cons in Hx as [-> | Hx]; [eauto |]. by eapply IH.
Qed.

Lemma merge_needs_value (old_user user : record) (prop : Property.t) :
  prop ∈ PropertyManager.properties (UserManager.pm self) →
  Property.is_generated prop = true →
  Forall (fun arg => is_reference arg = false) (Property.fn_args prop) →
  old_user !! Property.name prop = None →
  ∃ e, UserManager.merge depth self old_user user = Err e.
Proof.
  intros Hin Hgen Hargs Hnone.
  destruct (UserManager.merge depth self old_user user) as [u|e] eqn:Hmerge; [| eauto].
  exfalso. unfold UserManager.merge in Hmerge.
  destruct (foldM_step_of _ _ _ Hin _ _ Hmerge) as (u1 & u2 & Hstep).
  apply merge_step_Ok in Hstep
    as [(Hg & _) | (_ & deps & Hdeps & [(Hdirty & _) | (_ & v & Hv & _)])].
  - congruence.
  - apply get_dependencies_literals in Hdeps as ->; [| done]. done.
  - congruence.
Qed.

(** A generated property that reads no other property is carried
    forward from the old record, so the old record must hold it: when an
    old and a new record have the same key and the old record has no
    value for such a property, [combine] raises.  The records [info]
    returns have no value for a hidden property. *)
Theorem combine_needs_old_value (pk prop : Property.t) (v : value)
    (old_user user : record) (old_rest new_rest : list record) :
  PropertyManager.get_primary_key (UserManager.pm self) = Some pk →
  old_user !! Property.name pk = Some v →
  user !! Property.name pk = Some v →
  prop ∈ PropertyManager.properties (UserManager.pm self) →
  Property.is_generated prop = true →
  Forall (fun arg => is_reference arg = false) (Property.fn_args prop) →
  old_user !! Property.name prop = None →
  ∃ e, UserManager.combine depth self (old_user :: old_rest) (user :: new_rest) = Err e.
Proof.
  intros Hpk Hold Hnew Hin Hgen Hargs Hnone.
  destruct (merge_needs_value old_user user prop Hin Hgen Hargs Hnone) as [e He].
  exists e. unfold UserManager.combine. rewrite Hpk.
  cbn [mapM UserManager.find_old UserManager.pk_value]. rewrite Hold, Hnew.
  cbn [mbind result_bind].
  assert (Py.eqb v v = true) as -> by (by apply bool_decide_eq_true).
  by rewrite He.
Qed.

Lemma merge_same (r u : record) :
  UserManager.merge depth self r r = Ok u → u = r.
Proof.
  unfold UserManager.merge.
  apply (foldM_invariant (fun u => u = r)); [| done].
  intros u0 prop u1 _ -> Hstep.
  apply merge_step_Ok in Hstep
    as [(_ & ->) | (_ & deps & _ & [(_ & ->) | (_ & v & Hv & ->)])]; [done | done |].
  by apply insert_id.
Qed.

Lemma find_old_same_key (pk : Property.t) (user : record)
    (old_list : list record) (found : option record) :
  UserManager.find_old depth self (Some pk) user old_list = Ok found →
  match found with
  | None => ∀ old_user, old_user ∈ old_list →
              old_user !! Property.name pk ≠ user !! Property.name pk
  | Some u => ∃ old_user, old_user ∈ old_list
                ∧ old_user !! Property.name pk = user !! Property.name pk
                ∧ UserManager.merge depth self old_user user = Ok u
  end.
Proof.
  induction old_list as [|old_user l IH]; cbn [UserManager.find_old].
  - intros [= <-]. by intros ? ?%elem_of_nil.
  - intros (ko & Hko & (kn & Hkn & Hrest)%bind_Ok)%bind_Ok.
    unfold UserManager.pk_value in Hko, Hkn.
    destruct (old_user !! Property.name pk) as [vo|] eqn:Ho; [| done].
    destruct (user !! Property.name pk) as [vn|] eqn:Hn; [| done].
    injection Hko as <-. injection Hkn as <-.
    unfold Py.eqb in Hrest. case_bool_decide as Heq.
    + destruct (UserManager.merge depth self old_user user) as [u|] eqn:Hu; [| done].
      injection Hrest as <-. exists old_user. split; [by left |].
      split; [congruence | done].
    + specialize (IH Hrest). destruct found as [u|].
      * destruct IH as (o & Hin & Hkey & Hm). exists o.
        split; [by right |]. split; [congruence | done].
      * intros o [-> | Hin]%elem_of_cons.
        -- congruence.
        -- intros Hsame. apply (IH o Hin). congruence.
Qed.

(** Combining a list with itself changes nothing, when its records have
    different keys and [combine] returns. *)
Theorem combine_same_run (pk : Property.t) (l out : list record) :
  PropertyManager.get_primary_key (UserManager.pm self) = Some pk →
  NoDup ((fun r => r !! Property.name pk) <$> l) →
  UserManager.combine depth self l l = Ok out →
  out = l.
Proof.
  intros Hpk Hnd Hout. unfold UserManager.combine in Hout. rewrite Hpk in Hout.
  apply mapM_inv in Hout. symmetry.
  assert (∀ user u, user ∈ l →
            (UserManager.find_old depth self (Some pk) user l
               ≫= λ found, match found with Some u => Ok u | None => Ok user end)
            = Ok u → user = u) as Hsame.
  { intros user u Hin (found & Hfound%find_old_same_key & Hu)%bind_Ok.
    destruct found as [u'|]; injection Hu as <-; [| done].
    destruct Hfound as (old_user & Hold & Hkey & Hmerge).
    apply list_elem_of_lookup in Hin as [i Hi]. apply list_elem_of_lookup in Hold as [j Hj].
    pose proof (NoDup_fmap_eq _ _ _ _ _ _ Hnd Hj Hi Hkey) as ->.
    assert (old_user = user) as -> by congruence.
    symmetry. by apply merge_same. }
  by apply (Forall2_same _ _ _ Hout).
Qed.

End CombineLaws.

Lemma foldM_mono {A S : Type} (f g : S → A → outcome S) (l : list A) :
  (∀ s x s', f s x = Ok s' → g s x = Ok s') →
  ∀ s r, foldM f l s = Ok r → foldM g l s = Ok r.
Proof.
  intros Hfg. induction l as [|x l IH]; intros s r; [done |].
  cbn [foldM]. intros (s1 & Hs1 & Hrest)%bind_Ok.
  rewrite (Hfg _ _ _ Hs1). cbn. by apply IH.
Qed.

Section ResolverLaws.
Context (self : PropertyManager.t).

(** A result of the resolver does not depend on the depth left. *)
Lemma get_dependencies_mono (d : nat) :
  ∀ prop deps, PropertyManager.get_dependencies d self prop = Ok deps →
    ∀ d', (d ≤ d')%nat → PropertyManager.get_dependencies d' self prop = Ok deps.
Proof.
  induction d as [|d IH]; intros prop deps; [done |].
  intros Hdeps [|d'] Hle; [lia |].
  destruct prop as [prop|]; [| done].
  rewrite get_dependencies_unfold in *.
  destruct (Property.is_generated prop); [| done].
  revert Hdeps. apply foldM_mono. intros result p_name result'.
  destruct p_name as [|c ref]; [done |].
  destruct (decide (c = "@"%char)) as [-> | Hc].
  - rewrite !dependency_step_ref. intros (deps' & Hdeps' & [= <-])%bind_Ok.
    rewrite (IH _ _ Hdeps' d'); [done | lia].
  - by rewrite !dependency_step_literal.
Qed.

Lemma closure_closed (d : nat) :
  ∀ prop deps, PropertyManager.get_dependencies d self prop = Ok deps →
    ∀ dep, dep ∈ deps →
      ∃ deps', PropertyManager.get_dependencies d self (Some dep) = Ok deps'
               ∧ ∀ x, x ∈ deps' → x ∈ deps.
Proof.
  induction d as [|d IH]; intros prop deps; [done |].
  destruct prop as [prop|]; [| done]. rewrite get_dependencies_unfold.
  destruct (Property.is_generated prop); [| by intros [= <-] dep ?%elem_of_nil].
  intros Hfold dep Hdep.
  assert (∃ deps', PropertyManager.get_dependencies d self (Some dep) = Ok deps'
                   ∧ ∀ x, x ∈ deps' → x ∈ deps) as (deps' & Hdeps' & Hsub).
  2: { exists deps'. split; [| done]. apply (get_dependencies_mono d _ _ Hdeps'). lia. }
  revert dep Hdep. revert Hfold.
  apply (foldM_invariant
           (fun result => ∀ dep, dep ∈ result →
              ∃ deps', PropertyManager.get_dependencies d self (Some dep) = Ok deps'
                       ∧ ∀ x, x ∈ deps' → x ∈ result)).
  2: by intros dep ?%elem_of_nil.
  intros result p_name result' _ Hresult Hstep.
  destruct p_name as [|c ref]; [done |].
  destruct (decide (c = "@"%char)) as [-> | Hc].
  - rewrite dependency_step_ref in Hstep.
    apply bind_Ok in Hstep as (deps0 & Hdeps0 & [= <-]).
    destruct (PropertyManager.get_property_by_name self ref) as [dep0|] eqn:Hdep0.
    2: { by destruct d. }
    cbn [option_list].
    intros dep [Hdep | [Hdep | Hdep]%elem_of_app]%elem_of_app.
    + destruct (Hresult dep Hdep) as (deps' & Hd & Hsub). exists deps'.
      split; [done |]. intros x Hx. apply elem_of_app. left. by apply Hsub.
    + apply list_elem_of_singleton in Hdep as ->. exists deps0. split; [done |].
      intros x Hx. rewrite !elem_of_app. right. by right.
    + destruct (IH _ _ Hdeps0 dep Hdep) as (deps' & Hd & Hsub). exists deps'.
      split; [done |]. intros x Hx. rewrite !elem_of_app. right. right. by apply Hsub.
  - rewrite dependency_step_literal in Hstep by done. injection Hstep as <-.
    exact Hresult.
Qed.

Lemma closure_direct (d : nat) (prop : Property.t) (deps : list Property.t)
    (ref : string) :
  Property.is_generated prop = true →
  PropertyManager.get_dependencies d self (Some prop) = Ok deps →
  String "@" ref ∈ Property.fn_args prop →
  ∃ dep, PropertyManager.get_property_by_name self ref = Some dep ∧ dep ∈ deps.
Proof.
  destruct d as [|d]; [done |]. rewrite get_dependencies_unfold. intros -> Hfold Href.
  apply list_elem_of_split in Href as (pre & post & Hargs). rewrite Hargs in Hfold.
  rewrite foldM_app in Hfold. apply bind_Ok in Hfold as (r1 & _ & Hfold).
  cbn [foldM] in Hfold. apply bind_Ok in Hfold as (r2 & Hstep & Hfold).
  rewrite dependency_step_ref in Hstep.
  apply bind_Ok in Hstep as (deps0 & Hdeps0 & [= <-]).
  destruct (PropertyManager.get_property_by_name self ref) as [dep|] eqn:Hdep.
  2: { by destruct d. }
  exists dep. split; [done |]. revert Hfold.
  apply (foldM_invariant (fun result => dep ∈ result)).
  2: { rewrite !elem_of_app. right. left. by left. }
  intros result p_name result' _ Hresult Hstep.
  destruct p_name as [|c ref']; [done |].
  destruct (decide (c = "@"%char)) as [-> | Hc].
  - rewrite dependency_step_ref in Hstep.
    apply bind_Ok in Hstep as (deps1 & _ & [= <-]). apply elem_of_app. by left.
  - rewrite dependency_step_literal in Hstep by done. by injection Hstep as <-.
Qed.

(** What the resolver returns for a property holds the property of each
    of its references, and with each property it holds, all that the
    resolver returns for that property: it is closed under dependency. *)
Theorem get_dependencies_closed (depth : nat) (prop : Property.t)
    (deps : list Property.t) :
  PropertyManager.get_dependencies depth self (Some prop) = Ok deps →
  (Property.is_generated prop = true →
   ∀ ref, String "@" ref ∈ Property.fn_args prop →
     ∃ dep, PropertyManager.get_property_by_name self ref = Some dep ∧ dep ∈ deps)
  ∧ ∀ dep, dep ∈ deps →
      ∃ deps', PropertyManager.get_dependencies depth self (Some dep) = Ok deps'
               ∧ ∀ x, x ∈ deps' → x ∈ deps.
Proof.
  intros Hdeps. split.
  - intros Hgen ref Href. by eapply closure_direct.
  - by eapply closure_closed.
Qed.

(** The resolver stops at the first argument it cannot resolve: an empty
    argument raises [IndexError] (which [info] skips), a reference to a
    name no property bears raises [AttributeError] (for which [info]
    raises [PropertyNotFoundException]). *)
Theorem get_dependencies_raises (depth : nat) (prop : Property.t)
    (pre post : list string) (arg : string) :
  Property.is_generated prop = true →
  Property.fn_args prop = (pre ++ arg :: post)%list →
  resolves (S depth) self pre →
  (arg = EmptyString →
   PropertyManager.get_dependencies (S (S depth)) self (Some prop) = Err IndexError)
  ∧ (∀ ref, arg = String "@" ref →
       PropertyManager.get_property_by_name self ref = None →
       PropertyManager.get_dependencies (S (S depth)) self (Some prop)
       = Err AttributeError).
Proof.
  intros Hgen Hargs [result Hpre]. rewrite get_dependencies_unfold, Hgen, Hargs.
  rewrite foldM_app, Hpre. cbn [mbind result_bind foldM]. split.
  - intros ->. reflexivity.
  - intros ref -> Hnone. rewrite dependency_step_ref, Hnone. reflexivity.
Qed.

End ResolverLaws.

(** *** Sample runs *)

Lemma combine_record_by_record_witness :
  ∃ out,
    UserManager.combine 5 sample_users [sample_old] [sample_new; sample_other] = Ok out
    ∧ Forall2 (stands_for sample_users [sample_old]) [sample_new; sample_other] out.
Proof.
  destruct (UserManager.combine 5 sample_users [sample_old] [sample_new; sample_other])
    as [out|] eqn:Hout; [| vm_compute in Hout; discriminate Hout].
  exists out. split; [reflexivity |].
  exact (combine_record_by_record 5 sample_users [sample_old]
           [sample_new; sample_other] out Hout).
Defined.

Lemma combine_needs_old_value_witness :
  ∃ e,
    UserManager.combine 5
      {| UserManager.pm := Examples.manager Examples.hidden_salt sample_token |}
      [sample_visible] [sample_visible] = Err e.
Proof.
  set (self := Examples.manager Examples.hidden_salt sample_token).
  destruct (PropertyManager.properties self !! 2%nat) as [prop|] eqn:Hprop;
    [| vm_compute in Hprop; discriminate Hprop].
  apply (combine_needs_old_value 5 {| UserManager.pm := self |}
           (PropertyManager.user_pk self) prop (VStr "k7")
           sample_visible sample_visible [] []).
  - reflexivity.
  - reflexivity.
  - reflexivity.
  - apply list_elem_of_lookup. eauto.
  - vm_compute in Hprop. by injection Hprop as <-.
  - vm_compute in Hprop. injection Hprop as <-. constructor.
  - vm_compute in Hprop. by injection Hprop as <-.
Defined.

Lemma combine_same_run_witness :
  ∃ out,
    UserManager.combine 5 sample_users [sample_old; sample_other]
                        [sample_old; sample_other] = Ok out
    ∧ out = [sample_old; sample_other].
Proof.
  destruct (UserManager.combine 5 sample_users [sample_old; sample_other]
              [sample_old; sample_other]) as [out|] eqn:Hout;
    [| vm_compute in Hout; discriminate Hout].
  exists out. split; [reflexivity |].
  apply (combine_same_run 5 sample_users
           (PropertyManager.user_pk (UserManager.pm sample_users))
           [sample_old; sample_other] out).
  - reflexivity.
  - apply (bool_decide_unpack _). by vm_compute.
  - exact Hout.
Defined.

Lemma get_dependencies_closed_witness :
  ∃ prop deps,
    PropertyManager.properties (UserManager.pm sample_users) !! 3%nat = Some prop
    ∧ PropertyManager.get_dependencies 5 (UserManager.pm sample_users) (Some prop)
      = Ok deps
    ∧ ∃ dep, PropertyManager.get_property_by_name (UserManager.pm sample_users) "salt"
             = Some dep ∧ dep ∈ deps.
Proof.
  destruct (PropertyManager.properties (UserManager.pm sample_users) !! 3%nat)
    as [prop|] eqn:Hprop; [| vm_compute in Hprop; discriminate Hprop].
  destruct (PropertyManager.get_dependencies 5 (UserManager.pm sample_users) (Some prop))
    as [deps|] eqn:Hdeps.
  2: { vm_compute in Hprop. injection Hprop as <-. vm_compute in Hdeps.
       discriminate Hdeps. }
  exists prop, deps. split; [reflexivity |]. split; [exact Hdeps |].
  apply (proj1 (get_dependencies_closed (UserManager.pm sample_users) 5 prop deps Hdeps)).
  - vm_compute in Hprop. by injection Hprop as <-.
  - vm_compute in Hprop. injection Hprop as <-. by left.
Defined.

Lemma get_dependencies_raises_witness :
  (∃ prop,
     PropertyManager.properties (Examples.manager Examples.empty_argument sample_token)
       !! 2%nat = Some prop
     ∧ PropertyManager.get_dependencies 2
         (Examples.manager Examples.empty_argument sample_token) (Some prop)
       = Err IndexError)
  ∧ ∃ prop,
      PropertyManager.properties (Examples.manager Examples.undeclared sample_token)
        !! 2%nat = Some prop
      ∧ PropertyManager.get_dependencies 2
          (Examples.manager Examples.undeclared sample_token) (Some prop)
        = Err AttributeError.
Proof.
  split.
  - destruct (PropertyManager.properties
                (Examples.manager Examples.empty_argument sample_token) !! 2%nat)
      as [prop|] eqn:Hprop; [| vm_compute in Hprop; discriminate Hprop].
    exists prop. split; [reflexivity |].
    apply (proj1 (get_dependencies_raises
                    (Examples.manager Examples.empty_argument sample_token)
                    0 prop ["a"] [] EmptyString
                    ltac:(vm_compute in Hprop; by injection Hprop as <-)
                    ltac:(vm_compute in Hprop; by injection Hprop as <-)
                    ltac:(by exists []))).
    reflexivity.
  - destruct (PropertyManager.properties
                (Examples.manager Examples.undeclared sample_token) !! 2%nat)
      as [prop|] eqn:Hprop; [| vm_compute in Hprop; discriminate Hprop].
    exists prop. split; [reflexivity |].
    apply (proj2 (get_dependencies_raises
                    (Examples.manager Examples.undeclared sample_token)
                    0 prop [] [] "@nickname"
                    ltac:(vm_compute in Hprop; by injection Hprop as <-)
                    ltac:(vm_compute in Hprop; by injection Hprop as <-)
                    ltac:(by exists [])) "nickname").
    + reflexivity.
    + by vm_compute.
Defined.

(** ** Rows, queries and counts *)

Lemma filter_position {A : Type} (P : A → bool) (l : list A) (i : nat) (x : A) :
  l !! i = Some x → P x = true →
  List.filter P l !! List.length (List.filter P (take i l)) = Some x.
Proof.
  revert i. induction l as [|y l IH]; intros i Hi Hx; [done |].
  destruct i as [|i].
  - injection Hi as ->. cbn. by rewrite Hx.
  - cbn [take List.filter]. cbn in Hi. destruct (P y); cbn; by apply IH.
Qed.

Section Rows.
Context (self : PropertyManager.t).

(** The query selects the stored properties in the order in which [info]
    reads the row: the column of the property at position [i] of the list
    is at the index of the row that [info] reads for it, the number of
    stored properties before it. *)
Theorem select_follows_row (i : nat) (prop : Property.t) :
  PropertyManager.properties self !! i = Some prop →
  Property.is_generated prop = false →
  select_columns self !! stored_count (take i (PropertyManager.properties self)) =
  Some (Property.full prop ++ " AS " ++ Property.name prop)
  ∧ PropertyManager.select_clause self =
    "SELECT " ++ Py.join "," (select_columns self) ++ " ".
Proof.
  intros Hi Hg. split; [| reflexivity].
  unfold select_columns, PropertyManager.stored, stored_count.
  rewrite list_lookup_fmap.
  rewrite (filter_position _ _ i prop Hi); [done |]. by rewrite Hg.
Qed.

(** [all] returns one record for each row the query finds, when the
    references are resolved in declaration order, every row has a column
    for every stored property and the providers return. *)
Theorem all_returns (conn : Connection) (rows : list row) :
  Property.connection (PropertyManager.user_pk self) = Some conn →
  execute conn (PropertyManager.all_query self) = Ok rows →
  declared_before self = true →
  Forall (fun rw => (stored_count (PropertyManager.properties self)
                     ≤ List.length rw)%nat) rows →
  providers_return (PropertyManager.properties self) →
  ∃ out, PropertyManager.all self = Ok out
         ∧ Forall2 (fun rw r => PropertyManager.info self (Some rw) = Ok r) rows out.
Proof.
  intros Hconn Hrows Horder Hlong Hret.
  unfold PropertyManager.all, PropertyManager.pk_connection.
  rewrite Hconn. cbn [mbind result_bind]. rewrite Hrows. cbn [mbind result_bind].
  apply mapM_Forall2. intros rw Hrw.
  rewrite Forall_forall in Hlong.
  destruct (proj2 (info_in_order self (Some rw) Horder) rw eq_refl (Hlong rw Hrw) Hret)
    as [r Hr].
  eauto.
Qed.

(** With unique names, the filters [list_filters] offers are the keys of
    the records [info] returns: the names of the exposed properties. *)
Theorem list_filters_are_exposed (n : string) :
  NoDup (names self) →
  (∃ label tp, (n, label, tp) ∈ PropertyManager.list_filters self)
  ↔ PropertyManager.exposed self n = true.
Proof.
  intros Hnd. unfold PropertyManager.list_filters, PropertyManager.exposed. split.
  - intros (label & tp & (prop & [= -> -> ->] & Hin)%list_elem_of_fmap).
    apply list_elem_of_In, filter_In in Hin as [Hin Hexp].
    apply list_elem_of_In, list_elem_of_lookup in Hin as [i Hi].
    by rewrite (lookup_unique self i prop Hnd Hi).
  - destruct (PropertyManager.get_property_by_name self n) as [prop|] eqn:E; [| done].
    intros Hexp. destruct (get_property_by_name_Some self n prop E) as [Hin <-].
    exists (Property.label prop), (Property.tp prop).
    apply list_elem_of_fmap. exists prop. split; [done |].
    apply list_elem_of_In, filter_In. split; [by apply list_elem_of_In | done].
Qed.

End Rows.

(** [count] is the length of what [filter] returns, for every argument:
    without filters both run [all]. *)
Theorem count_is_length_of_filter `{FloatOps} (self : UserManager.t)
    (filters : PropertyManager.filters_arg) :
  UserManager.count self filters = List.length <$> UserManager.filter self filters.
Proof.
  unfold UserManager.count, UserManager.filter, PropertyManager.filter.
  destruct (PropertyManager.filters_truthy filters); cbn [negb].
  - destruct (PropertyManager.separate _ _ ≫= _); reflexivity.
  - destruct (PropertyManager.all _); reflexivity.
Qed.

(** *** Sample rows *)

Lemma select_follows_row_witness :
  select_columns (Examples.manager Examples.basic sample_token) !! 2%nat =
  Some "users.age AS age".
Proof.
  destruct (PropertyManager.properties (Examples.manager Examples.basic sample_token)
              !! 2%nat) as [prop|] eqn:Hprop;
    [| vm_compute in Hprop; discriminate Hprop].
  destruct (select_follows_row (Examples.manager Examples.basic sample_token) 2 prop
              Hprop) as [Hcolumn _].
  - vm_compute in Hprop. by injection Hprop as <-.
  - vm_compute in Hprop. injection Hprop as <-. exact Hcolumn.
Defined.

Lemma all_returns_witness :
  ∃ out,
    PropertyManager.all (Examples.manager Examples.basic sample_token) = Ok out
    ∧ List.length out = 2%nat.
Proof.
  destruct (all_returns (Examples.manager Examples.basic sample_token)
              Examples.db1 Examples.rows) as (out & Hall & Hrows).
  - reflexivity.
  - reflexivity.
  - by vm_compute.
  - repeat (apply Forall_cons_2; [vm_compute; lia |]). apply Forall_nil_2.
  - exact basic_providers_return.
  - exists out. split; [exact Hall |]. symmetry. exact (Forall2_length _ _ _ Hrows).
Defined.

Lemma list_filters_are_exposed_witness :
  (∃ label tp, ("name", label, tp)
               ∈ PropertyManager.list_filters
                   (Examples.manager Examples.hidden_salt sample_token))
  ∧ ¬ ∃ label tp, ("salt", label, tp)
                  ∈ PropertyManager.list_filters
                      (Examples.manager Examples.hidden_salt sample_token).
Proof.
  assert (NoDup (names (Examples.manager Examples.hidden_salt sample_token))) as Hnd.
  { apply (bool_decide_unpack _). by vm_compute. }
  split.
  - apply (list_filters_are_exposed
             (Examples.manager Examples.hidden_salt sample_token) "name" Hnd).
    by vm_compute.
  - intros Hsalt.
    apply (list_filters_are_exposed
             (Examples.manager Examples.hidden_salt sample_token) "salt" Hnd) in Hsalt.
    vm_compute in Hsalt. discriminate Hsalt.
Defined.
